(** * health-clock: the phase / reminder engine of [src/app/page.tsx]

    The component [HealthClock] is embedded as an event-driven state
    machine.  A state holds the values of the [useState] hooks, the two
    timer refs and the part of the host the component talks to: the clock,
    the table of pending [setTimeout]/[setInterval] timers, the audio
    promises still awaited and the log of audio calls.  One step is one
    macro-task of the page: an event handler or a timer callback runs, then
    React commits the render and runs the effects whose dependencies
    changed, until no state update is left.

    Numbers are integers ([Z]); the only division of the engine,
    [getProgressPercentage], is computed on exact rationals.

    Scope of the model, where it is narrower than the code:
    - the arithmetic is exact, so the engine agrees with the doubles of the
      code as long as every number stays a safe integer (at most 2^53 - 1
      in absolute value);
    - the settings of the engine have the typed shape of [TimerSettings]:
      integer durations and limits, one of the three units.  That is what
      the settings panel produces.  The load effect keeps any truthy stored
      value; [loadSettings] models it on raw values, and a run that starts
      from a stored duration that is no integer is outside [reachable];
    - [getProgressPercentage] gives the exact quotient where the code gives
      the nearest double;
    - [parseInt] reads texts of ASCII characters: of the white space that
      [Number.parseInt] skips, only the ASCII part is modelled. *)

From Stdlib Require Import ZArith List Bool String Ascii QArith Lia.
From Stdlib Require DecimalString DecimalZ DecimalPos.
Import ListNotations.
Local Open Scope Z_scope.

(** ** Data model (lines 13-23) *)

Inductive TimerState := idle | working | resting.
Inductive TimeUnit := hours | minutes | seconds.
Inductive DialogType := work | rest.

Record TimerSettings := mkSettings {
  workDuration : Z;
  workUnit : TimeUnit;
  restDuration : Z;
  restUnit : TimeUnit;
  workReminders : Z;
  restReminders : Z
}.

(** The initial value of the [settings] hook (lines 26-33). *)
Definition defaultSettings : TimerSettings :=
  mkSettings 25 minutes 5 minutes 3 3.

Definition TimerState_eqb (a b : TimerState) : bool :=
  match a, b with
  | idle, idle | working, working | resting, resting => true
  | _, _ => false
  end.

Definition is_idle (t : TimerState) : bool := TimerState_eqb t idle.
Definition is_working (t : TimerState) : bool := TimerState_eqb t working.

(** [convertToSeconds] (lines 181-192).  The [default] branch of the switch
    is not reachable for a value of type [TimeUnit]. *)
Definition convertToSeconds (duration : Z) (unit : TimeUnit) : Z :=
  match unit with
  | hours => duration * 3600
  | minutes => duration * 60
  | seconds => duration
  end.

Definition workSeconds (st : TimerSettings) : Z :=
  convertToSeconds (workDuration st) (workUnit st).
Definition restSeconds (st : TimerSettings) : Z :=
  convertToSeconds (restDuration st) (restUnit st).

(** ** [Number.parseInt] on the text of an input field

    Leading white space is skipped, an optional sign is read, a [0x]/[0X]
    prefix selects radix 16, and the longest prefix of digits is converted;
    [None] stands for [NaN] (no digit at all). *)

Definition is_space (c : ascii) : bool :=
  let n := nat_of_ascii c in
  Nat.eqb n 32 || (Nat.leb 9 n && Nat.leb n 13).

Fixpoint skip_spaces (s : string) : string :=
  match s with
  | String c r => if is_space c then skip_spaces r else s
  | EmptyString => s
  end.

Definition digit_of (radix : Z) (c : ascii) : option Z :=
  let n := Z.of_nat (nat_of_ascii c) in
  let d :=
    if (48 <=? n) && (n <=? 57) then Some (n - 48)
    else if (97 <=? n) && (n <=? 122) then Some (n - 87)
    else if (65 <=? n) && (n <=? 90) then Some (n - 55)
    else None in
  match d with
  | Some v => if v <? radix then Some v else None
  | None => None
  end.

(** [digits radix s acc]: the value of the longest digit prefix of [s],
    [None] when it is empty. *)
Fixpoint digits (radix : Z) (s : string) (acc : option Z) : option Z :=
  match s with
  | String c r =>
      match digit_of radix c with
      | Some d =>
          digits radix r
            (Some (match acc with Some a => a * radix + d | None => d end))
      | None => acc
      end
  | EmptyString => acc
  end.

Definition parse_unsigned (s : string) : option Z :=
  match s with
  | String "0" (String "x" r) | String "0" (String "X" r) => digits 16 r None
  | _ => digits 10 s None
  end.

Definition parseInt (s : string) : option Z :=
  match skip_spaces s with
  | String "-" r => option_map Z.opp (parse_unsigned r)
  | String "+" r => parse_unsigned r
  | r => parse_unsigned r
  end.

(** [x || d] for a number [x]: [NaN] and [0] are falsy. *)
Definition or_default (x : option Z) (d : Z) : Z :=
  match x with
  | Some v => if v =? 0 then d else v
  | None => d
  end.

(** The value stored by the two reminder inputs (lines 570 and 598):
    [Math.max(1, Math.min(100, Number.parseInt(e.target.value) || 1))]. *)
Definition clampReminders (text : string) : Z :=
  Z.max 1 (Z.min 100 (or_default (parseInt text) 1)).

(** The value stored by the two duration inputs (lines 502 and 531):
    [Number.parseInt(e.target.value) || 0]. *)
Definition parseDuration (text : string) : Z :=
  or_default (parseInt text) 0.

(** ** Host: timers, audio, clock *)

(** What a call of [playReminder] starts (lines 263-274):
    [playWorkEnd] when the render it closes over is in phase [working],
    [playRestEnd] otherwise. *)
Inductive Sound := WorkEnd | RestEnd.

(** The call site of [playReminder]: line 347 (first reminder, fired by the
    expiry effect) or line 362 (repeat, fired by [playNextReminder]). *)
Inductive Site := Entry | Repeat.

Inductive Output :=
| Notify (at_ms : Z) (snd : Sound) (site : Site)
| StopAll (at_ms : Z).

(** The environment of one [playNextReminder] closure (lines 344-373): the
    render values it captured, [showDialog] and [timerState] (the latter
    through [playReminder]), [maxReminders], and its own counter
    [currentCount].  A closure has at most one continuation pending at a
    time, which carries the environment. *)
Record ReminderEnv := mkEnv {
  cap_showDialog : bool;
  cap_timerState : TimerState;
  maxReminders : Z;
  currentCount : Z
}.

Inductive Task :=
| TickInterval                      (* line 323, [setInterval(..., 1000)] *)
| CallNext (env : ReminderEnv)      (* lines 366 and 377, [setTimeout(playNextReminder, _)] *)
| ResumeNext (env : ReminderEnv).   (* line 358, the awaited [setTimeout(resolve, 15000)] *)

Record Timer := mkTimer { tid : Z; due : Z; task : Task }.

(** ** Component state *)

Record State := mkState {
  (* useState, lines 26-41 *)
  settings : TimerSettings;
  settingsId : Z;            (* identity of the settings object *)
  timerState : TimerState;
  timeLeft : Z;
  isRunning : bool;
  showDialog : bool;
  dialogType : DialogType;
  reminderCount : Z;
  showSettings : bool;
  (* useRef, lines 45-46 *)
  intervalRef : option Z;
  reminderIntervalRef : option Z;
  (* host *)
  now : Z;                   (* milliseconds *)
  nextId : Z;                (* next timer handle *)
  timers : list Timer;       (* pending timers *)
  promises : list ReminderEnv;  (* [await playReminder()] not yet settled, line 362 *)
  log : list Output          (* audio calls, latest first *)
}.

(** Field updates.  [set_settings] installs a new settings object: its
    identity changes with it, whatever the values. *)
Definition set_settings v (s : State) : State :=
  let '(mkState st sid ts tl run dlg dt rc shs iref rref clk nid tms prs lg) := s in
  mkState v (sid + 1) ts tl run dlg dt rc shs iref rref clk nid tms prs lg.
Definition set_timerState v (s : State) : State :=
  let '(mkState st sid ts tl run dlg dt rc shs iref rref clk nid tms prs lg) := s in
  mkState st sid v tl run dlg dt rc shs iref rref clk nid tms prs lg.
Definition set_timeLeft v (s : State) : State :=
  let '(mkState st sid ts tl run dlg dt rc shs iref rref clk nid tms prs lg) := s in
  mkState st sid ts v run dlg dt rc shs iref rref clk nid tms prs lg.
Definition set_isRunning v (s : State) : State :=
  let '(mkState st sid ts tl run dlg dt rc shs iref rref clk nid tms prs lg) := s in
  mkState st sid ts tl v dlg dt rc shs iref rref clk nid tms prs lg.
Definition set_showDialog v (s : State) : State :=
  let '(mkState st sid ts tl run dlg dt rc shs iref rref clk nid tms prs lg) := s in
  mkState st sid ts tl run v dt rc shs iref rref clk nid tms prs lg.
Definition set_dialogType v (s : State) : State :=
  let '(mkState st sid ts tl run dlg dt rc shs iref rref clk nid tms prs lg) := s in
  mkState st sid ts tl run dlg v rc shs iref rref clk nid tms prs lg.
Definition set_reminderCount v (s : State) : State :=
  let '(mkState st sid ts tl run dlg dt rc shs iref rref clk nid tms prs lg) := s in
  mkState st sid ts tl run dlg dt v shs iref rref clk nid tms prs lg.
Definition set_showSettings v (s : State) : State :=
  let '(mkState st sid ts tl run dlg dt rc shs iref rref clk nid tms prs lg) := s in
  mkState st sid ts tl run dlg dt rc v iref rref clk nid tms prs lg.
Definition set_intervalRef v (s : State) : State :=
  let '(mkState st sid ts tl run dlg dt rc shs iref rref clk nid tms prs lg) := s in
  mkState st sid ts tl run dlg dt rc shs v rref clk nid tms prs lg.
Definition set_reminderIntervalRef v (s : State) : State :=
  let '(mkState st sid ts tl run dlg dt rc shs iref rref clk nid tms prs lg) := s in
  mkState st sid ts tl run dlg dt rc shs iref v clk nid tms prs lg.
Definition set_now v (s : State) : State :=
  let '(mkState st sid ts tl run dlg dt rc shs iref rref clk nid tms prs lg) := s in
  mkState st sid ts tl run dlg dt rc shs iref rref v nid tms prs lg.
Definition set_nextId v (s : State) : State :=
  let '(mkState st sid ts tl run dlg dt rc shs iref rref clk nid tms prs lg) := s in
  mkState st sid ts tl run dlg dt rc shs iref rref clk v tms prs lg.
Definition set_timers v (s : State) : State :=
  let '(mkState st sid ts tl run dlg dt rc shs iref rref clk nid tms prs lg) := s in
  mkState st sid ts tl run dlg dt rc shs iref rref clk nid v prs lg.
Definition set_promises v (s : State) : State :=
  let '(mkState st sid ts tl run dlg dt rc shs iref rref clk nid tms prs lg) := s in
  mkState st sid ts tl run dlg dt rc shs iref rref clk nid tms v lg.
Definition set_log v (s : State) : State :=
  let '(mkState st sid ts tl run dlg dt rc shs iref rref clk nid tms prs lg) := s in
  mkState st sid ts tl run dlg dt rc shs iref rref clk nid tms prs v.

(** *** Timer table *)

Fixpoint find_timer (id : Z) (l : list Timer) : option Timer :=
  match l with
  | [] => None
  | t :: r => if tid t =? id then Some t else find_timer id r
  end.

Definition remove_timer (id : Z) (l : list Timer) : list Timer :=
  filter (fun t => negb (tid t =? id)) l.

(** [setTimeout(task, delay)] and [setInterval(task, delay)]: a fresh handle,
    the timer due [delay] ms from now. *)
Definition setTimer (tk : Task) (delay : Z) (s : State) : Z * State :=
  let id := nextId s in
  (id, set_nextId (id + 1)
         (set_timers (mkTimer id (now s + delay) tk :: timers s) s)).

(** [if (ref.current) clearInterval(ref.current)]; [clearInterval] and
    [clearTimeout] share one pool of handles. *)
Definition clearInterval (h : option Z) (s : State) : State :=
  match h with
  | Some id => set_timers (remove_timer id (timers s)) s
  | None => s
  end.

(** *** Audio *)

(** [stopAllAudio] (lines 231-261). *)
Definition stopAllAudio (s : State) : State :=
  set_log (StopAll (now s) :: log s) s.

(** [playReminder] (lines 263-274), called from a closure of the render in
    phase [ts]. *)
Definition playReminder (ts : TimerState) (site : Site) (s : State) : State :=
  set_log
    (Notify (now s) (if is_working ts then WorkEnd else RestEnd) site :: log s)
    s.

(** ** Event handlers *)

(** [startTimer] (lines 205-213). *)
Definition startTimer (s : State) : State :=
  let s :=
    if is_idle (timerState s) then
      set_showSettings false
        (set_timerState working (set_timeLeft (workSeconds (settings s)) s))
    else s in
  set_isRunning true s.

(** [pauseTimer] (lines 215-217). *)
Definition pauseTimer (s : State) : State := set_isRunning false s.

(** [resetTimer] (lines 219-229). *)
Definition resetTimer (s : State) : State :=
  let s := set_isRunning false s in
  let s := set_timerState idle s in
  let s := set_timeLeft 0 s in
  let s := set_showDialog false s in
  let s := set_reminderCount 0 s in
  let s := set_showSettings true s in
  let s := clearInterval (intervalRef s) s in
  let s := clearInterval (reminderIntervalRef s) s in
  stopAllAudio s.

(** The block shared by both dialog handlers (lines 280-287 and 310-317). *)
Definition cancelReminder (s : State) : State :=
  let s :=
    match reminderIntervalRef s with
    | Some _ => set_reminderIntervalRef None (clearInterval (reminderIntervalRef s) s)
    | None => s
    end in
  stopAllAudio s.

(** [handleDialogAction] (lines 276-303). *)
Definition handleDialogAction (s : State) : State :=
  let s := set_showDialog false s in
  let s := set_reminderCount 0 s in
  let s := cancelReminder s in
  let s :=
    match dialogType s with
    | work => set_timerState resting (set_timeLeft (restSeconds (settings s)) s)
    | rest => set_timerState working (set_timeLeft (workSeconds (settings s)) s)
    end in
  set_isRunning true s.

(** [handleDialogClose] (lines 305-318). *)
Definition handleDialogClose (s : State) : State :=
  let s := set_showDialog false s in
  let s := set_reminderCount 0 s in
  let s := set_isRunning false s in
  cancelReminder s.

(** The settings panel (lines 498-605). *)
Inductive SettingsEdit :=
| WorkDurationInput (text : string)
| WorkUnitSelect (u : TimeUnit)
| RestDurationInput (text : string)
| RestUnitSelect (u : TimeUnit)
| WorkRemindersSlider (v : Z)
| WorkRemindersInput (text : string)
| RestRemindersSlider (v : Z)
| RestRemindersInput (text : string).

Definition applyEdit (e : SettingsEdit) (p : TimerSettings) : TimerSettings :=
  match e with
  | WorkDurationInput t =>
      mkSettings (parseDuration t) (workUnit p) (restDuration p) (restUnit p)
        (workReminders p) (restReminders p)
  | WorkUnitSelect u =>
      mkSettings (workDuration p) u (restDuration p) (restUnit p)
        (workReminders p) (restReminders p)
  | RestDurationInput t =>
      mkSettings (workDuration p) (workUnit p) (parseDuration t) (restUnit p)
        (workReminders p) (restReminders p)
  | RestUnitSelect u =>
      mkSettings (workDuration p) (workUnit p) (restDuration p) u
        (workReminders p) (restReminders p)
  | WorkRemindersSlider v =>
      mkSettings (workDuration p) (workUnit p) (restDuration p) (restUnit p)
        v (restReminders p)
  | WorkRemindersInput t =>
      mkSettings (workDuration p) (workUnit p) (restDuration p) (restUnit p)
        (clampReminders t) (restReminders p)
  | RestRemindersSlider v =>
      mkSettings (workDuration p) (workUnit p) (restDuration p) (restUnit p)
        (workReminders p) v
  | RestRemindersInput t =>
      mkSettings (workDuration p) (workUnit p) (restDuration p) (restUnit p)
        (workReminders p) (clampReminders t)
  end.

(** [setSettings((prev) => ...)]: every call installs a new object. *)
Definition editSettings (e : SettingsEdit) (s : State) : State :=
  set_settings (applyEdit e (settings s)) s.

(** ** Timer callbacks *)

(** The interval callback, [setTimeLeft((prev) => prev - 1)] (line 324). *)
Definition tickCallback (s : State) : State := set_timeLeft (timeLeft s - 1) s.

Definition bump (env : ReminderEnv) : ReminderEnv :=
  mkEnv (cap_showDialog env) (cap_timerState env) (maxReminders env)
    (currentCount env + 1).

(** [playNextReminder] up to its first [await] (lines 351-358). *)
Definition playNextReminder (env : ReminderEnv) (s : State) : State :=
  if (currentCount env <? maxReminders env - 1) && cap_showDialog env then
    let env' := bump env in
    let s := set_reminderCount (currentCount env') s in
    snd (setTimer (ResumeNext env') 15000 s)
  else s.

(** [playNextReminder] after the 15 s wait (lines 360-362): the test reads
    the captured [showDialog]. *)
Definition resumeNextReminder (env : ReminderEnv) (s : State) : State :=
  if cap_showDialog env then
    let s := playReminder (cap_timerState env) Repeat s in
    set_promises (promises s ++ [env]) s
  else s.

(** [playNextReminder] after [await playReminder()] (lines 364-367). *)
Definition afterPlay (env : ReminderEnv) (s : State) : State :=
  if currentCount env <? maxReminders env - 1 then
    let (id, s) := setTimer (CallNext env) 0 s in
    set_reminderIntervalRef (Some id) s
  else s.

(** A pending timer fires, at its due time or later.  An interval stays
    registered for its next period. *)
Definition expire (id : Z) (s : State) : State :=
  match find_timer id (timers s) with
  | None => s
  | Some t =>
      let s := set_now (Z.max (now s) (due t)) s in
      match task t with
      | TickInterval =>
          let s :=
            set_timers
              (mkTimer id (now s + 1000) TickInterval :: remove_timer id (timers s))
              s in
          tickCallback s
      | CallNext env =>
          playNextReminder env (set_timers (remove_timer id (timers s)) s)
      | ResumeNext env =>
          resumeNextReminder env (set_timers (remove_timer id (timers s)) s)
      end
  end.

(** The oldest awaited audio promise settles. *)
Definition settle (s : State) : State :=
  match promises s with
  | [] => s
  | env :: r => afterPlay env (set_promises r s)
  end.

(** ** Effects

    An effect body is a closure of the render [r] that created it: it reads
    the hook values of [r], while refs, timers and the log are read from and
    written to the current store [s].  A state setter called by an effect
    writes the hook value of [s], which the next render reads. *)

(** Dependencies [[isRunning, timeLeft]] (line 333). *)
Definition dep_timer (p c : State) : bool :=
  negb (Bool.eqb (isRunning p) (isRunning c)) || negb (timeLeft p =? timeLeft c).

(** Dependencies [[timeLeft, timerState, settings]] (line 380). *)
Definition dep_expiry (p c : State) : bool :=
  negb (timeLeft p =? timeLeft c)
  || negb (TimerState_eqb (timerState p) (timerState c))
  || negb (settingsId p =? settingsId c).

(** Dependencies [[showDialog]] (line 392). *)
Definition dep_dialog (p c : State) : bool :=
  negb (Bool.eqb (showDialog p) (showDialog c)).

(** Cleanup of the main timer effect (lines 330-332). *)
Definition timer_cleanup (s : State) : State := clearInterval (intervalRef s) s.

(** Body of the main timer effect (lines 322-328). *)
Definition timer_body (r s : State) : State :=
  if isRunning r && (0 <? timeLeft r) then
    let (id, s) := setTimer TickInterval 1000 s in
    set_intervalRef (Some id) s
  else clearInterval (intervalRef s) s.

(** Body of the expiry effect (lines 337-379). *)
Definition expiry_body (r s : State) : State :=
  if (timeLeft r =? 0) && negb (is_idle (timerState r)) then
    let s := set_isRunning false s in
    let s := set_dialogType (if is_working (timerState r) then work else rest) s in
    let s := set_showDialog true s in
    let s := set_reminderCount 0 s in
    let maxR :=
      if is_working (timerState r) then workReminders (settings r)
      else restReminders (settings r) in
    let s := playReminder (timerState r) Entry s in
    let env := mkEnv (showDialog r) (timerState r) maxR 0 in
    if 1 <? maxR then
      let (id, s) := setTimer (CallNext env) 15000 s in
      set_reminderIntervalRef (Some id) s
    else s
  else s.

(** Body of the dialog effect (lines 383-392). *)
Definition dialog_body (r s : State) : State :=
  if negb (showDialog r) then cancelReminder s else s.

(** One commit: the cleanups of the effects whose dependencies changed
    between the previous render [p] and the current one [c], then their
    bodies in the order of declaration.  (The effect that saves the
    settings, lines 71-77, writes to [localStorage] only.) *)
Definition run_effects (p c : State) : State :=
  let s := if dep_timer p c then timer_cleanup c else c in
  let s := if dep_timer p c then timer_body c s else s in
  let s := if dep_expiry p c then expiry_body c s else s in
  let s := if dep_dialog p c then dialog_body c s else s in
  s.

(** Render [c] follows render [p]; the state updates of its effects trigger
    one more render, whose effects set no state (lemma [commit_settled]). *)
Definition commit (p c : State) : State :=
  run_effects c (run_effects p c).

(** ** Events and steps *)

Inductive Event :=
| Start                      (* [startTimer], line 457 *)
| Pause                      (* [pauseTimer], line 465 *)
| Reset                      (* [resetTimer], line 471 *)
| Acknowledge                (* [handleDialogAction], line 632 *)
| Dismiss                    (* [handleDialogClose], line 616 *)
| ToggleSettings             (* line 478 *)
| Edit (e : SettingsEdit)    (* lines 498-605 *)
| Expire (id : Z)            (* timer [id] fires *)
| Settle                     (* an awaited audio promise settles *)
| Wait (ms : Z).             (* time passes *)

Definition handle (e : Event) (s : State) : State :=
  match e with
  | Start => startTimer s
  | Pause => pauseTimer s
  | Reset => resetTimer s
  | Acknowledge => handleDialogAction s
  | Dismiss => handleDialogClose s
  | ToggleSettings => set_showSettings (negb (showSettings s)) s
  | Edit ed => editSettings ed s
  | Expire id => expire id s
  | Settle => settle s
  | Wait ms => set_now (now s + Z.max 0 ms) s
  end.

Definition step (s : State) (e : Event) : State := commit s (handle e s).

Definition run (s : State) (tr : list Event) : State := fold_left step tr s.

(** ** Mount *)

Definition first_render : State :=
  mkState defaultSettings 0 idle 0 false false work 0 true None None 0 1 [] [] [].

(** On mount every effect runs once.  [loaded] is what the load effect
    (lines 49-68) passes to [setSettings], if it does, when the stored
    values have the typed shape (integer numbers, one of the three units);
    what the effect does with other stored values is [loadSettings]. *)
Definition mount (loaded : option TimerSettings) : State :=
  let r := first_render in
  let s := dialog_body r (expiry_body r (timer_body r r)) in
  match loaded with
  | Some st => commit s (set_settings st s)
  | None => s
  end.

Inductive reachable : State -> Prop :=
| reach_mount loaded : reachable (mount loaded)
| reach_step s e : reachable s -> reachable (step s e).

(** Assumption on the component library.  The reminder is shown in a
    [Dialog] (lines 612-640) imported from [@/components/ui/dialog]
    (line 10), whose code is not part of the source.  [ui_enabled] takes that
    dialog to be modal: while it is open the settings panel beneath it takes
    no input.  No other event is restricted here.  Statements over
    [ui_reachable] and [ui_valid] hold under this assumption; statements
    over [reachable] do not use it. *)
Definition ui_enabled (s : State) (e : Event) : bool :=
  match e with
  | Edit _ => negb (showDialog s)
  | _ => true
  end.

Inductive ui_reachable : State -> Prop :=
| ui_mount loaded : ui_reachable (mount loaded)
| ui_step s e : ui_reachable s -> ui_enabled s e = true -> ui_reachable (step s e).

(** ** Observations *)

Definition is_notify (site : Site) (o : Output) : bool :=
  match o, site with
  | Notify _ _ Entry, Entry | Notify _ _ Repeat, Repeat => true
  | _, _ => false
  end.

(** Number of first reminders (reminder entries) and of repeats so far. *)
Definition entries (s : State) : nat := List.length (filter (is_notify Entry) (log s)).
Definition repeats (s : State) : nat := List.length (filter (is_notify Repeat) (log s)).

(** All audio notifications so far, oldest first, with their time. *)
Definition notifications (s : State) : list (Z * Sound) :=
  rev (flat_map (fun o => match o with
                          | Notify t k _ => [(t, k)]
                          | StopAll _ => []
                          end) (log s)).

(** The session shown to the user: phase, remaining seconds, running, and
    the reminder (kind and count) when the dialog is open. *)
Definition session (s : State) : TimerState * Z * bool * option (DialogType * Z) :=
  (timerState s, timeLeft s, isRunning s,
   if showDialog s then Some (dialogType s, reminderCount s) else None).

(** The interval of the main timer fires. *)
Definition tick (s : State) : State :=
  match intervalRef s with
  | Some id => step s (Expire id)
  | None => s
  end.

Fixpoint ticks (n : nat) (s : State) : State :=
  match n with
  | O => s
  | S k => ticks k (tick s)
  end.

(** ** Progress (lines 394-401) *)

(** A JavaScript number, with exact rationals for the finite ones. *)
Inductive JSNumber := Num (q : Q) | NaN | PosInfinity | NegInfinity.

Definition JS_eq (a b : JSNumber) : Prop :=
  match a, b with
  | Num x, Num y => Qeq x y
  | NaN, NaN | PosInfinity, PosInfinity | NegInfinity, NegInfinity => True
  | _, _ => False
  end.

(** [a / b] for integers [a] and [b]. *)
Definition js_div (a b : Z) : JSNumber :=
  if b =? 0 then
    if a =? 0 then NaN else if 0 <? a then PosInfinity else NegInfinity
  else Num (Qdiv (inject_Z a) (inject_Z b)).

(** [x * 100]. *)
Definition js_times100 (x : JSNumber) : JSNumber :=
  match x with
  | Num q => Num (Qmult q (inject_Z 100))
  | other => other
  end.

(** The duration of the current phase as the settings have it now. *)
Definition liveTotal (s : State) : Z :=
  if is_working (timerState s) then workSeconds (settings s)
  else restSeconds (settings s).

Definition getProgressPercentage (s : State) : JSNumber :=
  if is_idle (timerState s) then Num (inject_Z 0)
  else
    let totalTime := liveTotal s in
    js_times100 (js_div (totalTime - timeLeft s) totalTime).

(** The progress formula of the specification for a phase of [total]
    seconds with [left] seconds remaining, as a fraction. *)
Definition progressOf (total left : Z) : JSNumber := js_div (total - left) total.

(** The number of seconds an event hands to [setTimeLeft] when it arms a
    phase (lines 207-208, 291-292, 296-297). *)
Definition armedBy (e : Event) (s : State) : option Z :=
  match e with
  | Start =>
      if is_idle (timerState s) then Some (workSeconds (settings s)) else None
  | Acknowledge =>
      Some (match dialogType s with
            | work => restSeconds (settings s)
            | rest => workSeconds (settings s)
            end)
  | _ => None
  end.

Definition is_edit (e : Event) : bool :=
  match e with Edit _ => true | _ => false end.

(** A run that also remembers the duration with which the current phase was
    armed, and whether the settings were edited since. *)
Record Tracked := mkTracked { state : State; armedTotal : Z; editedSince : bool }.

Definition track (t : Tracked) (e : Event) : Tracked :=
  match armedBy e (state t) with
  | Some total => mkTracked (step (state t) e) total false
  | None =>
      mkTracked (step (state t) e) (armedTotal t) (editedSince t || is_edit e)
  end.

Definition tracked_run (loaded : option TimerSettings) (tr : list Event) : Tracked :=
  fold_left track tr (mkTracked (mount loaded) 0 false).

(** ** Loading the settings (lines 49-68) *)

(** A value produced by [JSON.parse], or [undefined]. *)
#[warnings="-register-all"]
Inductive JSValue :=
| JUndefined
| JNull
| JBool (b : bool)
| JNum (q : Q)
| JStr (s : string)
| JArr (items : list JSValue)
| JObj (fields : list (string * JSValue)).

Definition truthy (v : JSValue) : bool :=
  match v with
  | JUndefined | JNull => false
  | JBool b => b
  | JNum q => negb (Qnum q =? 0)
  | JStr s => match s with EmptyString => false | String _ _ => true end
  | JArr _ | JObj _ => true
  end.

Fixpoint lookup (k : string) (fs : list (string * JSValue)) : JSValue :=
  match fs with
  | [] => JUndefined
  | (k', v) :: r => if String.eqb k' k then v else lookup k r
  end.

(** [v.k] for one of the six setting names: a [TypeError] ([None]) on
    [null], [undefined] on a primitive or an array. *)
Definition getProp (v : JSValue) (k : string) : option JSValue :=
  match v with
  | JUndefined | JNull => None
  | JObj fs => Some (lookup k fs)
  | _ => Some JUndefined
  end.

(** [x || d]. *)
Definition js_or (x d : JSValue) : JSValue := if truthy x then x else d.

(** What the load effect finds: [localStorage.getItem] throws, returns
    [null] or the empty string, returns a text [JSON.parse] rejects, or a
    text it parses to a value. *)
Inductive Stored :=
| StorageThrows
| NoItem
| ParseThrows
| Parsed (v : JSValue).

(** The settings object as stored: nothing checks the fields' types. *)
Record RawSettings := mkRaw {
  rawWorkDuration : JSValue;
  rawWorkUnit : JSValue;
  rawRestDuration : JSValue;
  rawRestUnit : JSValue;
  rawWorkReminders : JSValue;
  rawRestReminders : JSValue
}.

Definition num (z : Z) : JSValue := JNum (inject_Z z).

Definition rawDefaults : RawSettings :=
  mkRaw (num 25) (JStr "minutes") (num 5) (JStr "minutes") (num 3) (num 3).

(** [parsedSettings.k || d]; [None] when reading the property throws. *)
Definition fieldOr (v : JSValue) (k : string) (d : JSValue) : option JSValue :=
  option_map (fun x => js_or x d) (getProp v k).

(** The argument of [setSettings] at line 55, if the call is reached. *)
Definition loadSettings (st : Stored) : option RawSettings :=
  match st with
  | Parsed v =>
      match fieldOr v "workDuration" (num 25), fieldOr v "workUnit" (JStr "minutes"),
            fieldOr v "restDuration" (num 5), fieldOr v "restUnit" (JStr "minutes"),
            fieldOr v "workReminders" (num 3), fieldOr v "restReminders" (num 3) with
      | Some wd, Some wu, Some rd, Some ru, Some wr, Some rr =>
          Some (mkRaw wd wu rd ru wr rr)
      | _, _, _, _, _, _ => None
      end
  | _ => None
  end.

(** The settings after the load effect. *)
Definition settingsAfterLoad (st : Stored) : RawSettings :=
  match loadSettings st with
  | Some r => r
  | None => rawDefaults
  end.

(** The six fields, to quantify over them. *)
Inductive Field :=
| FWorkDuration | FWorkUnit | FRestDuration | FRestUnit | FWorkReminders | FRestReminders.

Definition fieldName (f : Field) : string :=
  match f with
  | FWorkDuration => "workDuration"
  | FWorkUnit => "workUnit"
  | FRestDuration => "restDuration"
  | FRestUnit => "restUnit"
  | FWorkReminders => "workReminders"
  | FRestReminders => "restReminders"
  end.

Definition rawField (f : Field) (r : RawSettings) : JSValue :=
  match f with
  | FWorkDuration => rawWorkDuration r
  | FWorkUnit => rawWorkUnit r
  | FRestDuration => rawRestDuration r
  | FRestUnit => rawRestUnit r
  | FWorkReminders => rawWorkReminders r
  | FRestReminders => rawRestReminders r
  end.

(** The stored value of a field, [undefined] when there is none. *)
Definition storedField (f : Field) (st : Stored) : JSValue :=
  match st with
  | Parsed (JObj fs) => lookup (fieldName f) fs
  | _ => JUndefined
  end.

(** Validity of a field as the data model of the specification has it:
    a duration is a number, a unit is one of the three unit names, a
    reminder limit is an integer at least 1. *)
Definition validField (f : Field) (v : JSValue) : bool :=
  match f, v with
  | (FWorkDuration | FRestDuration), JNum _ => true
  | (FWorkUnit | FRestUnit), JStr s =>
      String.eqb s "hours" || String.eqb s "minutes" || String.eqb s "seconds"
  | (FWorkReminders | FRestReminders), JNum q =>
      (Z.pos (Qden q) =? 1) && (1 <=? Qnum q)
  | _, _ => false
  end.

(** ** Invariants *)

Definition expired (c : State) : bool :=
  (timeLeft c =? 0) && negb (is_idle (timerState c)).

(** The expiry effect of render [c], which follows render [p], enters the
    reminder. *)
Definition enters (p c : State) : bool := dep_expiry p c && expired c.

Definition kind_of (ts : TimerState) : DialogType :=
  if is_working ts then work else rest.

Definition Inv (s : State) : Prop :=
  (timerState s = idle -> showDialog s = false /\ isRunning s = false)
  /\ (showDialog s = true ->
      dialogType s = kind_of (timerState s) /\ timeLeft s = 0)
  /\ (forall t, In t (timers s) -> task t = TickInterval ->
      intervalRef s = Some (tid t) /\ isRunning s = true /\ 0 < timeLeft s).

(** A pending task that cannot sound: a re-check whose closure captured
    a hidden dialog. *)
Definition silent (tk : Task) : Prop :=
  match tk with
  | TickInterval => True
  | CallNext env => cap_showDialog env = false
  | ResumeNext _ => False
  end.

Definition Quiet (s : State) : Prop :=
  (forall t, In t (timers s) -> silent (task t))
  /\ promises s = []
  /\ repeats s = 0%nat.

(** ** Scenarios *)

(** A trace the modal dialog allows. *)
Fixpoint ui_valid (s : State) (tr : list Event) : bool :=
  match tr with
  | [] => true
  | e :: r => ui_enabled s e && ui_valid (step s e) r
  end.

(** The three ways a reminder is cancelled. *)
Definition is_cancel (e : Event) : bool :=
  match e with
  | Acknowledge | Dismiss | Reset => true
  | _ => false
  end.

Definition zeroWork : TimerSettings := mkSettings 0 minutes 5 minutes 3 3.

(** One second of work, one of rest, three reminders each. *)
Definition shortPhases : TimerSettings := mkSettings 1 seconds 1 seconds 3 3.

(** The work phase of [shortPhases] runs out: the interval (handle 1) fires
    after one second. *)
Definition workExpired : State := run (mount (Some shortPhases)) [Start; Expire 1].

(** The work phase counts down: [m] seconds remain, the dialog is closed
    and the interval named by [intervalRef] is pending. *)
Definition ticking (m : Z) (s : State) : Prop :=
  timerState s = working /\ isRunning s = true /\ timeLeft s = m
  /\ showDialog s = false
  /\ exists id d others,
       intervalRef s = Some id /\ timers s = mkTimer id d TickInterval :: others.

(** The work phase of [shortPhases] expired, the reminder dismissed and the
    settings panel opened again. *)
Definition dismissed : State := run workExpired [Dismiss; ToggleSettings].

(** The default work phase started, the settings panel opened again and the
    work duration changed from 25 to 50 minutes. *)
Definition editedMidPhase : Tracked :=
  tracked_run None [Start; ToggleSettings; Edit (WorkDurationInput "50")].

(** A stored object with a unit that is no unit and a negative limit. *)
Definition badStored : Stored :=
  Parsed (JObj [("workUnit", JStr "weeks"); ("workReminders", num (-7))]%string).

(** ** Display (lines 194-203) *)

(** The integers that a JavaScript number holds exactly
    ([Number.MAX_SAFE_INTEGER], 2^53 - 1). *)
Definition MAX_SAFE_INTEGER : Z := 2 ^ 53 - 1.

Definition isSafeInteger (z : Z) : Prop :=
  - MAX_SAFE_INTEGER <= z <= MAX_SAFE_INTEGER.

(** [n.toString()] for a safe integer: decimal digits, [-] before a
    negative one (the exponent notation starts at 10^21, outside the safe
    range). *)
Definition toString (z : Z) : string :=
  DecimalString.NilZero.string_of_int (Z.to_int z).

(** [s.padStart(2, "0")]. *)
Definition padStart2 (s : string) : string :=
  match String.length s with
  | O => String "0" (String "0" EmptyString)
  | S O => String "0" s
  | _ => s
  end.

(** [formatTime] (lines 194-203): [Math.floor] of a quotient by a positive
    number is [Z.div], [%] is the remainder with the sign of the dividend,
    [Z.rem]. *)
Definition formatTime (seconds : Z) : string :=
  let hours := seconds / 3600 in
  let minutes := Z.rem seconds 3600 / 60 in
  let secs := Z.rem seconds 60 in
  if 0 <? hours then
    (padStart2 (toString hours) ++ ":" ++ padStart2 (toString minutes) ++ ":"
       ++ padStart2 (toString secs))%string
  else (padStart2 (toString minutes) ++ ":" ++ padStart2 (toString secs))%string.

(** The text after the first colon. *)
Fixpoint afterColon (s : string) : string :=
  match s with
  | EmptyString => EmptyString
  | String c r => if Ascii.eqb c ":" then r else afterColon r
  end.

(** The value of a run of decimal digits read after [acc]. *)
Fixpoint uintValue (d : Decimal.uint) (acc : Z) : Z :=
  match d with
  | Decimal.Nil => acc
  | Decimal.D0 d => uintValue d (acc * 10)
  | Decimal.D1 d => uintValue d (acc * 10 + 1)
  | Decimal.D2 d => uintValue d (acc * 10 + 2)
  | Decimal.D3 d => uintValue d (acc * 10 + 3)
  | Decimal.D4 d => uintValue d (acc * 10 + 4)
  | Decimal.D5 d => uintValue d (acc * 10 + 5)
  | Decimal.D6 d => uintValue d (acc * 10 + 6)
  | Decimal.D7 d => uintValue d (acc * 10 + 7)
  | Decimal.D8 d => uintValue d (acc * 10 + 8)
  | Decimal.D9 d => uintValue d (acc * 10 + 9)
  end.

(** ** Saving the settings (lines 71-77) *)

Definition unitName (u : TimeUnit) : string :=
  match u with
  | hours => "hours"
  | minutes => "minutes"
  | seconds => "seconds"
  end.

(** The settings as the JavaScript object they are. *)
Definition rawOf (st : TimerSettings) : RawSettings :=
  mkRaw (num (workDuration st)) (JStr (unitName (workUnit st)))
    (num (restDuration st)) (JStr (unitName (restUnit st)))
    (num (workReminders st)) (num (restReminders st)).

(** What a later load finds after the save effect wrote
    [JSON.stringify(settings)]: a text that parses to the object with the
    six fields. *)
Definition savedSettings (st : TimerSettings) : Stored :=
  Parsed (JObj [("workDuration", num (workDuration st));
                ("workUnit", JStr (unitName (workUnit st)));
                ("restDuration", num (restDuration st));
                ("restUnit", JStr (unitName (restUnit st)));
                ("workReminders", num (workReminders st));
                ("restReminders", num (restReminders st))]%string).

(** [x || d] on the fields of typed settings. *)
Definition orDefaults (st : TimerSettings) : TimerSettings :=
  mkSettings (or_default (Some (workDuration st)) 25) (workUnit st)
    (or_default (Some (restDuration st)) 5) (restUnit st)
    (or_default (Some (workReminders st)) 3)
    (or_default (Some (restReminders st)) 3).

(** ** More scenarios *)

(** The reminder limit of the phase of render [c] (line 344). *)
Definition limitOf (c : State) : Z :=
  if is_working (timerState c) then workReminders (settings c)
  else restReminders (settings c).

(** The default work phase started and paused after two ticks. *)
Definition pausedMidPhase : State :=
  step (ticks 2 (step (mount None) Start)) Pause.

(** The rest phase of [shortPhases] expired. *)
Definition restExpired : State :=
  tick (step workExpired Acknowledge).

(** The intervals of the main timer effect that are pending. *)
Definition is_tick (t : Timer) : bool :=
  match task t with
  | TickInterval => true
  | _ => false
  end.

Definition intervals (s : State) : nat :=
  List.length (filter is_tick (timers s)).

(** The pool of timer handles: every pending timer has a handle below the
    next one to be given out, as has the handle in [reminderIntervalRef];
    no two pending timers share a handle; and the handle in
    [reminderIntervalRef] is not the one of an interval. *)
Definition Pool (l : list Timer) (n : Z) (r : option Z) : Prop :=
  (forall t, In t l -> tid t < n)
  /\ (forall id, r = Some id -> id < n)
  /\ NoDup (map tid l)
  /\ (forall t, In t l -> task t = TickInterval -> r <> Some (tid t)).

Definition handles_fresh (s : State) : Prop :=
  Pool (timers s) (nextId s) (reminderIntervalRef s).



(** ** The controls on the page

    What the component renders decides which command can arrive
    (lines 453-481 and 612-640): the start button is rendered while the
    clock is stopped and the pause button while it runs (line 454), the
    inputs of the settings while the panel is shown (line 482), the button
    of the dialog and its close request while the [Dialog] is given
    [open = true] (line 613).  Reset and the settings toggle are always
    there; timers, audio promises and the passing of time are events of the
    host. *)
Definition rendered (s : State) (e : Event) : bool :=
  match e with
  | Start => negb (isRunning s)
  | Pause => isRunning s
  | Reset | ToggleSettings => true
  | Edit _ => showSettings s
  | Acknowledge | Dismiss => showDialog s
  | Expire _ | Settle | Wait _ => true
  end.

(** A trace of commands whose controls are rendered when they arrive. *)
Fixpoint rendered_valid (s : State) (tr : list Event) : bool :=
  match tr with
  | [] => true
  | e :: r => rendered s e && rendered_valid (step s e) r
  end.

(** ** The timeout that no ref holds

    [playNextReminder] waits 15 seconds on a timeout whose handle is kept
    nowhere (line 358): no [clearInterval] of the component can name it.
    [unheld t x]: [t] is pending in [x], its handle was given out before the
    next one, and neither ref holds it. *)
Definition unheld (t : Timer) (x : State) : Prop :=
  In t (timers x) /\ tid t < nextId x
  /\ intervalRef x <> Some (tid t) /\ reminderIntervalRef x <> Some (tid t).

(** The settings panel is opened while the work phase of [shortPhases]
    runs; the phase runs out (handle 1) and the dialog opens above the
    panel; a reminder limit is typed into the panel, so that the expiry
    effect runs again, in a render that shows the dialog; its re-check
    (handle 3) fires 15 seconds later and starts its wait (handle 4). *)
Definition liveRecheckRun : list Event :=
  [Start; ToggleSettings; Expire 1; Edit (WorkRemindersInput "5"); Expire 3].

Definition liveRecheck : State := run (mount (Some shortPhases)) liveRecheckRun.

(** * Proofs *)

(** ** The effect bodies, field by field *)

Ltac case_body :=
  repeat (match goal with
          | |- context [if ?b then _ else _] => destruct b
          | |- context [match ?x with Some _ => _ | None => _ end] => destruct x
          end; cbn); try reflexivity.

Ltac unfold_effects :=
  unfold timer_cleanup, timer_body, expiry_body, dialog_body, cancelReminder,
    clearInterval, setTimer, stopAllAudio, playReminder, expired, kind_of,
    entries, repeats.

Ltac body_frame s := unfold_effects; destruct s; cbn; case_body.

Create Rewrite HintDb frame.

#[local] Arguments remove_timer : simpl never.

Lemma timer_cleanup_settings s : settings (timer_cleanup s) = settings s.
Proof. body_frame s. Qed.
Lemma timer_cleanup_settingsId s : settingsId (timer_cleanup s) = settingsId s.
Proof. body_frame s. Qed.
Lemma timer_cleanup_timerState s : timerState (timer_cleanup s) = timerState s.
Proof. body_frame s. Qed.
Lemma timer_cleanup_timeLeft s : timeLeft (timer_cleanup s) = timeLeft s.
Proof. body_frame s. Qed.
Lemma timer_cleanup_promises s : promises (timer_cleanup s) = promises s.
Proof. body_frame s. Qed.
Lemma timer_cleanup_now s : now (timer_cleanup s) = now s.
Proof. body_frame s. Qed.
Lemma timer_cleanup_showSettings s : showSettings (timer_cleanup s) = showSettings s.
Proof. body_frame s. Qed.
Lemma timer_cleanup_isRunning s : isRunning (timer_cleanup s) = isRunning s.
Proof. body_frame s. Qed.
Lemma timer_cleanup_showDialog s : showDialog (timer_cleanup s) = showDialog s.
Proof. body_frame s. Qed.
Lemma timer_cleanup_dialogType s : dialogType (timer_cleanup s) = dialogType s.
Proof. body_frame s. Qed.
Lemma timer_cleanup_reminderCount s : reminderCount (timer_cleanup s) = reminderCount s.
Proof. body_frame s. Qed.
Lemma timer_cleanup_intervalRef s : intervalRef (timer_cleanup s) = intervalRef s.
Proof. body_frame s. Qed.
Lemma timer_cleanup_reminderIntervalRef s : reminderIntervalRef (timer_cleanup s) = reminderIntervalRef s.
Proof. body_frame s. Qed.
Lemma timer_cleanup_nextId s : nextId (timer_cleanup s) = nextId s.
Proof. body_frame s. Qed.
Lemma timer_cleanup_entries s : entries (timer_cleanup s) = entries s.
Proof. body_frame s. Qed.
Lemma timer_cleanup_repeats s : repeats (timer_cleanup s) = repeats s.
Proof. body_frame s. Qed.
Lemma timer_cleanup_log s : log (timer_cleanup s) = log s.
Proof. body_frame s. Qed.

Lemma timer_body_settings r s : settings (timer_body r s) = settings s.
Proof. body_frame s. Qed.
Lemma timer_body_settingsId r s : settingsId (timer_body r s) = settingsId s.
Proof. body_frame s. Qed.
Lemma timer_body_timerState r s : timerState (timer_body r s) = timerState s.
Proof. body_frame s. Qed.
Lemma timer_body_timeLeft r s : timeLeft (timer_body r s) = timeLeft s.
Proof. body_frame s. Qed.
Lemma timer_body_promises r s : promises (timer_body r s) = promises s.
Proof. body_frame s. Qed.
Lemma timer_body_now r s : now (timer_body r s) = now s.
Proof. body_frame s. Qed.
Lemma timer_body_showSettings r s : showSettings (timer_body r s) = showSettings s.
Proof. body_frame s. Qed.
Lemma timer_body_isRunning r s : isRunning (timer_body r s) = isRunning s.
Proof. body_frame s. Qed.
Lemma timer_body_showDialog r s : showDialog (timer_body r s) = showDialog s.
Proof. body_frame s. Qed.
Lemma timer_body_dialogType r s : dialogType (timer_body r s) = dialogType s.
Proof. body_frame s. Qed.
Lemma timer_body_reminderCount r s : reminderCount (timer_body r s) = reminderCount s.
Proof. body_frame s. Qed.
Lemma timer_body_reminderIntervalRef r s : reminderIntervalRef (timer_body r s) = reminderIntervalRef s.
Proof. body_frame s. Qed.
Lemma timer_body_entries r s : entries (timer_body r s) = entries s.
Proof. body_frame s. Qed.
Lemma timer_body_repeats r s : repeats (timer_body r s) = repeats s.
Proof. body_frame s. Qed.
Lemma timer_body_log r s : log (timer_body r s) = log s.
Proof. body_frame s. Qed.
Lemma timer_body_intervalRef r s : intervalRef (timer_body r s) = if isRunning r && (0 <? timeLeft r) then Some (nextId s) else intervalRef s.
Proof. body_frame s. Qed.

Lemma expiry_body_settings r s : settings (expiry_body r s) = settings s.
Proof. body_frame s. Qed.
Lemma expiry_body_settingsId r s : settingsId (expiry_body r s) = settingsId s.
Proof. body_frame s. Qed.
Lemma expiry_body_timerState r s : timerState (expiry_body r s) = timerState s.
Proof. body_frame s. Qed.
Lemma expiry_body_timeLeft r s : timeLeft (expiry_body r s) = timeLeft s.
Proof. body_frame s. Qed.
Lemma expiry_body_promises r s : promises (expiry_body r s) = promises s.
Proof. body_frame s. Qed.
Lemma expiry_body_now r s : now (expiry_body r s) = now s.
Proof. body_frame s. Qed.
Lemma expiry_body_showSettings r s : showSettings (expiry_body r s) = showSettings s.
Proof. body_frame s. Qed.
Lemma expiry_body_intervalRef r s : intervalRef (expiry_body r s) = intervalRef s.
Proof. body_frame s. Qed.
Lemma expiry_body_repeats r s : repeats (expiry_body r s) = repeats s.
Proof. body_frame s. Qed.
Lemma expiry_body_isRunning r s : isRunning (expiry_body r s) = if expired r then false else isRunning s.
Proof. body_frame s. Qed.
Lemma expiry_body_showDialog r s : showDialog (expiry_body r s) = if expired r then true else showDialog s.
Proof. body_frame s. Qed.
Lemma expiry_body_dialogType r s : dialogType (expiry_body r s) = if expired r then kind_of (timerState r) else dialogType s.
Proof. body_frame s. Qed.
Lemma expiry_body_reminderCount r s : reminderCount (expiry_body r s) = if expired r then 0 else reminderCount s.
Proof. body_frame s. Qed.
Lemma expiry_body_entries r s : entries (expiry_body r s) = ((if expired r then 1 else 0) + entries s)%nat.
Proof. body_frame s. Qed.

Lemma dialog_body_settings r s : settings (dialog_body r s) = settings s.
Proof. body_frame s. Qed.
Lemma dialog_body_settingsId r s : settingsId (dialog_body r s) = settingsId s.
Proof. body_frame s. Qed.
Lemma dialog_body_timerState r s : timerState (dialog_body r s) = timerState s.
Proof. body_frame s. Qed.
Lemma dialog_body_timeLeft r s : timeLeft (dialog_body r s) = timeLeft s.
Proof. body_frame s. Qed.
Lemma dialog_body_promises r s : promises (dialog_body r s) = promises s.
Proof. body_frame s. Qed.
Lemma dialog_body_now r s : now (dialog_body r s) = now s.
Proof. body_frame s. Qed.
Lemma dialog_body_showSettings r s : showSettings (dialog_body r s) = showSettings s.
Proof. body_frame s. Qed.
Lemma dialog_body_isRunning r s : isRunning (dialog_body r s) = isRunning s.
Proof. body_frame s. Qed.
Lemma dialog_body_showDialog r s : showDialog (dialog_body r s) = showDialog s.
Proof. body_frame s. Qed.
Lemma dialog_body_dialogType r s : dialogType (dialog_body r s) = dialogType s.
Proof. body_frame s. Qed.
Lemma dialog_body_reminderCount r s : reminderCount (dialog_body r s) = reminderCount s.
Proof. body_frame s. Qed.
Lemma dialog_body_intervalRef r s : intervalRef (dialog_body r s) = intervalRef s.
Proof. body_frame s. Qed.
Lemma dialog_body_nextId r s : nextId (dialog_body r s) = nextId s.
Proof. body_frame s. Qed.
Lemma dialog_body_entries r s : entries (dialog_body r s) = entries s.
Proof. body_frame s. Qed.
Lemma dialog_body_repeats r s : repeats (dialog_body r s) = repeats s.
Proof. body_frame s. Qed.

#[local] Hint Rewrite
  timer_cleanup_settings timer_cleanup_settingsId timer_cleanup_timerState timer_cleanup_timeLeft
  timer_cleanup_promises timer_cleanup_now timer_cleanup_showSettings timer_cleanup_isRunning
  timer_cleanup_showDialog timer_cleanup_dialogType timer_cleanup_reminderCount timer_cleanup_intervalRef
  timer_cleanup_reminderIntervalRef timer_cleanup_nextId timer_cleanup_entries timer_cleanup_repeats
  timer_cleanup_log timer_body_settings timer_body_settingsId timer_body_timerState
  timer_body_timeLeft timer_body_promises timer_body_now timer_body_showSettings
  timer_body_isRunning timer_body_showDialog timer_body_dialogType timer_body_reminderCount
  timer_body_reminderIntervalRef timer_body_entries timer_body_repeats timer_body_log
  timer_body_intervalRef expiry_body_settings expiry_body_settingsId expiry_body_timerState
  expiry_body_timeLeft expiry_body_promises expiry_body_now expiry_body_showSettings
  expiry_body_intervalRef expiry_body_repeats expiry_body_isRunning expiry_body_showDialog
  expiry_body_dialogType expiry_body_reminderCount expiry_body_entries dialog_body_settings
  dialog_body_settingsId dialog_body_timerState dialog_body_timeLeft dialog_body_promises
  dialog_body_now dialog_body_showSettings dialog_body_isRunning dialog_body_showDialog
  dialog_body_dialogType dialog_body_reminderCount dialog_body_intervalRef dialog_body_nextId
  dialog_body_entries dialog_body_repeats : frame.

(** ** One round of effects *)

Ltac effects_frame p c :=
  unfold run_effects, enters;
  destruct (dep_timer p c), (dep_expiry p c), (dep_dialog p c);
  cbv zeta; autorewrite with frame; cbn; try reflexivity.

Lemma run_effects_timerState p c : timerState (run_effects p c) = timerState c.
Proof. effects_frame p c. Qed.

Lemma run_effects_timeLeft p c : timeLeft (run_effects p c) = timeLeft c.
Proof. effects_frame p c. Qed.

Lemma run_effects_settings p c : settings (run_effects p c) = settings c.
Proof. effects_frame p c. Qed.

Lemma run_effects_settingsId p c : settingsId (run_effects p c) = settingsId c.
Proof. effects_frame p c. Qed.

Lemma run_effects_promises p c : promises (run_effects p c) = promises c.
Proof. effects_frame p c. Qed.

Lemma run_effects_now p c : now (run_effects p c) = now c.
Proof. effects_frame p c. Qed.

Lemma run_effects_showSettings p c : showSettings (run_effects p c) = showSettings c.
Proof. effects_frame p c. Qed.

Lemma run_effects_showDialog p c :
  showDialog (run_effects p c) = if enters p c then true else showDialog c.
Proof. effects_frame p c. Qed.

Lemma run_effects_isRunning p c :
  isRunning (run_effects p c) = if enters p c then false else isRunning c.
Proof. effects_frame p c. Qed.

Lemma run_effects_dialogType p c :
  dialogType (run_effects p c) =
  if enters p c then kind_of (timerState c) else dialogType c.
Proof. effects_frame p c. Qed.

Lemma run_effects_reminderCount p c :
  reminderCount (run_effects p c) = if enters p c then 0 else reminderCount c.
Proof. effects_frame p c. Qed.

Lemma run_effects_entries p c :
  entries (run_effects p c) = ((if enters p c then 1 else 0) + entries c)%nat.
Proof. effects_frame p c. Qed.

Lemma run_effects_repeats p c : repeats (run_effects p c) = repeats c.
Proof. effects_frame p c. Qed.

Lemma run_effects_intervalRef p c :
  intervalRef (run_effects p c) =
  if dep_timer p c && (isRunning c && (0 <? timeLeft c)) then Some (nextId c)
  else intervalRef c.
Proof. effects_frame p c. Qed.

(** *** Pending timers *)

Lemma In_remove_timer id l t :
  In t (remove_timer id l) <-> In t l /\ tid t <> id.
Proof.
  unfold remove_timer. rewrite filter_In, negb_true_iff, Z.eqb_neq. tauto.
Qed.

Lemma clearInterval_timers h s t :
  In t (timers (clearInterval h s)) <-> In t (timers s) /\ h <> Some (tid t).
Proof.
  unfold clearInterval. destruct h as [id|]; destruct s; cbn.
  - rewrite In_remove_timer. split; intros [H1 H2]; split; auto; congruence.
  - split; [intros H; split; [auto|discriminate] | tauto].
Qed.

Lemma timer_cleanup_timers s t :
  In t (timers (timer_cleanup s)) <-> In t (timers s) /\ intervalRef s <> Some (tid t).
Proof. apply clearInterval_timers. Qed.

Lemma timer_body_timers r s t :
  In t (timers (timer_body r s)) ->
  (In t (timers s) /\ (isRunning r && (0 <? timeLeft r) = false -> intervalRef s <> Some (tid t)))
  \/ (t = mkTimer (nextId s) (now s + 1000) TickInterval
      /\ isRunning r && (0 <? timeLeft r) = true).
Proof.
  unfold timer_body. destruct (isRunning r && (0 <? timeLeft r)).
  - destruct s; cbn. intros [<-|H]; [right|left]; auto. split; auto. discriminate.
  - rewrite clearInterval_timers. intros [H1 H2]. left. auto.
Qed.

Lemma expiry_body_timers r s t :
  In t (timers (expiry_body r s)) ->
  In t (timers s)
  \/ (expired r = true /\
      exists m, task t = CallNext (mkEnv (showDialog r) (timerState r) m 0)).
Proof.
  unfold expiry_body, expired.
  destruct ((timeLeft r =? 0) && negb (is_idle (timerState r))); [|auto].
  unfold setTimer, playReminder. destruct s; cbn.
  match goal with |- context [if ?b then _ else _] => destruct b end; cbn; auto.
  intros [<-|H]; auto. right. split; auto. eexists. reflexivity.
Qed.

Lemma cancelReminder_timers s t :
  In t (timers (cancelReminder s)) -> In t (timers s).
Proof.
  unfold cancelReminder, stopAllAudio.
  destruct (reminderIntervalRef s) eqn:E.
  - intros H.
    assert (In t (timers (clearInterval (Some z) s))) as H'.
    { revert H. unfold clearInterval. destruct s; cbn. auto. }
    apply clearInterval_timers in H'. tauto.
  - destruct s; cbn. auto.
Qed.

Lemma dialog_body_timers r s t :
  In t (timers (dialog_body r s)) -> In t (timers s).
Proof.
  unfold dialog_body. destruct (negb (showDialog r)); auto using cancelReminder_timers.
Qed.

Lemma run_effects_timers p c t :
  In t (timers (run_effects p c)) ->
  (In t (timers c) /\ (dep_timer p c = true -> intervalRef c <> Some (tid t)))
  \/ (task t = TickInterval /\ tid t = nextId c /\ dep_timer p c = true
      /\ isRunning c && (0 <? timeLeft c) = true)
  \/ (enters p c = true /\
      exists m, task t = CallNext (mkEnv (showDialog c) (timerState c) m 0)).
Proof.
  unfold run_effects, enters. cbv zeta. intros H.
  assert (In t (timers
    (let s := if dep_timer p c then timer_cleanup c else c in
     let s := if dep_timer p c then timer_body c s else s in
     if dep_expiry p c then expiry_body c s else s))) as H1.
  { cbv zeta. destruct (dep_dialog p c); [apply dialog_body_timers in H|]; exact H. }
  clear H. cbv zeta in H1.
  assert (In t (timers
    (let s := if dep_timer p c then timer_cleanup c else c in
     if dep_timer p c then timer_body c s else s))
    \/ (enters p c = true /\
        exists m, task t = CallNext (mkEnv (showDialog c) (timerState c) m 0))) as H2.
  { unfold enters. cbv zeta. destruct (dep_expiry p c); auto.
    apply expiry_body_timers in H1. destruct H1 as [H1|[H1 H3]]; auto. }
  clear H1. destruct H2 as [H2|H2]; [|auto]. cbv zeta in H2.
  destruct (dep_timer p c).
  - apply timer_body_timers in H2. destruct H2 as [[H2 _]|[-> H2]].
    + apply timer_cleanup_timers in H2. left. tauto.
    + right. left. cbn. unfold timer_cleanup, clearInterval.
      destruct (intervalRef c); destruct c; cbn; auto.
  - left. split; auto. discriminate.
Qed.

(** ** One commit *)

Lemma dep_expiry_run_effects p c : dep_expiry c (run_effects p c) = false.
Proof.
  unfold dep_expiry.
  rewrite run_effects_timeLeft, run_effects_timerState, run_effects_settingsId.
  rewrite !Z.eqb_refl. destruct (timerState c); reflexivity.
Qed.

Lemma enters_run_effects p c : enters c (run_effects p c) = false.
Proof. unfold enters. now rewrite dep_expiry_run_effects. Qed.

Lemma commit_timerState p c : timerState (commit p c) = timerState c.
Proof. unfold commit. now rewrite !run_effects_timerState. Qed.

Lemma commit_timeLeft p c : timeLeft (commit p c) = timeLeft c.
Proof. unfold commit. now rewrite !run_effects_timeLeft. Qed.

Lemma commit_settings p c : settings (commit p c) = settings c.
Proof. unfold commit. now rewrite !run_effects_settings. Qed.

Lemma commit_settingsId p c : settingsId (commit p c) = settingsId c.
Proof. unfold commit. now rewrite !run_effects_settingsId. Qed.

Lemma commit_promises p c : promises (commit p c) = promises c.
Proof. unfold commit. now rewrite !run_effects_promises. Qed.

Lemma commit_now p c : now (commit p c) = now c.
Proof. unfold commit. now rewrite !run_effects_now. Qed.

Lemma commit_showDialog p c :
  showDialog (commit p c) = if enters p c then true else showDialog c.
Proof.
  unfold commit. now rewrite run_effects_showDialog, enters_run_effects,
    run_effects_showDialog.
Qed.

Lemma commit_isRunning p c :
  isRunning (commit p c) = if enters p c then false else isRunning c.
Proof.
  unfold commit. now rewrite run_effects_isRunning, enters_run_effects,
    run_effects_isRunning.
Qed.

Lemma commit_dialogType p c :
  dialogType (commit p c) =
  if enters p c then kind_of (timerState c) else dialogType c.
Proof.
  unfold commit. now rewrite run_effects_dialogType, enters_run_effects,
    run_effects_dialogType.
Qed.

Lemma commit_reminderCount p c :
  reminderCount (commit p c) = if enters p c then 0 else reminderCount c.
Proof.
  unfold commit. now rewrite run_effects_reminderCount, enters_run_effects,
    run_effects_reminderCount.
Qed.

Lemma commit_entries p c :
  entries (commit p c) = ((if enters p c then 1 else 0) + entries c)%nat.
Proof.
  unfold commit. now rewrite run_effects_entries, enters_run_effects,
    run_effects_entries.
Qed.

Lemma commit_repeats p c : repeats (commit p c) = repeats c.
Proof. unfold commit. now rewrite !run_effects_repeats. Qed.

(** The second render of a commit changes no hook value: a third render
    would find no dependency changed. *)
Lemma commit_settled p c :
  let s := commit p c in
  dep_timer (run_effects p c) s = false
  /\ dep_expiry (run_effects p c) s = false
  /\ dep_dialog (run_effects p c) s = false.
Proof.
  cbv zeta. unfold commit. repeat split.
  - unfold dep_timer.
    rewrite !run_effects_timeLeft, Z.eqb_refl,
      (run_effects_isRunning c), enters_run_effects.
    now destruct (isRunning (run_effects p c)).
  - apply dep_expiry_run_effects.
  - unfold dep_dialog.
    rewrite (run_effects_showDialog c), enters_run_effects.
    now destruct (showDialog (run_effects p c)).
Qed.

Lemma expired_timeLeft c : expired c = true -> timeLeft c = 0 /\ timerState c <> idle.
Proof.
  unfold expired. rewrite andb_true_iff, Z.eqb_eq, negb_true_iff.
  intros [H1 H2]. split; auto. intros E. rewrite E in H2. discriminate.
Qed.

Lemma enters_expired p c : enters p c = true -> expired c = true.
Proof. unfold enters. rewrite andb_true_iff. tauto. Qed.

(** Every pending timer after a commit was pending before it, or is the
    interval just started, or the re-check armed by the expiry effect. *)
Lemma commit_timers p c t :
  In t (timers (commit p c)) ->
  In t (timers c)
  \/ (task t = TickInterval /\ isRunning c = true /\ 0 < timeLeft c)
  \/ (enters p c = true /\
      exists m, task t = CallNext (mkEnv (showDialog c) (timerState c) m 0)).
Proof.
  unfold commit. intros H.
  apply run_effects_timers in H.
  rewrite enters_run_effects in H.
  destruct H as [[H _]|[(H & _ & _ & R)|[H _]]]; [| |discriminate].
  - apply run_effects_timers in H.
    destruct H as [[H _]|[(H & _ & _ & R)|H]]; auto.
    apply andb_true_iff in R. destruct R as [R L]. apply Z.ltb_lt in L. auto.
  - rewrite run_effects_isRunning, run_effects_timeLeft in R.
    apply andb_true_iff in R. destruct R as [R L]. apply Z.ltb_lt in L.
    destruct (enters p c); [discriminate|auto].
Qed.

(** The intervals pending after a commit: at most the one [intervalRef]
    names, and only while the clock runs with time left. *)
Lemma commit_ticks p c :
  (forall t, In t (timers c) -> task t = TickInterval ->
             intervalRef c = Some (tid t)) ->
  (dep_timer p c = false ->
   forall t, In t (timers c) -> task t = TickInterval ->
             isRunning c = true /\ 0 < timeLeft c) ->
  forall t, In t (timers (commit p c)) -> task t = TickInterval ->
    intervalRef (commit p c) = Some (tid t)
    /\ isRunning (commit p c) = true /\ 0 < timeLeft (commit p c).
Proof.
  intros Href Hrun.
  set (s1 := run_effects p c).
  assert (forall t, In t (timers s1) -> task t = TickInterval ->
            intervalRef s1 = Some (tid t) /\ isRunning s1 = true
            /\ 0 < timeLeft s1) as K1.
  { intros t Ht Htick. unfold s1 in *.
    rewrite run_effects_intervalRef, run_effects_isRunning, run_effects_timeLeft.
    assert (isRunning c = true /\ 0 < timeLeft c ->
            (if enters p c then false else isRunning c) = true) as Hen.
    { intros [R L]. destruct (enters p c) eqn:E; auto.
      apply enters_expired, expired_timeLeft in E. lia. }
    apply run_effects_timers in Ht.
    destruct Ht as [[Ht Hne]|[(_ & Hid & Hdep & Hc)|(_ & m & Hm)]].
    - destruct (dep_timer p c) eqn:D.
      + exfalso. apply Hne; auto.
      + cbn. destruct (Hrun eq_refl t Ht Htick) as [R L]. auto.
    - rewrite Hdep, Hc. cbn. rewrite Hid.
      apply andb_true_iff in Hc. destruct Hc as [R L].
      apply Z.ltb_lt in L. auto.
    - congruence. }
  intros t Ht Htick. unfold commit in *. fold s1 in Ht |- *.
  rewrite run_effects_intervalRef, run_effects_isRunning, run_effects_timeLeft.
  assert (enters c s1 = false) as E0 by apply enters_run_effects.
  rewrite E0.
  assert (dep_timer c s1 = true -> isRunning s1 = false \/ isRunning c = false) as Hd.
  { unfold dep_timer, s1. rewrite run_effects_timeLeft, Z.eqb_refl.
    rewrite run_effects_isRunning.
    destruct (enters p c), (isRunning c); cbn; auto; discriminate. }
  assert (isRunning s1 = true -> isRunning c = true) as Hrc.
  { unfold s1. rewrite run_effects_isRunning.
    destruct (enters p c); auto; discriminate. }
  apply run_effects_timers in Ht.
  destruct Ht as [[Ht Hne]|[(_ & Hid & Hdep & Hc)|(E & _)]].
  - destruct (K1 t Ht Htick) as (R1 & R2 & R3).
    destruct (dep_timer c s1) eqn:D.
    + exfalso. apply Hne; auto.
    + cbn. auto.
  - exfalso. apply andb_true_iff in Hc. destruct Hc as [R L].
    destruct (Hd Hdep) as [H|H]; [congruence|]. rewrite (Hrc R) in H. discriminate.
  - congruence.
Qed.

(** ** Handlers *)

Lemma find_timer_In id l t : find_timer id l = Some t -> In t l /\ tid t = id.
Proof.
  induction l as [|a l IH]; cbn; [discriminate|].
  destruct (tid a =? id) eqn:E.
  - intros [= <-]. apply Z.eqb_eq in E. auto.
  - intros H. destruct (IH H). auto.
Qed.

Ltac unfold_handlers :=
  unfold startTimer, pauseTimer, resetTimer, handleDialogAction,
    handleDialogClose, editSettings, cancelReminder, clearInterval,
    stopAllAudio, tickCallback, playNextReminder, resumeNextReminder,
    afterPlay, playReminder, setTimer, bump.

(** What a timer callback does to the hooks: the interval decrements
    [timeLeft], a re-check may set [reminderCount]. *)
Lemma expire_hooks id s :
  let c := expire id s in
  timerState c = timerState s /\ showDialog c = showDialog s
  /\ isRunning c = isRunning s /\ dialogType c = dialogType s
  /\ settings c = settings s /\ settingsId c = settingsId s
  /\ intervalRef c = intervalRef s
  /\ (timeLeft c = timeLeft s
      \/ (timeLeft c = timeLeft s - 1 /\
          exists t, In t (timers s) /\ tid t = id /\ task t = TickInterval)).
Proof.
  cbv zeta. unfold expire.
  destruct (find_timer id (timers s)) as [t0|] eqn:F; [|tauto].
  apply find_timer_In in F. destruct F as [F1 F2].
  destruct (task t0) eqn:T; unfold_handlers.
  - destruct s; cbn in *. repeat split; auto. right. split; auto. eauto.
  - destruct s; cbn in *. case_body; tauto.
  - destruct s; cbn in *. case_body; tauto.
Qed.

Lemma settle_hooks s :
  let c := settle s in
  timerState c = timerState s /\ showDialog c = showDialog s
  /\ isRunning c = isRunning s /\ dialogType c = dialogType s
  /\ settings c = settings s /\ settingsId c = settingsId s
  /\ intervalRef c = intervalRef s /\ timeLeft c = timeLeft s.
Proof.
  cbv zeta. unfold settle. destruct (promises s) eqn:P; [tauto|].
  unfold_handlers. destruct s; cbn in *. case_body; tauto.
Qed.

Lemma handle_intervalRef e s : intervalRef (handle e s) = intervalRef s.
Proof.
  destruct e; cbn [handle].
  1-7,10: unfold_handlers; destruct s; cbn; case_body.
  - apply expire_hooks.
  - apply settle_hooks.
Qed.

(** Handlers start no interval: an interval pending after a handler was
    pending, under the same handle, before it. *)
Lemma handle_ticks e s t :
  In t (timers (handle e s)) -> task t = TickInterval ->
  exists t', In t' (timers s) /\ task t' = TickInterval /\ tid t' = tid t.
Proof.
  assert (forall h s0, In t (timers (clearInterval h s0)) -> In t (timers s0)) as Hc.
  { intros h s0 H. apply clearInterval_timers in H. tauto. }
  destruct e; cbn [handle]; intros H T.
  1,2,6,7,10: exists t; revert H; unfold_handlers; destruct s; cbn; case_body; auto.
  - exists t. unfold resetTimer in H. revert H. unfold stopAllAudio.
    match goal with |- In t (timers (set_log _ ?x)) -> _ =>
      intros H; assert (In t (timers x)) as H' by (revert H; destruct x; cbn; auto) end.
    apply Hc, Hc in H'. revert H'. destruct s; cbn; auto.
  - exists t. unfold handleDialogAction in H.
    assert (In t (timers (cancelReminder (set_reminderCount 0 (set_showDialog false s))))) as H'.
    { revert H. generalize (cancelReminder (set_reminderCount 0 (set_showDialog false s))).
      intros x. destruct x; cbn. case_body; auto. }
    apply cancelReminder_timers in H'. revert H'. destruct s; cbn; auto.
  - exists t. unfold handleDialogClose in H.
    apply cancelReminder_timers in H. revert H. destruct s; cbn; auto.
  - revert H. unfold expire.
    destruct (find_timer id (timers s)) as [t0|] eqn:F; [|eauto].
    apply find_timer_In in F. destruct F as [F1 F2].
    destruct (task t0) eqn:T0; unfold_handlers.
    + destruct s; cbn in *. intros [<-|H].
      * exists t0. cbn. auto.
      * apply In_remove_timer in H. exists t. tauto.
    + destruct s; cbn in *. case_body; cbn.
      * intros [<-|H]; [discriminate|]. apply In_remove_timer in H. exists t. tauto.
      * intros H. apply In_remove_timer in H. exists t. tauto.
    + destruct s; cbn in *. case_body; cbn;
        intros H; apply In_remove_timer in H; exists t; tauto.
  - revert H. unfold settle. destruct (promises s) eqn:P; [eauto|].
    unfold_handlers. destruct s; cbn in *. case_body; cbn.
    + intros [<-|H]; [discriminate|eauto].
    + eauto.
Qed.

(** ** Invariants of the reachable states *)

Ltac simple_handler s :=
  unfold_handlers; destruct s; cbn in *;
  repeat match goal with x : TimerState |- _ => destruct x end;
  cbn in *; case_body; auto; try discriminate; try tauto.

Lemma handle_idle e s :
  Inv s -> timerState (handle e s) = idle ->
  showDialog (handle e s) = false /\ isRunning (handle e s) = false.
Proof.
  intros (I1 & I2 & K). destruct e as [| | | | | |ed|id| |ms]; cbn [handle].
  1-7,10: simple_handler s.
  - destruct (expire_hooks id s) as (-> & -> & -> & _). auto.
  - destruct (settle_hooks s) as (-> & -> & -> & _). auto.
Qed.

Lemma handle_dialog e s :
  Inv s -> showDialog (handle e s) = true ->
  dialogType (handle e s) = kind_of (timerState (handle e s))
  /\ timeLeft (handle e s) = 0.
Proof.
  intros (I1 & I2 & K). destruct e as [| | | | | |ed|id| |ms]; cbn [handle].
  1-7,10: simple_handler s.
  - intros ->. destruct I1; auto. discriminate.
  - destruct (expire_hooks id s)
      as (-> & -> & _ & -> & _ & _ & _ & [->|[_ (t & T1 & T2 & T3)]]); auto.
    intros D. destruct (I2 D) as [_ L]. destruct (K t T1 T3) as (_ & _ & L'). lia.
  - destruct (settle_hooks s) as (-> & -> & _ & -> & _ & _ & _ & ->). auto.
Qed.

Lemma dep_timer_false p c :
  dep_timer p c = false -> isRunning c = isRunning p /\ timeLeft c = timeLeft p.
Proof.
  unfold dep_timer. rewrite orb_false_iff, !negb_false_iff, Z.eqb_eq.
  intros [H1 H2]. apply eqb_prop in H1. auto.
Qed.

Lemma Inv_step s e : Inv s -> Inv (step s e).
Proof.
  intros I. pose proof I as (I1 & I2 & K). unfold step.
  set (c := handle e s). split; [|split].
  - rewrite commit_timerState, commit_showDialog, commit_isRunning. intros H.
    assert (enters s c = false) as E.
    { unfold enters, expired. rewrite H. cbn. now rewrite !andb_false_r. }
    rewrite E. now apply handle_idle.
  - rewrite commit_showDialog, commit_dialogType, commit_timerState, commit_timeLeft.
    destruct (enters s c) eqn:E.
    + intros _. split; [reflexivity|].
      now apply enters_expired, expired_timeLeft in E.
    + now apply handle_dialog.
  - apply commit_ticks.
    + intros t' T1 T2. destruct (handle_ticks e s t' T1 T2) as (t0 & A & B & C).
      unfold c. rewrite handle_intervalRef, <- C. now apply K.
    + intros D t' T1 T2. destruct (handle_ticks e s t' T1 T2) as (t0 & A & B & C).
      apply dep_timer_false in D. destruct D as [-> ->].
      destruct (K t0 A B) as (_ & R & L). auto.
Qed.

Lemma mount_fields loaded :
  timerState (mount loaded) = idle /\ showDialog (mount loaded) = false
  /\ isRunning (mount loaded) = false /\ timers (mount loaded) = []
  /\ promises (mount loaded) = [] /\ timeLeft (mount loaded) = 0
  /\ log (mount loaded) = [StopAll 0].
Proof. destruct loaded; repeat split; reflexivity. Qed.

Lemma Inv_mount loaded : Inv (mount loaded).
Proof.
  destruct (mount_fields loaded) as (A & B & C & D & _).
  unfold Inv. rewrite A, B, C, D. repeat split; try discriminate; contradiction.
Qed.

Lemma reachable_Inv s : reachable s -> Inv s.
Proof. induction 1; auto using Inv_mount, Inv_step. Qed.

(** ** Re-check callbacks under a modal dialog *)

Lemma command_timers e s t :
  match e with Expire _ | Settle => False | _ => True end ->
  In t (timers (handle e s)) -> In t (timers s).
Proof.
  assert (forall h s0, In t (timers (clearInterval h s0)) -> In t (timers s0)) as Hc.
  { intros h s0 H. apply clearInterval_timers in H. tauto. }
  destruct e as [| | | | | |ed|id| |ms]; cbn [handle]; intros Hev H; try contradiction.
  1,2,5,6,7,8: revert H; unfold_handlers; destruct s; cbn; case_body; auto;
    rewrite In_remove_timer; tauto.
  - unfold resetTimer in H. revert H. unfold stopAllAudio.
    match goal with |- In t (timers (set_log _ ?x)) -> _ =>
      intros H; assert (In t (timers x)) as H' by (revert H; destruct x; cbn; auto) end.
    apply Hc, Hc in H'. revert H'. destruct s; cbn; auto.
  - unfold handleDialogAction in H.
    assert (In t (timers (cancelReminder (set_reminderCount 0 (set_showDialog false s))))) as H'.
    { revert H. generalize (cancelReminder (set_reminderCount 0 (set_showDialog false s))).
      intros x. destruct x; cbn. case_body; auto. }
    apply cancelReminder_timers in H'. revert H'. destruct s; cbn; auto.
Qed.

Lemma command_quiet e s :
  match e with Expire _ | Settle => False | _ => True end ->
  promises (handle e s) = promises s /\ repeats (handle e s) = repeats s.
Proof.
  destruct e as [| | | | | |ed|id| |ms]; cbn [handle]; intros Hev; try contradiction;
    unfold repeats; unfold_handlers; destruct s; cbn; case_body; auto.
Qed.

Lemma handle_quiet e s :
  Quiet s ->
  (forall t, In t (timers (handle e s)) -> silent (task t))
  /\ promises (handle e s) = [] /\ repeats (handle e s) = 0%nat.
Proof.
  intros (Q1 & Q2 & Q3).
  destruct e as [| | | | | |ed|id| |ms].
  1-7,10: (split; [intros t H; apply Q1; revert H; apply command_timers; exact I|];
           rewrite <- Q2, <- Q3; apply command_quiet; exact I).
  - cbn [handle]. unfold expire.
    destruct (find_timer id (timers s)) as [t0|] eqn:F; [|auto].
    apply find_timer_In in F. destruct F as [F1 F2].
    pose proof (Q1 t0 F1) as S0.
    destruct (task t0) as [|env|env] eqn:T0; cbn in S0; [| |contradiction].
    + unfold repeats in *. unfold_handlers. destruct s; cbn in *. repeat split; auto.
      intros t [<-|H]; cbn; auto. apply In_remove_timer in H. apply Q1. tauto.
    + unfold playNextReminder. rewrite S0, andb_false_r.
      unfold repeats in *. destruct s; cbn in *. repeat split; auto.
      intros t H. apply In_remove_timer in H. apply Q1. tauto.
  - cbn [handle]. unfold settle. rewrite Q2. auto.
Qed.

Lemma TimerState_eqb_refl t : TimerState_eqb t t = true.
Proof. now destruct t. Qed.

(** Under a modal dialog the expiry effect always runs in a render whose
    dialog is hidden. *)
Lemma enters_hidden e s :
  Inv s -> ui_enabled s e = true -> enters s (handle e s) = true ->
  showDialog (handle e s) = false.
Proof.
  intros (I1 & I2 & K) U.
  assert (forall c, timeLeft c = timeLeft s -> timerState c = timerState s ->
                    settingsId c = settingsId s -> enters s c = true -> False) as Same.
  { intros c E1 E2 E3. unfold enters, dep_expiry.
    rewrite E1, E2, E3, !Z.eqb_refl, TimerState_eqb_refl. discriminate. }
  destruct e as [| | | | | |ed|id| |ms]; cbn [handle] in *.
  - destruct (timerState s) eqn:T.
    + destruct I1 as [D _]; auto. intros _. revert D.
      unfold startTimer. destruct s; cbn in *. rewrite T. cbn. auto.
    + intros E. exfalso. revert E. apply Same;
        unfold startTimer; destruct s; cbn in *; rewrite T; reflexivity.
    + intros E. exfalso. revert E. apply Same;
        unfold startTimer; destruct s; cbn in *; rewrite T; reflexivity.
  - intros E. exfalso. revert E. apply Same; destruct s; reflexivity.
  - intros _. unfold_handlers. destruct s; cbn. case_body.
  - intros _. unfold_handlers. destruct s; cbn. case_body.
  - intros _. unfold_handlers. destruct s; cbn. case_body.
  - intros E. exfalso. revert E. apply Same; destruct s; reflexivity.
  - intros _. apply negb_true_iff in U. rewrite <- U. destruct s; reflexivity.
  - destruct (expire_hooks id s)
      as (A & B & _ & _ & _ & C & _ & [D|[_ (t & T1 & T2 & T3)]]).
    + intros E. exfalso. revert E. apply Same; auto.
    + intros _. rewrite B. destruct (showDialog s) eqn:SD; auto.
      destruct (I2 eq_refl) as [_ L]. destruct (K t T1 T3) as (_ & _ & L'). lia.
  - destruct (settle_hooks s) as (A & _ & _ & _ & _ & C & _ & D).
    intros E. exfalso. revert E. apply Same; auto.
  - intros E. exfalso. revert E. apply Same; destruct s; reflexivity.
Qed.

Lemma Quiet_step s e :
  Inv s -> Quiet s -> ui_enabled s e = true -> Quiet (step s e).
Proof.
  intros I Q U. destruct (handle_quiet e s Q) as (H1 & H2 & H3).
  unfold step, Quiet. rewrite commit_promises, commit_repeats.
  split; auto. intros t Ht.
  apply commit_timers in Ht. destruct Ht as [Ht|[(Ht & _)|(E & m & Ht)]]; auto.
  - rewrite Ht. exact Logic.I.
  - rewrite Ht. cbn. now apply enters_hidden.
Qed.

Lemma ui_reachable_reachable s : ui_reachable s -> reachable s.
Proof. induction 1; auto using reach_mount, reach_step. Qed.

Lemma ui_reachable_Quiet s : ui_reachable s -> Quiet s.
Proof.
  induction 1 as [loaded|s e R IH U].
  - destruct (mount_fields loaded) as (_ & _ & _ & A & B & _ & C).
    unfold Quiet, repeats. rewrite A, B, C. repeat split; auto. contradiction.
  - apply Quiet_step; auto. now apply reachable_Inv, ui_reachable_reachable.
Qed.

(** ** Commits that do not enter the reminder *)

Lemma run_effects_id p c :
  dep_timer p c = false -> dep_expiry p c = false -> dep_dialog p c = false ->
  run_effects p c = c.
Proof. unfold run_effects. now intros -> -> ->. Qed.

Lemma commit_no_entry p c : enters p c = false -> commit p c = run_effects p c.
Proof.
  intros E. unfold commit. apply run_effects_id.
  - unfold dep_timer.
    rewrite run_effects_timeLeft, Z.eqb_refl, run_effects_isRunning, E.
    now destruct (isRunning c).
  - apply dep_expiry_run_effects.
  - unfold dep_dialog. rewrite run_effects_showDialog, E.
    now destruct (showDialog c).
Qed.

Lemma commit_same_hooks p c :
  dep_timer p c = false -> dep_expiry p c = false -> dep_dialog p c = false ->
  commit p c = c.
Proof.
  intros A B C. rewrite commit_no_entry.
  - now apply run_effects_id.
  - unfold enters. now rewrite B.
Qed.

Lemma expiry_body_skip r s : expired r = false -> expiry_body r s = s.
Proof. unfold expiry_body, expired. now intros ->. Qed.

(** The main timer effect starts the interval. *)
Lemma run_effects_starts_interval p c :
  dep_timer p c = true -> isRunning c = true -> 0 < timeLeft c ->
  dep_dialog p c = false \/ showDialog c = true \/ reminderIntervalRef c = None ->
  timers (run_effects p c) =
    mkTimer (nextId c) (now c + 1000) TickInterval :: timers (timer_cleanup c)
  /\ intervalRef (run_effects p c) = Some (nextId c).
Proof.
  intros D R L H.
  assert (expired c = false) as X.
  { unfold expired. replace (timeLeft c =? 0) with false; auto.
    symmetry. apply Z.eqb_neq. lia. }
  split.
  2:{ rewrite run_effects_intervalRef, D, R. apply Z.ltb_lt in L. now rewrite L. }
  unfold run_effects. rewrite D. cbv zeta.
  assert (forall x, (if dep_expiry p c then expiry_body c x else x) = x) as Hx.
  { intros x. destruct (dep_expiry p c); auto using expiry_body_skip. }
  rewrite Hx.
  assert (timers (timer_body c (timer_cleanup c)) =
          mkTimer (nextId c) (now c + 1000) TickInterval :: timers (timer_cleanup c)) as Ht.
  { unfold timer_body. rewrite R. apply Z.ltb_lt in L. rewrite L. cbn.
    unfold timer_cleanup, clearInterval, setTimer.
    destruct c; cbn. case_body. }
  assert (reminderIntervalRef (timer_body c (timer_cleanup c)) = reminderIntervalRef c) as Hr.
  { now autorewrite with frame. }
  destruct (dep_dialog p c) eqn:DD; auto.
  unfold dialog_body. destruct H as [H|[H|H]]; [discriminate| |].
  - now rewrite H.
  - destruct (negb (showDialog c)); auto.
    unfold cancelReminder. rewrite Hr, H.
    rewrite <- Ht. unfold stopAllAudio.
    now destruct (timer_body c (timer_cleanup c)).
Qed.

Lemma handle_entries e s : entries (handle e s) = entries s.
Proof.
  destruct e as [| | | | | |ed|id| |ms]; cbn [handle].
  1-7,10: unfold entries; unfold_handlers; destruct s; cbn; case_body.
  - unfold expire. destruct (find_timer id (timers s)) as [t0|]; auto.
    unfold entries. destruct (task t0); unfold_handlers; destruct s; cbn; case_body.
  - unfold settle. destruct (promises s); auto.
    unfold entries. unfold_handlers. destruct s; cbn; case_body.
Qed.

(** * The claims *)

Lemma resetTimer_timers s t :
  In t (timers (resetTimer s)) ->
  In t (timers s) /\ intervalRef s <> Some (tid t)
  /\ reminderIntervalRef s <> Some (tid t).
Proof.
  unfold resetTimer, stopAllAudio.
  match goal with |- In t (timers (set_log _ ?x)) -> _ =>
    intros H; assert (In t (timers x)) as H' by (revert H; destruct x; cbn; auto) end.
  clear H. apply clearInterval_timers in H'. destruct H' as [H' R].
  apply clearInterval_timers in H'. destruct H' as [H' R'].
  revert H' R R'. unfold clearInterval. destruct s; cbn. case_body; auto.
Qed.

(** C6.  A reset issued in any state (any phase, reminder active or not)
    ends idle with no time remaining, the clock stopped and no reminder: the
    dialog is closed, its counter is zero, and neither the interval nor the
    re-check registered in the two refs is pending any more. *)
Theorem reset_returns_to_idle (s : State) :
  let s' := step s Reset in
  session s' = (idle, 0, false, None)
  /\ reminderCount s' = 0
  /\ forall t, In t (timers s') ->
       intervalRef s <> Some (tid t) /\ reminderIntervalRef s <> Some (tid t).
Proof.
  cbv zeta. unfold step, session. cbn [handle].
  assert (timerState (resetTimer s) = idle /\ timeLeft (resetTimer s) = 0
          /\ isRunning (resetTimer s) = false /\ showDialog (resetTimer s) = false
          /\ reminderCount (resetTimer s) = 0) as (A & B & C & D & E).
  { unfold_handlers. destruct s; cbn. case_body; auto. }
  assert (enters s (resetTimer s) = false) as N.
  { unfold enters, expired. rewrite A. cbn. now rewrite !andb_false_r. }
  rewrite commit_timerState, commit_timeLeft, commit_isRunning,
    commit_showDialog, commit_reminderCount, N, A, B, C, D, E.
  repeat split; auto.
  - apply commit_timers in H. rewrite N, C in H.
    destruct H as [H|[(_ & H & _)|(H & _)]]; try discriminate.
    now apply resetTimer_timers in H.
  - apply commit_timers in H. rewrite N, C in H.
    destruct H as [H|[(_ & H & _)|(H & _)]]; try discriminate.
    now apply resetTimer_timers in H.
Qed.

Lemma run_effects_log_entry p c :
  enters p c = true ->
  In (Notify (now c) (if is_working (timerState c) then WorkEnd else RestEnd) Entry)
     (log (run_effects p c)).
Proof.
  unfold enters. intros E. apply andb_true_iff in E. destruct E as [E X].
  unfold run_effects. rewrite E. cbv zeta.
  set (x := if dep_timer p c then timer_body c _ else _).
  assert (now x = now c) as Hn.
  { unfold x. destruct (dep_timer p c); now autorewrite with frame. }
  assert (In (Notify (now c) (if is_working (timerState c) then WorkEnd else RestEnd) Entry)
             (log (expiry_body c x))) as H.
  { unfold expiry_body. unfold expired in X. rewrite X. rewrite <- Hn.
    unfold playReminder, setTimer. destruct x; cbn. case_body; auto. }
  destruct (dep_dialog p c); auto.
  unfold dialog_body. destruct (negb (showDialog c)); auto.
  revert H. generalize (expiry_body c x). intros y.
  unfold cancelReminder, stopAllAudio, clearInterval. destruct y; cbn. case_body; auto.
Qed.

Lemma run_effects_log_incl p c o : In o (log c) -> In o (log (run_effects p c)).
Proof.
  unfold run_effects. cbv zeta. intros H.
  assert (forall r x, In o (log x) -> In o (log (timer_cleanup x))
                      /\ In o (log (timer_body r x))
                      /\ In o (log (expiry_body r x))
                      /\ In o (log (dialog_body r x))) as F.
  { intros r x Hx. unfold_effects. repeat split; destruct x; cbn in *; case_body; auto. }
  destruct (dep_timer p c), (dep_expiry p c), (dep_dialog p c); auto;
    repeat (apply F); auto.
Qed.

Lemma armedBy_enters e s total :
  reachable s -> (e = Acknowledge -> showDialog s = true) ->
  armedBy e s = Some total ->
  timeLeft (handle e s) = total /\ timerState (handle e s) <> timerState s
  /\ timerState (handle e s) <> idle /\ now (handle e s) = now s
  /\ (e = Start -> timerState (handle e s) = working).
Proof.
  intros R Hd. apply reachable_Inv in R. destruct R as (I1 & I2 & _).
  destruct e; cbn [armedBy handle]; try discriminate.
  - destruct (timerState s) eqn:T; cbn; try discriminate.
    intros H. assert (total = workSeconds (settings s)) as -> by congruence. clear H.
    unfold startTimer. destruct s; cbn in *. rewrite T. cbn.
    repeat split; auto; discriminate || (intros; discriminate).
  - intros H.
    assert (total = match dialogType s with
                    | work => restSeconds (settings s)
                    | rest => workSeconds (settings s)
                    end) as -> by congruence.
    clear H. destruct (I2 (Hd eq_refl)) as [K _].
    assert (timerState s <> idle) as NI.
    { intros T. destruct (I1 T) as [F _]. rewrite (Hd eq_refl) in F. discriminate. }
    clear I1 I2 Hd. revert K NI.
    unfold_handlers. destruct s; cbn.
    destruct timerState0, dialogType0, reminderIntervalRef0;
      unfold kind_of, is_working; cbn;
      intros K NI; try discriminate K;
      try congruence; case_body; repeat split; auto;
      discriminate || (intros; discriminate).
Qed.

(** Arming a phase with zero seconds makes the expiry effect of the next
    render enter the reminder. *)
Lemma armedBy_zero_enters (s : State) (e : Event) :
  reachable s -> (e = Acknowledge -> showDialog s = true) ->
  armedBy e s = Some 0 -> enters s (handle e s) = true.
Proof.
  intros R Hd A.
  destruct (armedBy_enters e s 0 R Hd A) as (L & T & NI & _).
  unfold enters, dep_expiry, expired. rewrite L. cbn.
  destruct (timerState (handle e s)), (timerState s); cbn; try congruence;
    now rewrite ?orb_true_r.
Qed.

(** C7.  Arming a phase with zero seconds, by [start] from idle or by an
    acknowledgement, expires it in the same step: without any tick the
    dialog is open, the clock is stopped and exactly one first reminder has
    sounded, at the time of the command. *)
Theorem zero_length_phase_expires_at_once (s : State) (e : Event) :
  reachable s ->
  (e = Acknowledge -> showDialog s = true) ->
  armedBy e s = Some 0 ->
  let s' := step s e in
  timeLeft s' = 0 /\ timerState s' <> idle /\ (e = Start -> timerState s' = working)
  /\ showDialog s' = true /\ isRunning s' = false
  /\ dialogType s' = kind_of (timerState s')
  /\ entries s' = S (entries s)
  /\ In (Notify (now s) (if is_working (timerState s') then WorkEnd else RestEnd) Entry)
        (log s').
Proof.
  intros R Hd A. cbv zeta.
  destruct (armedBy_enters e s 0 R Hd A) as (L & T & NI & N & W).
  pose proof (armedBy_zero_enters s e R Hd A) as E.
  unfold step.
  rewrite commit_timeLeft, commit_timerState, commit_showDialog, commit_isRunning,
    commit_dialogType, commit_entries, E, handle_entries.
  repeat split; auto.
  unfold commit. apply run_effects_log_incl. rewrite <- N. now apply run_effects_log_entry.
Qed.

Lemma zero_length_phase_witness :
  let s' := step (mount (Some zeroWork)) Start in
  showDialog s' = true /\ isRunning s' = false /\ entries s' = 1%nat.
Proof.
  pose proof (zero_length_phase_expires_at_once (mount (Some zeroWork)) Start
                (reach_mount _) ltac:(discriminate)
                ltac:(vm_compute; reflexivity)) as H.
  cbv zeta in *. tauto.
Defined.

Lemma cancelReminder_discards s :
  reminderIntervalRef (cancelReminder s) = None
  /\ forall t, In t (timers (cancelReminder s)) ->
       In t (timers s) /\ reminderIntervalRef s <> Some (tid t).
Proof.
  unfold cancelReminder, stopAllAudio, clearInterval.
  destruct s; cbn. destruct reminderIntervalRef0; cbn; split; auto.
  - intros t H. apply In_remove_timer in H. destruct H as [H1 H2].
    split; [auto|]. intros E. apply H2. congruence.
  - intros t H. split; auto. discriminate.
Qed.



(** ** Counting down *)

Lemma tick_counts_down m s :
  ticking m s -> 0 < m ->
  let s' := tick s in
  (1 < m -> ticking (m - 1) s' /\ entries s' = entries s)
  /\ (m = 1 -> timeLeft s' = 0 /\ timerState s' = working /\ showDialog s' = true
               /\ isRunning s' = false /\ entries s' = S (entries s)).
Proof.
  intros (W & R & L & D & id & d & others & Ref & Tm) P. cbv zeta.
  unfold tick. rewrite Ref. unfold step. cbn [handle].
  set (c := expire id s).
  assert (timerState c = working /\ isRunning c = true /\ timeLeft c = m - 1
          /\ showDialog c = false /\ intervalRef c = Some id
          /\ settingsId c = settingsId s) as (C1 & C2 & C3 & C4 & C5 & C6).
  { unfold c, expire. rewrite Tm. cbn. rewrite Z.eqb_refl. cbn.
    unfold tickCallback. destruct s; cbn in *. subst. repeat split. }
  assert (entries c = entries s) as C7 by apply handle_entries with (e := Expire id).
  split.
  - intros M.
    assert (enters s c = false) as N.
    { unfold enters, expired. rewrite C3.
      replace (m - 1 =? 0) with false by (symmetry; apply Z.eqb_neq; lia).
      cbn. apply andb_false_r. }
    rewrite commit_no_entry by exact N.
    destruct (run_effects_starts_interval s c) as [T1 T2]; auto.
    + unfold dep_timer. rewrite C3, L.
      replace (m =? m - 1) with false by (symmetry; apply Z.eqb_neq; lia).
      cbn. apply orb_true_r.
    + lia.
    + left. unfold dep_dialog. rewrite C4, D. reflexivity.
    + split.
      * unfold ticking.
        rewrite run_effects_timerState, run_effects_isRunning, run_effects_timeLeft,
          run_effects_showDialog, N, T1, T2. repeat split; auto. eauto.
      * now rewrite run_effects_entries, N, C7.
  - intros ->.
    assert (enters s c = true) as E.
    { unfold enters, expired, dep_expiry. rewrite C3, L, C1. reflexivity. }
    rewrite commit_timeLeft, commit_timerState, commit_showDialog, commit_isRunning,
      commit_entries, E, C3, C1, C7. auto.
Qed.

Lemma ticks_run_out n : forall s,
  ticking (Z.of_nat (S n)) s ->
  let s' := ticks (S n) s in
  timeLeft s' = 0 /\ timerState s' = working /\ showDialog s' = true
  /\ isRunning s' = false /\ entries s' = S (entries s).
Proof.
  induction n as [|n IH]; intros s T.
  - destruct (tick_counts_down 1 s T ltac:(lia)) as [_ H]. cbn. now apply H.
  - destruct (tick_counts_down _ s T ltac:(lia)) as [H _].
    destruct H as [T' E]; [lia|].
    replace (Z.of_nat (S (S n)) - 1) with (Z.of_nat (S n)) in T' by lia.
    specialize (IH _ T'). cbv zeta in *.
    change (ticks (S (S n)) s) with (ticks (S n) (tick s)).
    rewrite <- E. exact IH.
Qed.

Lemma start_begins_countdown s :
  reachable s -> timerState s = idle -> 0 < workSeconds (settings s) ->
  ticking (workSeconds (settings s)) (step s Start)
  /\ entries (step s Start) = entries s.
Proof.
  intros R T P. destruct (reachable_Inv s R) as (I1 & _ & _).
  destruct (I1 T) as [D Rn].
  unfold step. cbn [handle]. set (c := startTimer s).
  assert (timerState c = working /\ isRunning c = true
          /\ timeLeft c = workSeconds (settings s)
          /\ showDialog c = false) as (C1 & C2 & C3 & C4).
  { unfold c, startTimer. destruct s; cbn in *. subst. auto. }
  assert (entries c = entries s) as C7 by apply handle_entries with (e := Start).
  assert (enters s c = false) as N.
  { unfold enters, expired. rewrite C3.
    replace (workSeconds (settings s) =? 0) with false
      by (symmetry; apply Z.eqb_neq; lia).
    cbn. apply andb_false_r. }
  rewrite commit_no_entry by exact N.
  destruct (run_effects_starts_interval s c) as [T1 T2]; auto.
  - unfold dep_timer. rewrite C2, Rn. reflexivity.
  - lia.
  - left. unfold dep_dialog. rewrite C4, D. reflexivity.
  - split.
    + unfold ticking.
      rewrite run_effects_timerState, run_effects_isRunning, run_effects_timeLeft,
        run_effects_showDialog, N, T1, T2. repeat split; auto. eauto.
    + now rewrite run_effects_entries, N, C7.
Qed.

(** C9, as the code has it.  From idle, [start] followed by as many ticks
    as the work duration has seconds ends with no time remaining, in phase
    [working] with the dialog open, after exactly one reminder entry; and a
    step that changes neither the remaining time, nor the phase, nor the
    settings object enters no reminder. *)
Theorem countdown_enters_reminder_once (s : State) :
  reachable s -> timerState s = idle -> 0 <= workSeconds (settings s) ->
  (let s' := ticks (Z.to_nat (workSeconds (settings s))) (step s Start) in
   timeLeft s' = 0 /\ timerState s' = working /\ showDialog s' = true
   /\ isRunning s' = false /\ entries s' = S (entries s))
  /\ (forall s0 e,
        timeLeft (step s0 e) = timeLeft s0 ->
        timerState (step s0 e) = timerState s0 ->
        settingsId (step s0 e) = settingsId s0 ->
        entries (step s0 e) = entries s0).
Proof.
  intros R T P. split.
  - cbv zeta. destruct (Z.eq_dec (workSeconds (settings s)) 0) as [Z0|NZ].
    + rewrite Z0. cbn [Z.to_nat ticks].
      assert (armedBy Start s = Some 0) as A.
      { cbn. rewrite T. cbn. now rewrite Z0. }
      destruct (armedBy_enters Start s 0 R ltac:(discriminate) A)
        as (L & _ & _ & _ & W).
      pose proof (armedBy_zero_enters s Start R ltac:(discriminate) A) as E.
      unfold step.
      rewrite commit_timeLeft, commit_timerState, commit_showDialog,
        commit_isRunning, commit_entries, E, handle_entries.
      repeat split; auto.
    + destruct (start_begins_countdown s R T ltac:(lia)) as [K E].
      destruct (Z.to_nat (workSeconds (settings s))) as [|n] eqn:N; [lia|].
      rewrite <- E. apply ticks_run_out. rewrite <- N, Z2Nat.id by lia. exact K.
  - intros s0 e A B C. unfold step in *.
    rewrite commit_timeLeft in A. rewrite commit_timerState in B.
    rewrite commit_settingsId in C.
    rewrite commit_entries, handle_entries.
    replace (enters s0 (handle e s0)) with false; auto.
    unfold enters, dep_expiry. rewrite A, B, C, !Z.eqb_refl, TimerState_eqb_refl.
    reflexivity.
Qed.

Lemma countdown_witness :
  let s' := ticks 1 (step (mount (Some shortPhases)) Start) in
  timeLeft s' = 0 /\ timerState s' = working /\ showDialog s' = true
  /\ isRunning s' = false /\ entries s' = 1%nat.
Proof.
  pose proof (countdown_enters_reminder_once (mount (Some shortPhases))
                (reach_mount _) ltac:(vm_compute; reflexivity)
                ltac:(vm_compute; discriminate)) as [H _].
  exact H.
Defined.

(** C9 as stated fails: after the reminder is dismissed the remaining time
    stays 0 in phase [working], and an edit of the settings enters the
    reminder a second time. *)
Lemma settings_edit_reenters_reminder :
  let s := dismissed in
  let s' := step s (Edit (WorkRemindersInput "5")) in
  ui_valid (mount (Some shortPhases))
    [Start; Expire 1; Dismiss; ToggleSettings; Edit (WorkRemindersInput "5")] = true
  /\ timerState s = working /\ timeLeft s = 0 /\ showDialog s = false
  /\ entries s = 1%nat
  /\ timerState s' = working /\ timeLeft s' = 0 /\ showDialog s' = true
  /\ entries s' = 2%nat.
Proof. vm_compute. repeat split. Qed.

(** ** Cancellation *)

Lemma ui_reachable_run tr : forall s,
  ui_reachable s -> ui_valid s tr = true -> ui_reachable (run s tr).
Proof.
  induction tr as [|e tr IH]; intros s R V; cbn in *; auto.
  apply andb_true_iff in V. destruct V as [V1 V2].
  apply IH; auto. now apply ui_step.
Qed.

Lemma silent_callback_noop s id t env :
  Quiet s -> find_timer id (timers s) = Some t -> task t = CallNext env ->
  log (step s (Expire id)) = log s /\ session (step s (Expire id)) = session s.
Proof.
  intros (Q & _ & _) F T. unfold step. cbn [handle].
  assert (cap_showDialog env = false) as Cap.
  { apply find_timer_In in F. destruct F as [F _].
    specialize (Q t F). now rewrite T in Q. }
  assert (expire id s =
          set_timers (remove_timer id (timers s)) (set_now (Z.max (now s) (due t)) s)) as E.
  { unfold expire. rewrite F, T. unfold playNextReminder.
    rewrite Cap, andb_false_r. destruct s; reflexivity. }
  rewrite E. rewrite commit_same_hooks; try (destruct s; cbn; split; reflexivity).
  - unfold dep_timer. destruct s; cbn. rewrite Z.eqb_refl. now destruct isRunning0.
  - unfold dep_expiry. destruct s; cbn.
    rewrite !Z.eqb_refl, TimerState_eqb_refl. reflexivity.
  - unfold dep_dialog. destruct s; cbn. now destruct showDialog0.
Qed.

Lemma cancel_discards_recheck s c t :
  is_cancel c = true -> In t (timers (handle c s)) ->
  reminderIntervalRef s <> Some (tid t).
Proof.
  destruct c; try discriminate; intros _; cbn [handle].
  - intros H. now apply resetTimer_timers in H.
  - unfold handleDialogAction. intros H.
    assert (In t (timers (cancelReminder (set_reminderCount 0 (set_showDialog false s))))) as H'.
    { revert H. generalize (cancelReminder (set_reminderCount 0 (set_showDialog false s))).
      intros x. destruct x; cbn. destruct dialogType0; auto. }
    apply cancelReminder_discards in H'. destruct H' as [_ H'].
    revert H'. destruct s; cbn. auto.
  - unfold handleDialogClose. intros H.
    apply cancelReminder_discards in H. destruct H as [_ H].
    revert H. destruct s; cbn. auto.
Qed.

(** C1, evaluated.  The work phase of [shortPhases] expires one second after
    [start], with a reminder limit of 3: the first reminder sounds at once;
    the re-check armed for 15 seconds later (handle 2) closed over the render
    in which the dialog was still hidden and does nothing; one minute later
    the dialog is still open, one notification has sounded in all and no
    timer or promise is left to play another.  It is so for every limit:
    under the modal dialog every re-check closure captured a hidden dialog,
    and no repeat is ever played. *)
Theorem three_reminders_sound_once :
  (let s := run workExpired [Expire 2; Wait 60000] in
   workReminders (settings workExpired) = 3
   /\ notifications workExpired = [(1000, WorkEnd)]
   /\ timers workExpired =
        [mkTimer 2 16000 (CallNext (mkEnv false working 3 0))]
   /\ notifications s = [(1000, WorkEnd)]
   /\ now s = 76000 /\ showDialog s = true
   /\ timers s = [] /\ promises s = [])
  /\ (forall s, ui_reachable s ->
        repeats s = 0%nat
        /\ forall t env, In t (timers s) -> task t = CallNext env ->
             cap_showDialog env = false).
Proof.
  split.
  - vm_compute. repeat split.
  - intros s R. destruct (ui_reachable_Quiet s R) as (Q & _ & Z).
    split; [exact Z|]. intros t env H T.
    specialize (Q t H). now rewrite T in Q.
Qed.

(** ** Progress *)

Lemma quiet_event_keeps_phase e s :
  armedBy e s = None -> is_edit e = false ->
  settings (handle e s) = settings s
  /\ (timerState (handle e s) = timerState s \/ timerState (handle e s) = idle).
Proof.
  destruct e as [| | | | | |ed|id| |ms]; cbn [armedBy is_edit handle];
    try discriminate; intros A _.
  - unfold startTimer. destruct (is_idle (timerState s)); [discriminate|].
    destruct s; cbn; auto.
  - destruct s; cbn; auto.
  - unfold_handlers. destruct s; cbn. case_body; auto.
  - unfold_handlers. destruct s; cbn. case_body; auto.
  - destruct s; cbn; auto.
  - destruct (expire_hooks id s) as (A1 & _ & _ & _ & A2 & _). auto.
  - destruct (settle_hooks s) as (A1 & _ & _ & _ & A2 & _). auto.
  - destruct s; cbn; auto.
Qed.

Lemma armed_total_is_live e s total :
  armedBy e s = Some total -> liveTotal (step s e) = total.
Proof.
  unfold liveTotal, step. rewrite commit_timerState, commit_settings.
  destruct e; cbn [armedBy handle]; try discriminate.
  - destruct (is_idle (timerState s)) eqn:I; [|discriminate]. intros [= <-].
    unfold startTimer. rewrite I. destruct s; reflexivity.
  - intros [= <-]. unfold_handlers. destruct s; cbn.
    destruct reminderIntervalRef0, dialogType0; reflexivity.
Qed.

Lemma tracked_snapshot loaded tr :
  let t := tracked_run loaded tr in
  timerState (state t) <> idle -> editedSince t = false ->
  liveTotal (state t) = armedTotal t.
Proof.
  cbv zeta. unfold tracked_run.
  assert (forall t0, (timerState (state t0) <> idle -> editedSince t0 = false ->
                      liveTotal (state t0) = armedTotal t0) ->
          timerState (state (fold_left track tr t0)) <> idle ->
          editedSince (fold_left track tr t0) = false ->
          liveTotal (state (fold_left track tr t0)) = armedTotal (fold_left track tr t0)) as G.
  { induction tr as [|e tr IH]; intros t0 H0; cbn [fold_left]; auto.
    apply IH. unfold track.
    destruct (armedBy e (state t0)) as [total|] eqn:A; cbn [state armedTotal editedSince].
    - intros _ _. now apply armed_total_is_live.
    - intros NI E. apply orb_false_iff in E. destruct E as [E1 E2].
      destruct (quiet_event_keeps_phase e (state t0) A E2) as [S1 S2].
      unfold step in NI. rewrite commit_timerState in NI.
      destruct S2 as [S2|S2]; [|congruence].
      rewrite <- H0; auto; [|congruence].
      unfold liveTotal, step. now rewrite commit_timerState, commit_settings, S1, S2. }
  apply G. cbn [state]. intros NI.
  destruct (mount_fields loaded) as (I & _). contradiction.
Qed.

(** C4, as the code has it.  Progress is 0 while idle; otherwise it is the
    percentage [(total - timeLeft) / total * 100] where [total] is read from
    the settings at the time of the render; it is the duration with which
    the phase was armed as long as the settings were not edited since. *)
Theorem progress_reads_live_settings (loaded : option TimerSettings) (tr : list Event) :
  let t := tracked_run loaded tr in
  let s := state t in
  (timerState s = idle -> getProgressPercentage s = Num (inject_Z 0))
  /\ (timerState s <> idle ->
      getProgressPercentage s = js_times100 (progressOf (liveTotal s) (timeLeft s)))
  /\ (timerState s <> idle -> editedSince t = false ->
      getProgressPercentage s = js_times100 (progressOf (armedTotal t) (timeLeft s))).
Proof.
  cbv zeta. set (t := tracked_run loaded tr).
  assert (timerState (state t) <> idle ->
          getProgressPercentage (state t) =
          js_times100 (progressOf (liveTotal (state t)) (timeLeft (state t)))) as L.
  { unfold getProgressPercentage, progressOf.
    destruct (timerState (state t)); cbn; congruence. }
  split; [|split]; auto.
  - unfold getProgressPercentage. now intros ->.
  - intros NI E. pose proof (tracked_snapshot loaded tr NI E) as X.
    fold t in X. rewrite <- X. auto.
Qed.

(** C4 as stated fails: 25 minutes of work are armed, the duration is then
    set to 50 minutes, and with all 1500 seconds remaining the progress is
    50 percent, where the armed duration gives 0. *)
Lemma progress_ignores_armed_duration :
  let t := editedMidPhase in
  let s := state t in
  timerState s = working /\ timeLeft s = 1500 /\ armedTotal t = 1500
  /\ liveTotal s = 3000
  /\ JS_eq (getProgressPercentage s) (Num (inject_Z 50))
  /\ JS_eq (progressOf (armedTotal t) (timeLeft s)) (Num (inject_Z 0))
  /\ ~ JS_eq (getProgressPercentage s)
         (js_times100 (progressOf (armedTotal t) (timeLeft s)))
  /\ ~ JS_eq (getProgressPercentage s) (progressOf (armedTotal t) (timeLeft s)).
Proof.
  vm_compute. repeat split; try discriminate; intros H; discriminate H.
Qed.

(** ** Loading the settings *)

Lemma getProp_lookup v k :
  getProp v k = Some (match v with JObj fs => lookup k fs | _ => JUndefined end)
  \/ (getProp v k = None /\ (v = JNull \/ v = JUndefined)).
Proof. destruct v; cbn; auto. Qed.

(** C8, as the code has it.  Loading never fails.  Each field of the
    loaded settings is the stored value when that value is truthy and the
    default otherwise (missing, [null], [0], the empty string, [false]);
    when storage cannot be read, holds no text or no JSON, or the text does
    not parse to an object, all six fields are the defaults: 25 minutes of
    work, 5 minutes of rest, 3 reminders each. *)
Theorem load_falls_back_on_falsy (st : Stored) (f : Field) :
  rawField f (settingsAfterLoad st) =
    (if truthy (storedField f st) then storedField f st else rawField f rawDefaults)
  /\ (match st with Parsed (JObj _) => True | _ => settingsAfterLoad st = rawDefaults end)
  /\ rawDefaults =
       mkRaw (num 25) (JStr "minutes") (num 5) (JStr "minutes") (num 3) (num 3).
Proof.
  split; [|split; [|reflexivity]].
  - destruct st as [| | |v]; try (destruct f; reflexivity).
    destruct v; destruct f; reflexivity.
  - destruct st as [| | |v]; try reflexivity. destruct v; auto; reflexivity.
Qed.

(** C8 as stated fails: a stored unit that is none of the three units and a
    stored negative limit are invalid, and are loaded as they are. *)
Lemma invalid_stored_fields_are_kept :
  validField FWorkUnit (storedField FWorkUnit badStored) = false
  /\ rawField FWorkUnit (settingsAfterLoad badStored) = JStr "weeks"
  /\ validField FWorkReminders (storedField FWorkReminders badStored) = false
  /\ rawField FWorkReminders (settingsAfterLoad badStored) = num (-7)
  /\ ~ (forall st f, validField f (storedField f st) = false ->
          rawField f (settingsAfterLoad st) = rawField f rawDefaults).
Proof.
  repeat split; try reflexivity.
  intros H. specialize (H badStored FWorkUnit eq_refl). discriminate H.
Qed.

(** ** Reminder limits *)

Lemma clampReminders_range text : 1 <= clampReminders text <= 100.
Proof. unfold clampReminders. lia. Qed.

(** * Further properties *)

(** ** Decimal text *)

Lemma digit_of_decimal (c : ascii) (k : Z) :
  In (c, k) [("0"%char, 0); ("1"%char, 1); ("2"%char, 2); ("3"%char, 3);
             ("4"%char, 4); ("5"%char, 5); ("6"%char, 6); ("7"%char, 7);
             ("8"%char, 8); ("9"%char, 9)] ->
  digit_of 10 c = Some k.
Proof.
  cbn. intros H.
  repeat (destruct H as [H|H]; [injection H as <- <-; reflexivity|]).
  contradiction.
Qed.

Ltac uint_cases d IH :=
  induction d as [|d IH|d IH|d IH|d IH|d IH|d IH|d IH|d IH|d IH|d IH].

Ltac digit_step :=
  cbn [DecimalString.NilEmpty.string_of_uint digits uintValue String.append afterColon];
  match goal with
  | |- context [digit_of 10 ?c] =>
      let k := eval vm_compute in (digit_of 10 c) in
      change (digit_of 10 c) with k; cbv iota beta
  | _ => idtac
  end.

Lemma digits_uint d : forall a,
  digits 10 (DecimalString.NilEmpty.string_of_uint d) (Some a) = Some (uintValue d a).
Proof. uint_cases d IH; intros a; digit_step; rewrite ?Z.add_0_r; auto. Qed.

Lemma digits_uint_first d :
  d <> Decimal.Nil ->
  digits 10 (DecimalString.NilEmpty.string_of_uint d) None = Some (uintValue d 0).
Proof.
  destruct d; intros H; try congruence; digit_step; apply digits_uint.
Qed.

(** Reading stops at the first character that is no digit. *)
Lemma digits_stop d c rest : forall acc,
  digit_of 10 c = None ->
  digits 10 (DecimalString.NilEmpty.string_of_uint d ++ String c rest) acc =
  digits 10 (DecimalString.NilEmpty.string_of_uint d) acc.
Proof.
  uint_cases d IH; intros acc H;
    [cbn; now rewrite H | digit_step; auto ..].
Qed.

Lemma afterColon_uint d rest :
  afterColon (DecimalString.NilEmpty.string_of_uint d ++ String ":" rest) = rest.
Proof. uint_cases d IH; digit_step; auto. Qed.

Lemma afterColon_uint_end d :
  afterColon (DecimalString.NilEmpty.string_of_uint d) = EmptyString.
Proof. uint_cases d IH; digit_step; auto. Qed.

Lemma of_lu_rev_cons (f : Decimal.uint -> Decimal.uint) d :
  (forall x y, Decimal.revapp (f x) y = Decimal.revapp x (f y)) ->
  DecimalPos.Unsigned.of_lu (Decimal.rev (f d)) =
  (DecimalPos.Unsigned.of_lu (Decimal.rev d)
   + DecimalPos.Unsigned.of_lu (f Decimal.Nil)
     * 10 ^ DecimalPos.Unsigned.usize d)%N.
Proof.
  intros H. unfold Decimal.rev at 1. rewrite H.
  apply DecimalPos.Unsigned.of_lu_revapp.
Qed.

Lemma uintValue_of_lu d : forall a,
  uintValue d a =
  a * 10 ^ Z.of_N (DecimalPos.Unsigned.usize d)
  + Z.of_N (DecimalPos.Unsigned.of_lu (Decimal.rev d)).
Proof.
  uint_cases d IH; intros a; [cbn; lia | ..];
    cbn [uintValue DecimalPos.Unsigned.usize]; rewrite IH;
    match goal with
    | |- context [Decimal.rev (?f d)] =>
        rewrite (of_lu_rev_cons f d) by reflexivity
    end;
    cbn [DecimalPos.Unsigned.of_lu];
    rewrite N2Z.inj_succ, Z.pow_succ_r by lia;
    rewrite N2Z.inj_add, N2Z.inj_mul, N2Z.inj_pow;
    cbn [Z.of_N N.mul N.add Pos.mul Pos.add]; ring.
Qed.

Lemma uintValue_of_uint d : uintValue d 0 = Z.of_uint d.
Proof.
  rewrite uintValue_of_lu. unfold Z.of_uint.
  rewrite DecimalPos.Unsigned.of_uint_alt. lia.
Qed.

(** The text of a non-negative integer is a run of digits with its value. *)
Lemma toString_nonneg z :
  0 <= z ->
  exists d, d <> Decimal.Nil
            /\ toString z = DecimalString.NilEmpty.string_of_uint d
            /\ uintValue d 0 = z.
Proof.
  intros H. unfold toString. destruct z as [|p|p]; [| |lia].
  - exists (Decimal.D0 Decimal.Nil). repeat split. discriminate.
  - exists (Pos.to_uint p). split; [apply DecimalPos.Unsigned.to_uint_nonnil|].
    split.
    + cbn. unfold DecimalString.NilZero.string_of_uint.
      pose proof (DecimalPos.Unsigned.to_uint_nonnil p) as N.
      destruct (Pos.to_uint p); congruence.
    + rewrite uintValue_of_uint.
      change (Z.of_uint (Pos.to_uint p)) with (Z.of_int (Z.to_int (Z.pos p))).
      apply DecimalZ.of_to.
Qed.

(** ** What [parseInt] reads *)

Lemma parse_unsigned_zero c r :
  c <> "x"%char -> c <> "X"%char ->
  parse_unsigned (String "0" (String c r)) = digits 10 (String "0" (String c r)) None.
Proof.
  intros H1 H2.
  destruct c as [[] [] [] [] [] [] [] []]; try reflexivity; congruence.
Qed.

(** A text that starts with a run of digits, followed by nothing or by a
    character that is neither a digit nor the [x] of a hexadecimal prefix:
    [parseInt] reads the run as a decimal number. *)
Lemma parseInt_uint d suffix :
  d <> Decimal.Nil ->
  match suffix with
  | EmptyString => True
  | String c _ => digit_of 10 c = None /\ c <> "x"%char /\ c <> "X"%char
  end ->
  parseInt (DecimalString.NilEmpty.string_of_uint d ++ suffix) = Some (uintValue d 0).
Proof.
  intros N S.
  assert (digits 10 (DecimalString.NilEmpty.string_of_uint d ++ suffix) None
          = Some (uintValue d 0)) as D.
  { destruct suffix as [|c r].
    - replace (DecimalString.NilEmpty.string_of_uint d ++ EmptyString)%string
        with (DecimalString.NilEmpty.string_of_uint d).
      + now apply digits_uint_first.
      + generalize (DecimalString.NilEmpty.string_of_uint d).
        induction s; cbn; congruence.
    - rewrite digits_stop by tauto. now apply digits_uint_first. }
  rewrite <- D. clear D.
  destruct d as [|d|d|d|d|d|d|d|d|d|d]; try congruence; try reflexivity.
  cbn [DecimalString.NilEmpty.string_of_uint String.append].
  destruct d as [|d|d|d|d|d|d|d|d|d|d]; try reflexivity.
  cbn [DecimalString.NilEmpty.string_of_uint String.append].
  destruct suffix as [|c r]; [reflexivity|].
  destruct S as (_ & S1 & S2).
  change (parseInt (String "0" (String c r)))
    with (parse_unsigned (String "0" (String c r))).
  now apply parse_unsigned_zero.
Qed.

(** X1.  The number shown in an input is read back as it is:
    [parseInt] of the decimal text of a safe integer is that integer, and
    it still is when the text goes on with a decimal point, as for [2.5];
    a duration input keeps it, and so does a reminder input from 1 to
    100. *)
Theorem parseInt_reads_back (z : Z) (fraction : string) :
  isSafeInteger z ->
  parseInt (toString z) = Some z
  /\ parseInt (toString z ++ String "." fraction) = Some z
  /\ parseDuration (toString z) = z
  /\ (1 <= z <= 100 -> clampReminders (toString z) = z).
Proof.
  intros _.
  assert (forall suffix,
            match suffix with
            | EmptyString => True
            | String c _ => digit_of 10 c = None /\ c <> "x"%char /\ c <> "X"%char
            end ->
            parseInt (toString z ++ suffix) = Some z) as P.
  { intros suffix S. destruct (Z.neg_nonneg_cases z) as [Neg|NN].
    - destruct z as [|p|p]; try lia.
      destruct (toString_nonneg (Z.pos p) ltac:(lia)) as (d & D1 & D2 & D3).
      assert (toString (Z.neg p) = String "-" (toString (Z.pos p))) as E.
      { unfold toString. cbn.
        unfold DecimalString.NilZero.string_of_uint.
        pose proof (DecimalPos.Unsigned.to_uint_nonnil p) as N.
        destruct (Pos.to_uint p); congruence. }
      rewrite E, D2. cbn [String.append].
      change (parseInt (String "-" ?s)) with (option_map Z.opp (parse_unsigned s)).
      pose proof (parseInt_uint d suffix D1 S) as Q.
      assert (parseInt (DecimalString.NilEmpty.string_of_uint d ++ suffix) =
              parse_unsigned (DecimalString.NilEmpty.string_of_uint d ++ suffix)) as U.
      { destruct d as [|d|d|d|d|d|d|d|d|d|d]; try congruence; reflexivity. }
      rewrite <- U, Q, D3. reflexivity.
    - destruct (toString_nonneg z NN) as (d & D1 & D2 & D3).
      rewrite D2, <- D3. now apply parseInt_uint. }
  assert (parseInt (toString z) = Some z) as P0.
  { specialize (P EmptyString I).
    replace (toString z ++ EmptyString)%string with (toString z) in P; auto.
    generalize (toString z). induction s; cbn; congruence. }
  split; [exact P0|]. split.
  - apply P. repeat split; discriminate.
  - unfold parseDuration, clampReminders. rewrite P0. cbn [or_default].
    split.
    + destruct (z =? 0) eqn:E; auto. apply Z.eqb_eq in E. lia.
    + intros R. replace (z =? 0) with false by (symmetry; apply Z.eqb_neq; lia). lia.
Qed.

Lemma parseInt_reads_back_witness :
  parseInt "25" = Some 25 /\ parseInt "25.5" = Some 25.
Proof.
  destruct (parseInt_reads_back 25 "5") as (A & B & _).
  - unfold isSafeInteger, MAX_SAFE_INTEGER. lia.
  - split; [exact A|exact B].
Defined.

(** ** The display of the remaining time *)

Lemma append_empty (s : string) : (s ++ EmptyString)%string = s.
Proof. induction s; cbn; congruence. Qed.

Lemma padStart2_digits z :
  0 <= z ->
  exists d, d <> Decimal.Nil
            /\ padStart2 (toString z) = DecimalString.NilEmpty.string_of_uint d
            /\ uintValue d 0 = z.
Proof.
  intros H. destruct (toString_nonneg z H) as (d & D1 & D2 & D3).
  unfold padStart2. rewrite D2.
  destruct (String.length (DecimalString.NilEmpty.string_of_uint d)) as [|[|n]] eqn:L.
  - destruct d; try congruence; discriminate L.
  - exists (Decimal.D0 d). split; [discriminate|]. split; [reflexivity|]. exact D3.
  - exists d. auto.
Qed.

(** A field of digits before a colon is read by [parseInt], and
    [afterColon] gives what follows it. *)
Lemma field_before_colon d rest :
  d <> Decimal.Nil ->
  parseInt (DecimalString.NilEmpty.string_of_uint d ++ String ":" rest)
    = Some (uintValue d 0).
Proof. intros N. apply parseInt_uint; auto. repeat split; discriminate. Qed.

Lemma last_field d :
  d <> Decimal.Nil ->
  parseInt (DecimalString.NilEmpty.string_of_uint d) = Some (uintValue d 0).
Proof.
  intros N. rewrite <- (append_empty (DecimalString.NilEmpty.string_of_uint d)).
  now apply parseInt_uint.
Qed.

Lemma uint_text_nonempty d :
  d <> Decimal.Nil -> DecimalString.NilEmpty.string_of_uint d <> EmptyString.
Proof. destruct d; congruence || discriminate. Qed.

Lemma clock_fields a :
  0 <= a ->
  let h := a / 3600 in
  let m := Z.rem a 3600 / 60 in
  let c := Z.rem a 60 in
  0 <= h /\ 0 <= m < 60 /\ 0 <= c < 60 /\ a = 3600 * h + 60 * m + c.
Proof.
  intros H. cbv zeta. rewrite !Z.rem_mod_nonneg by lia.
  pose proof (Z.div_mod a 3600 ltac:(lia)).
  pose proof (Z.mod_pos_bound a 3600 ltac:(lia)).
  pose proof (Z.div_mod (a mod 3600) 60 ltac:(lia)).
  pose proof (Z.mod_pos_bound (a mod 3600) 60 ltac:(lia)).
  pose proof (Z.div_mod a 60 ltac:(lia)).
  pose proof (Z.mod_pos_bound a 60 ltac:(lia)).
  generalize dependent (a mod 3600 / 60). generalize dependent ((a mod 3600) mod 60).
  generalize dependent (a mod 3600). generalize dependent (a / 3600).
  generalize dependent (a mod 60). generalize dependent (a / 60).
  intros. lia.
Qed.

(** X2.  The display tells any two remaining times apart: for non-negative
    safe integers, equal texts [formatTime a] and [formatTime b] mean
    [a = b]. *)
Theorem formatTime_injective (a b : Z) :
  0 <= a <= MAX_SAFE_INTEGER -> 0 <= b <= MAX_SAFE_INTEGER ->
  formatTime a = formatTime b -> a = b.
Proof.
  intros [A _] [B _].
  destruct (clock_fields a A) as (Ha & Ma & Ca & Ea).
  destruct (clock_fields b B) as (Hb & Mb & Cb & Eb).
  unfold formatTime. cbv zeta.
  destruct (padStart2_digits _ Ha) as (dha & Nha & Tha & Vha).
  destruct (padStart2_digits _ Hb) as (dhb & Nhb & Thb & Vhb).
  destruct (padStart2_digits _ (proj1 Ma)) as (dma & Nma & Tma & Vma).
  destruct (padStart2_digits _ (proj1 Mb)) as (dmb & Nmb & Tmb & Vmb).
  destruct (padStart2_digits _ (proj1 Ca)) as (dca & Nca & Tca & Vca).
  destruct (padStart2_digits _ (proj1 Cb)) as (dcb & Ncb & Tcb & Vcb).
  rewrite Tha, Thb, Tma, Tmb, Tca, Tcb.
  cbn [String.append].
  assert (forall d1 d2 r1 r2,
            d1 <> Decimal.Nil -> d2 <> Decimal.Nil ->
            (DecimalString.NilEmpty.string_of_uint d1 ++ String ":" r1)%string =
            (DecimalString.NilEmpty.string_of_uint d2 ++ String ":" r2)%string ->
            uintValue d1 0 = uintValue d2 0 /\ r1 = r2) as Split.
  { intros d1 d2 r1 r2 N1 N2 E. split.
    - pose proof (field_before_colon d1 r1 N1) as P1.
      rewrite E, field_before_colon in P1 by auto. congruence.
    - pose proof (afterColon_uint d1 r1) as P1.
      rewrite E, afterColon_uint in P1. congruence. }
  assert (forall d1 d2,
            d1 <> Decimal.Nil -> d2 <> Decimal.Nil ->
            DecimalString.NilEmpty.string_of_uint d1 =
            DecimalString.NilEmpty.string_of_uint d2 ->
            uintValue d1 0 = uintValue d2 0) as Last.
  { intros d1 d2 N1 N2 E. pose proof (last_field d1 N1) as P1.
    rewrite E, last_field in P1 by auto. congruence. }
  destruct (0 <? a / 3600) eqn:Za; destruct (0 <? b / 3600) eqn:Zb; intros E.
  - apply Split in E; auto. destruct E as [E1 E].
    apply Split in E; auto. destruct E as [E2 E].
    apply Last in E; auto. lia.
  - exfalso. apply (f_equal afterColon) in E.
    rewrite !afterColon_uint in E.
    apply (f_equal afterColon) in E.
    rewrite afterColon_uint, afterColon_uint_end in E.
    now apply (uint_text_nonempty dca).
  - exfalso. apply (f_equal afterColon) in E.
    rewrite !afterColon_uint in E.
    apply (f_equal afterColon) in E.
    rewrite afterColon_uint, afterColon_uint_end in E.
    now apply (uint_text_nonempty dcb).
  - apply Z.ltb_ge in Za, Zb.
    apply Split in E; auto. destruct E as [E1 E].
    apply Last in E; auto. lia.
Qed.

Lemma formatTime_injective_witness : 1500 = 25 * 60.
Proof.
  apply (formatTime_injective 1500 (25 * 60));
    [unfold MAX_SAFE_INTEGER; lia | unfold MAX_SAFE_INTEGER; lia | reflexivity].
Defined.

Lemma length_append2 (a b : string) :
  String.length (a ++ b) = (String.length a + String.length b)%nat.
Proof. induction a; cbn; congruence. Qed.

Lemma padStart2_two z :
  0 <= z < 60 -> String.length (padStart2 (toString z)) = 2%nat.
Proof.
  intros H.
  assert (forallb (fun n => Nat.eqb (String.length (padStart2 (toString (Z.of_nat n)))) 2)
            (seq 0 60) = true) as A by (vm_compute; reflexivity).
  rewrite forallb_forall in A.
  specialize (A (Z.to_nat z)). rewrite Z2Nat.id in A by lia.
  apply Nat.eqb_eq, A, in_seq. lia.
Qed.

(** X3.  The display can be read back.  Below one hour the text has five
    characters, minutes before the colon and seconds after it; from one
    hour on it has three fields, hours, minutes and seconds. *)
Theorem formatTime_fields (s : Z) :
  0 <= s <= MAX_SAFE_INTEGER ->
  (s < 3600 ->
     String.length (formatTime s) = 5%nat
     /\ parseInt (formatTime s) = Some (s / 60)
     /\ parseInt (afterColon (formatTime s)) = Some (s mod 60))
  /\ (3600 <= s ->
        parseInt (formatTime s) = Some (s / 3600)
        /\ parseInt (afterColon (formatTime s)) = Some (s mod 3600 / 60)
        /\ parseInt (afterColon (afterColon (formatTime s))) = Some (s mod 60)).
Proof.
  intros [A _].
  destruct (clock_fields s A) as (Hh & Hm & Hc & E).
  pose proof (padStart2_two _ Hm) as Lm.
  pose proof (padStart2_two _ Hc) as Lc.
  destruct (padStart2_digits _ Hh) as (dh & Nh & Th & Vh).
  destruct (padStart2_digits _ (proj1 Hm)) as (dm & Nm & Tm & Vm).
  destruct (padStart2_digits _ (proj1 Hc)) as (dc & Nc & Tc & Vc).
  rewrite !Z.rem_mod_nonneg in * by lia.
  unfold formatTime. cbv zeta. rewrite !Z.rem_mod_nonneg by lia.
  split; intros R.
  - assert (s / 3600 = 0) as Z0 by (apply Z.div_small; lia).
    assert (s mod 3600 = s) as M0 by (apply Z.mod_small; lia).
    rewrite Z0, M0 in *. cbn [Z.ltb Z.compare].
    split; [|split].
    + rewrite !length_append2, Lm, Lc. reflexivity.
    + rewrite Tm. cbn [String.append]. rewrite field_before_colon by auto.
      now rewrite Vm.
    + rewrite Tm, Tc. cbn [String.append]. rewrite afterColon_uint, last_field by auto.
      now rewrite Vc.
  - replace (0 <? s / 3600) with true
      by (symmetry; apply Z.ltb_lt; apply Z.div_str_pos; lia).
    rewrite Th, Tm, Tc. cbn [String.append].
    rewrite !afterColon_uint, !field_before_colon, last_field by auto.
    now rewrite Vh, Vm, Vc.
Qed.

Lemma formatTime_fields_witness :
  String.length (formatTime 1500) = 5%nat /\ parseInt (formatTime 1500) = Some 25.
Proof.
  destruct (formatTime_fields 1500) as [H _].
  - unfold MAX_SAFE_INTEGER. lia.
  - destruct (H ltac:(lia)) as (L & P & _). split; [exact L|exact P].
Defined.

(** ** Pause, resume, dismissal *)

Lemma same_deps_no_entry s c :
  timeLeft c = timeLeft s -> timerState c = timerState s ->
  settingsId c = settingsId s -> enters s c = false.
Proof.
  intros A B C. unfold enters, dep_expiry.
  now rewrite A, B, C, !Z.eqb_refl, TimerState_eqb_refl.
Qed.

Lemma no_interval_unless_running s :
  reachable s -> isRunning s = false \/ timeLeft s <= 0 ->
  forall t, In t (timers s) -> task t <> TickInterval.
Proof.
  intros R H t T E. destruct (reachable_Inv s R) as (_ & _ & K).
  destruct (K t T E) as (_ & A & B). destruct H; [congruence|lia].
Qed.

(** X4.  Pausing keeps the remaining time, the phase and the dialog as they
    are, enters no reminder, and stops the clock: no interval is left
    pending. *)
Theorem pause_stops_the_clock (s : State) :
  reachable s ->
  let s' := step s Pause in
  timeLeft s' = timeLeft s /\ timerState s' = timerState s
  /\ showDialog s' = showDialog s /\ isRunning s' = false
  /\ entries s' = entries s
  /\ forall t, In t (timers s') -> task t <> TickInterval.
Proof.
  intros R. cbv zeta.
  assert (enters s (handle Pause s) = false) as N
    by (apply same_deps_no_entry; destruct s; reflexivity).
  assert (isRunning (step s Pause) = false) as Rn.
  { unfold step. rewrite commit_isRunning, N. destruct s; reflexivity. }
  unfold step at 1 2 3 5.
  rewrite commit_timeLeft, commit_timerState, commit_showDialog, commit_entries,
    N, handle_entries.
  repeat split; try (destruct s; reflexivity); auto.
  apply no_interval_unless_running; auto. now apply reach_step.
Qed.

Lemma pause_stops_the_clock_witness :
  timeLeft pausedMidPhase = 1498 /\ isRunning pausedMidPhase = false.
Proof.
  assert (reachable (ticks 2 (step (mount None) Start))) as R.
  { cbn [ticks]. unfold tick.
    repeat match goal with
           | |- context [intervalRef ?x] =>
               let v := eval vm_compute in (intervalRef x) in
               change (intervalRef x) with v; cbv iota beta
           end.
    repeat apply reach_step. apply reach_mount. }
  pose proof (pause_stops_the_clock _ R) as H. cbv zeta in H.
  destruct H as (A & _ & _ & B & _).
  split; [|exact B]. unfold pausedMidPhase. rewrite A. vm_compute. reflexivity.
Defined.

(** X5.  Resuming a paused phase with time left keeps the remaining time
    and the phase and starts a new interval, due a full second after the
    command: the part of a second that had elapsed before the pause is
    lost. *)
Theorem resume_restarts_interval (s : State) :
  reachable s -> timerState s <> idle -> isRunning s = false -> 0 < timeLeft s ->
  let s' := step s Start in
  timeLeft s' = timeLeft s /\ timerState s' = timerState s
  /\ isRunning s' = true /\ showDialog s' = false /\ entries s' = entries s
  /\ exists t, In t (timers s') /\ task t = TickInterval
               /\ intervalRef s' = Some (tid t) /\ due t = now s + 1000.
Proof.
  intros R NI P L. cbv zeta.
  destruct (reachable_Inv s R) as (_ & I2 & _).
  assert (showDialog s = false) as D.
  { destruct (showDialog s) eqn:E; auto. destruct (I2 eq_refl). lia. }
  assert (startTimer s = set_isRunning true s) as C.
  { unfold startTimer. destruct (timerState s); try congruence; reflexivity. }
  unfold step. cbn [handle]. rewrite C.
  set (c := set_isRunning true s).
  assert (timeLeft c = timeLeft s /\ timerState c = timerState s
          /\ settingsId c = settingsId s /\ isRunning c = true
          /\ showDialog c = false /\ now c = now s /\ entries c = entries s)
    as (C1 & C2 & C3 & C4 & C5 & C6 & C7).
  { unfold c, entries. destruct s; cbn in *. subst. repeat split. }
  assert (enters s c = false) as N by now apply same_deps_no_entry.
  rewrite commit_no_entry by exact N.
  destruct (run_effects_starts_interval s c) as [T1 T2]; auto.
  - unfold dep_timer. rewrite C4, P. reflexivity.
  - lia.
  - left. unfold dep_dialog. now rewrite C5, D.
  - rewrite run_effects_timeLeft, run_effects_timerState, run_effects_isRunning,
      run_effects_showDialog, run_effects_entries, N, T1, T2.
    repeat split; auto.
    exists (mkTimer (nextId c) (now c + 1000) TickInterval).
    cbn. rewrite C6. auto.
Qed.

Lemma resume_restarts_interval_witness :
  timeLeft (step pausedMidPhase Start) = 1498
  /\ isRunning (step pausedMidPhase Start) = true.
Proof.
  assert (reachable pausedMidPhase) as R.
  { unfold pausedMidPhase. cbn [ticks]. unfold tick.
    repeat match goal with
           | |- context [intervalRef ?x] =>
               let v := eval vm_compute in (intervalRef x) in
               change (intervalRef x) with v; cbv iota beta
           end.
    repeat apply reach_step. apply reach_mount. }
  assert (timerState pausedMidPhase <> idle) as NI by (vm_compute; discriminate).
  assert (isRunning pausedMidPhase = false) as P by (vm_compute; reflexivity).
  assert (timeLeft pausedMidPhase = 1498) as L by (vm_compute; reflexivity).
  pose proof (resume_restarts_interval pausedMidPhase R NI P ltac:(lia)) as H.
  cbv zeta in H. destruct H as (A & _ & B & _). rewrite A. auto.
Defined.

(** X6.  Pause followed by resume gives back the session of a running
    phase: phase, remaining seconds, running and reminder are as before. *)
Theorem pause_resume_round_trip (s : State) :
  timerState s <> idle -> isRunning s = true ->
  session (step (step s Pause) Start) = session s.
Proof.
  intros NI Rn.
  assert (enters s (handle Pause s) = false) as N1
    by (apply same_deps_no_entry; destruct s; reflexivity).
  set (s1 := step s Pause).
  assert (timerState s1 = timerState s /\ timeLeft s1 = timeLeft s
          /\ showDialog s1 = showDialog s /\ dialogType s1 = dialogType s
          /\ reminderCount s1 = reminderCount s) as (A1 & A2 & A3 & A4 & A5).
  { unfold s1, step.
    rewrite commit_timerState, commit_timeLeft, commit_showDialog,
      commit_dialogType, commit_reminderCount, N1.
    destruct s; repeat split. }
  assert (startTimer s1 = set_isRunning true s1) as C.
  { unfold startTimer. destruct (timerState s1); try congruence; reflexivity. }
  assert (enters s1 (handle Start s1) = false) as N2.
  { cbn [handle]. rewrite C. apply same_deps_no_entry; destruct s1; reflexivity. }
  unfold session, step at 1 2 3 4 5 6.
  rewrite commit_timerState, commit_timeLeft, commit_isRunning, commit_showDialog,
    commit_dialogType, commit_reminderCount, N2.
  cbn [handle]. rewrite C.
  replace (timerState (set_isRunning true s1)) with (timerState s1) by now destruct s1.
  replace (timeLeft (set_isRunning true s1)) with (timeLeft s1) by now destruct s1.
  replace (showDialog (set_isRunning true s1)) with (showDialog s1) by now destruct s1.
  replace (dialogType (set_isRunning true s1)) with (dialogType s1) by now destruct s1.
  replace (reminderCount (set_isRunning true s1)) with (reminderCount s1) by now destruct s1.
  replace (isRunning (set_isRunning true s1)) with true by now destruct s1.
  now rewrite A1, A2, A3, A4, A5, Rn.
Qed.

Lemma pause_resume_round_trip_witness :
  session (step (step (step (mount None) Start) Pause) Start)
  = session (step (mount None) Start).
Proof.
  apply (pause_resume_round_trip (step (mount None) Start));
    vm_compute; [discriminate|reflexivity].
Defined.

(** X7.  Dismissing the reminder leaves the phase where it is, with no time
    remaining, the clock stopped and the dialog closed; it enters no new
    reminder and the re-check registered in the ref is no longer pending. *)
Theorem dismiss_pauses_at_zero (s : State) :
  reachable s -> showDialog s = true ->
  let s' := step s Dismiss in
  timerState s <> idle
  /\ session s' = (timerState s, 0, false, None)
  /\ entries s' = entries s
  /\ forall t, In t (timers s') ->
       reminderIntervalRef s <> Some (tid t) /\ task t <> TickInterval.
Proof.
  intros R D. cbv zeta.
  destruct (reachable_Inv s R) as (I1 & I2 & _).
  destruct (I2 D) as [_ L].
  assert (timerState s <> idle) as NI.
  { intros T. destruct (I1 T). congruence. }
  set (c := handleDialogClose s).
  assert (timeLeft c = timeLeft s /\ timerState c = timerState s
          /\ settingsId c = settingsId s /\ isRunning c = false
          /\ showDialog c = false) as (C1 & C2 & C3 & C4 & C5).
  { unfold c. unfold_handlers. destruct s; cbn. case_body; repeat split. }
  assert (enters s c = false) as N by now apply same_deps_no_entry.
  split; [exact NI|].
  unfold session, step. cbn [handle]. fold c.
  rewrite commit_timerState, commit_timeLeft, commit_isRunning, commit_showDialog,
    commit_entries, N, C1, C2, C4, C5, L.
  split; [reflexivity|]. split; [apply handle_entries with (e := Dismiss)|].
  intros t T. split.
  - apply commit_timers in T. rewrite N, C4 in T.
    destruct T as [T|[(_ & T & _)|(T & _)]]; try discriminate.
    now apply (cancel_discards_recheck s Dismiss).
  - revert t T. apply no_interval_unless_running.
    + now apply (reach_step s Dismiss).
    + left. change (isRunning (step s Dismiss) = false).
      unfold step. cbn [handle]. fold c. now rewrite commit_isRunning, N.
Qed.

Lemma dismiss_pauses_at_zero_witness :
  session (step workExpired Dismiss) = (working, 0, false, None).
Proof.
  assert (reachable workExpired) as R
    by exact (reach_step _ _ (reach_step _ _ (reach_mount _))).
  assert (showDialog workExpired = true) as D by (vm_compute; reflexivity).
  pose proof (dismiss_pauses_at_zero workExpired R D) as H. cbv zeta in H.
  destruct H as (_ & H & _). rewrite H. vm_compute. reflexivity.
Defined.

(** X8.  A phase with no time remaining is a dead end for [start]: after a
    dismissal (or under the open dialog) the command sets the running flag
    and nothing else; no interval is started, the remaining time stays 0
    and no reminder is entered. *)
Theorem start_at_zero_counts_nothing (s : State) :
  reachable s -> timerState s <> idle -> timeLeft s = 0 ->
  let s' := step s Start in
  timeLeft s' = 0 /\ timerState s' = timerState s
  /\ showDialog s' = showDialog s /\ isRunning s' = true
  /\ entries s' = entries s
  /\ forall t, In t (timers s') -> task t <> TickInterval.
Proof.
  intros R NI L. cbv zeta.
  assert (startTimer s = set_isRunning true s) as C.
  { unfold startTimer. destruct (timerState s); try congruence; reflexivity. }
  assert (enters s (handle Start s) = false) as N.
  { cbn [handle]. rewrite C. apply same_deps_no_entry; destruct s; reflexivity. }
  assert (timeLeft (step s Start) = 0) as TL.
  { unfold step. rewrite commit_timeLeft. cbn [handle]. rewrite C, <- L.
    now destruct s. }
  split; [exact TL|].
  unfold step at 1 2 3 4.
  rewrite commit_timerState, commit_showDialog, commit_isRunning, commit_entries,
    N, handle_entries.
  cbn [handle]. rewrite C.
  repeat split; try (destruct s; reflexivity).
  apply no_interval_unless_running; [now apply reach_step|]. right. lia.
Qed.

Lemma start_at_zero_witness :
  let s' := step (step workExpired Dismiss) Start in
  timeLeft s' = 0 /\ showDialog s' = false /\ entries s' = 1%nat.
Proof.
  assert (reachable (step workExpired Dismiss)) as R
    by exact (reach_step _ _ (reach_step _ _ (reach_step _ _ (reach_mount _)))).
  assert (timerState (step workExpired Dismiss) <> idle) as NI
    by (vm_compute; discriminate).
  assert (timeLeft (step workExpired Dismiss) = 0) as L by (vm_compute; reflexivity).
  pose proof (start_at_zero_counts_nothing _ R NI L) as H. cbv zeta in H.
  destruct H as (A & _ & B & _ & C & _). cbv zeta.
  rewrite A, B, C. vm_compute. repeat split.
Defined.

(** ** The other branch of the acknowledgement *)

(** X9.  Acknowledging the reminder of an expired rest phase: the dialog is
    closed, the armed re-check discarded, and the next render is in phase
    [working] with the work duration of the current settings as remaining
    seconds and the clock running; with a work duration above zero the
    interval is started. *)
Theorem acknowledge_rest_starts_work (s : State) :
  reachable s -> timerState s = resting -> showDialog s = true ->
  let c := handleDialogAction s in
  let s' := step s Acknowledge in
  (showDialog c = false /\ reminderIntervalRef c = None
   /\ (forall t, In t (timers c) -> reminderIntervalRef s <> Some (tid t))
   /\ timerState c = working /\ timeLeft c = workSeconds (settings s)
   /\ isRunning c = true)
  /\ timerState s' = working /\ timeLeft s' = workSeconds (settings s)
  /\ (workSeconds (settings s) <> 0 -> isRunning s' = true /\ showDialog s' = false)
  /\ (0 < workSeconds (settings s) ->
      exists t, In t (timers s') /\ task t = TickInterval
                /\ intervalRef s' = Some (tid t) /\ due t = now s + 1000).
Proof.
  intros R W D. cbv zeta.
  destruct (reachable_Inv s R) as (I1 & I2 & K).
  destruct (I2 D) as [DT TL]. rewrite W in DT. cbn in DT.
  assert (showDialog (handleDialogAction s) = false
          /\ reminderIntervalRef (handleDialogAction s) = None
          /\ (forall t, In t (timers (handleDialogAction s)) ->
                reminderIntervalRef s <> Some (tid t))
          /\ timerState (handleDialogAction s) = working
          /\ timeLeft (handleDialogAction s) = workSeconds (settings s)
          /\ isRunning (handleDialogAction s) = true
          /\ now (handleDialogAction s) = now s) as (A1 & A2 & A3 & A4 & A5 & A6 & A7).
  { split; [|split; [|split]].
    - unfold_handlers. destruct s; cbn. destruct reminderIntervalRef0; cbn;
        destruct dialogType0; reflexivity.
    - unfold_handlers. destruct s; cbn. destruct reminderIntervalRef0; cbn;
        destruct dialogType0; reflexivity.
    - intros t. now apply (cancel_discards_recheck s Acknowledge).
    - revert DT. unfold_handlers. destruct s; cbn. intros ->.
      destruct reminderIntervalRef0; cbn; repeat split. }
  split; [repeat split; auto|].
  unfold step. cbn [handle].
  rewrite commit_timerState, commit_timeLeft, commit_isRunning, commit_showDialog.
  rewrite A1, A4, A5, A6.
  split; [reflexivity|]. split; [reflexivity|].
  assert (workSeconds (settings s) <> 0 -> enters s (handleDialogAction s) = false) as N.
  { intros NZ. unfold enters, expired. rewrite A5.
    apply Z.eqb_neq in NZ. rewrite NZ. cbn. apply andb_false_r. }
  split.
  - intros NZ. now rewrite (N NZ).
  - intros P. rewrite commit_no_entry by (apply N; lia).
    destruct (run_effects_starts_interval s (handleDialogAction s)) as [T1 T2]; auto.
    + unfold dep_timer. rewrite A5, TL.
      replace (0 =? workSeconds (settings s)) with false
        by (symmetry; apply Z.eqb_neq; lia).
      cbn. apply orb_true_r.
    + lia.
    + exists (mkTimer (nextId (handleDialogAction s)) (now (handleDialogAction s) + 1000)
                      TickInterval).
      rewrite T1, T2, A7. cbn. auto.
Qed.

Lemma acknowledge_rest_witness :
  let s' := step restExpired Acknowledge in
  timerState s' = working /\ timeLeft s' = 1 /\ isRunning s' = true
  /\ showDialog s' = false.
Proof.
  assert (reachable restExpired) as R.
  { unfold restExpired, tick.
    match goal with
    | |- context [intervalRef ?x] =>
        let v := eval vm_compute in (intervalRef x) in
        change (intervalRef x) with v; cbv iota beta
    end.
    repeat apply reach_step. apply reach_mount. }
  assert (timerState restExpired = resting) as W by (vm_compute; reflexivity).
  assert (showDialog restExpired = true) as D by (vm_compute; reflexivity).
  assert (workSeconds (settings restExpired) = 1) as S1 by (vm_compute; reflexivity).
  pose proof (acknowledge_rest_starts_work restExpired R W D) as H.
  cbv zeta in H. rewrite S1 in H. destruct H as (_ & A & B & C & _).
  destruct C as [C1 C2]; [lia|]. cbv zeta. auto.
Defined.

(** ** Invariants of the countdown *)

Lemma idle_has_no_time_left s :
  reachable s -> timerState s = idle -> timeLeft s = 0.
Proof.
  induction 1 as [loaded|s e R IH].
  - intros _. now destruct (mount_fields loaded) as (_ & _ & _ & _ & _ & A & _).
  - unfold step. rewrite commit_timerState, commit_timeLeft.
    destruct (reachable_Inv s R) as (I1 & _ & K).
    destruct e as [| | | | | |ed|id| |ms]; cbn [handle].
    1-7,10: revert IH; unfold_handlers; destruct s; cbn;
      repeat match goal with x : TimerState |- _ => destruct x end;
      repeat match goal with x : DialogType |- _ => destruct x end;
      repeat match goal with x : option Z |- _ => destruct x end;
      cbn; auto; discriminate.
    + destruct (expire_hooks id s)
        as (A & _ & _ & _ & _ & _ & _ & [E|[_ (t & T1 & T2 & T3)]]).
      * rewrite A, E. exact IH.
      * rewrite A. intros T. destruct (K t T1 T3) as (_ & F & _).
        destruct (I1 T). congruence.
    + destruct (settle_hooks s) as (A & _ & _ & _ & _ & _ & _ & E).
      rewrite A, E. exact IH.
Qed.

(** X10.  In every reachable state: while idle the dialog is closed, the
    clock is stopped and no time is left; while the dialog is open the phase
    is not idle, no time is left and the dialog is the one of the phase; an
    interval is pending only under the handle in [intervalRef], with the
    clock running, time left and the dialog closed. *)
Theorem reachable_states_are_consistent (s : State) :
  reachable s ->
  (timerState s = idle ->
   showDialog s = false /\ isRunning s = false /\ timeLeft s = 0)
  /\ (showDialog s = true ->
      timerState s <> idle /\ timeLeft s = 0
      /\ dialogType s = kind_of (timerState s))
  /\ (forall t, In t (timers s) -> task t = TickInterval ->
      intervalRef s = Some (tid t) /\ isRunning s = true /\ 0 < timeLeft s
      /\ showDialog s = false /\ timerState s <> idle).
Proof.
  intros R. destruct (reachable_Inv s R) as (I1 & I2 & K).
  split; [|split].
  - intros T. destruct (I1 T). repeat split; auto. now apply idle_has_no_time_left.
  - intros D. destruct (I2 D). repeat split; auto.
    intros T. destruct (I1 T). congruence.
  - intros t T E. destruct (K t T E) as (A & B & C). repeat split; auto.
    + destruct (showDialog s) eqn:D; auto. destruct (I2 eq_refl). lia.
    + intros I0. destruct (I1 I0). congruence.
Qed.

Lemma reachable_states_witness :
  timerState workExpired <> idle /\ timeLeft workExpired = 0
  /\ dialogType workExpired = work.
Proof.
  assert (reachable workExpired) as R
    by exact (reach_step _ _ (reach_step _ _ (reach_mount _))).
  destruct (reachable_states_are_consistent workExpired R) as (_ & H & _).
  destruct H as (A & B & C); [vm_compute; reflexivity|].
  split; [exact A|]. split; [exact B|]. rewrite C. vm_compute. reflexivity.
Defined.

(** X12.  While the work countdown runs, each tick takes exactly one second off
    and enters no reminder: after [k] ticks out of [m] seconds, [m - k]
    seconds remain and the interval is pending again. *)
Theorem ticks_count_down (k : nat) : forall (m : Z) (s : State),
  ticking m s -> Z.of_nat k < m ->
  ticking (m - Z.of_nat k) (ticks k s) /\ entries (ticks k s) = entries s.
Proof.
  induction k as [|k IH]; intros m s T L.
  - cbn [ticks]. replace (m - Z.of_nat 0) with m by lia. auto.
  - destruct (tick_counts_down m s T ltac:(lia)) as [H _].
    destruct H as [T' E]; [lia|].
    destruct (IH (m - 1) (tick s) T' ltac:(lia)) as [T'' E'].
    cbn [ticks].
    replace (m - Z.of_nat (S k)) with (m - 1 - Z.of_nat k) by lia.
    split; [exact T''|congruence].
Qed.

Lemma ticks_count_down_witness :
  timeLeft (ticks 2 (step (mount None) Start)) = 1498.
Proof.
  destruct (start_begins_countdown (mount None) (reach_mount _)
              ltac:(vm_compute; reflexivity) ltac:(vm_compute; reflexivity)) as [T _].
  destruct (ticks_count_down 2 _ _ T ltac:(vm_compute; reflexivity)) as [(_ & _ & H & _) _].
  rewrite H. vm_compute. reflexivity.
Defined.

(** ** Settings edits, saving and loading *)

(** X13.  An edit of the settings while time is left, or while idle,
    changes the settings and nothing else: remaining time, phase, clock,
    dialog, timers and audio log are as before. *)
Theorem edit_with_time_left_only_edits (s : State) (ed : SettingsEdit) :
  timeLeft s <> 0 \/ timerState s = idle ->
  step s (Edit ed) = editSettings ed s.
Proof.
  intros H. unfold step. cbn [handle]. set (c := editSettings ed s).
  assert (timeLeft c = timeLeft s /\ timerState c = timerState s
          /\ isRunning c = isRunning s /\ showDialog c = showDialog s)
    as (C1 & C2 & C3 & C4) by (unfold c, editSettings; destruct s; repeat split).
  assert (expired c = false) as X.
  { unfold expired. rewrite C1, C2. destruct H as [H|H].
    - apply Z.eqb_neq in H. now rewrite H.
    - rewrite H. apply andb_false_r. }
  assert (enters s c = false) as N by (unfold enters; rewrite X; apply andb_false_r).
  rewrite commit_no_entry by exact N.
  unfold run_effects.
  replace (dep_timer s c) with false.
  2:{ unfold dep_timer. rewrite C1, C3, Z.eqb_refl. now destruct (isRunning s). }
  replace (dep_dialog s c) with false.
  2:{ unfold dep_dialog. rewrite C4. now destruct (showDialog s). }
  destruct (dep_expiry s c); auto using expiry_body_skip.
Qed.

Lemma edit_with_time_left_witness :
  timeLeft (step (step (mount None) Start) (Edit (WorkDurationInput "50"))) = 1500.
Proof.
  rewrite (edit_with_time_left_only_edits (step (mount None) Start)
             (WorkDurationInput "50") ltac:(left; vm_compute; discriminate)).
  vm_compute. reflexivity.
Defined.

Lemma js_or_num z d :
  js_or (num z) (num d) = num (or_default (Some z) d).
Proof.
  unfold js_or, num, or_default. cbn. destruct (z =? 0); reflexivity.
Qed.

(** X14.  Loading what the save effect stored gives the settings back with
    every zero replaced by its default, so the settings come back as they
    were exactly when neither duration and neither limit is 0: a duration
    of 0, which the duration inputs accept, is 25 or 5 minutes after a
    reload. *)
Theorem saved_settings_load_back (st : TimerSettings) :
  settingsAfterLoad (savedSettings st) = rawOf (orDefaults st)
  /\ (settingsAfterLoad (savedSettings st) = rawOf st <->
      workDuration st <> 0 /\ restDuration st <> 0
      /\ workReminders st <> 0 /\ restReminders st <> 0).
Proof.
  assert (settingsAfterLoad (savedSettings st) = rawOf (orDefaults st)) as L.
  { unfold settingsAfterLoad, savedSettings, loadSettings, fieldOr, getProp.
    cbn [lookup String.eqb Ascii.eqb Bool.eqb option_map].
    unfold rawOf, orDefaults. cbn [workDuration workUnit restDuration restUnit
                                    workReminders restReminders].
    change (num 25) with (num 25). rewrite !js_or_num.
    destruct (workUnit st), (restUnit st); reflexivity. }
  split; [exact L|]. rewrite L. unfold rawOf, orDefaults, or_default.
  cbn [workDuration workUnit restDuration restUnit workReminders restReminders].
  split.
  - intros E. injection E as E1 E2 E3 E4.
    destruct (workDuration st =? 0) eqn:A; [lia|].
    destruct (restDuration st =? 0) eqn:B; [lia|].
    destruct (workReminders st =? 0) eqn:C; [lia|].
    destruct (restReminders st =? 0) eqn:D; [lia|].
    apply Z.eqb_neq in A, B, C, D. auto.
  - intros (A & B & C & D). apply Z.eqb_neq in A, B, C, D.
    now rewrite A, B, C, D.
Qed.

(** ** Entering the reminder *)

(** X16.  Whenever a step plays a first reminder, it is the cue of the
    phase that ran out, work-end in phase [working] and rest-end in phase
    [resting], played at the time of the step; the dialog is open with the
    kind of that phase and a count of 0, the clock is stopped and no time is
    left. *)
Theorem entry_plays_cue_of_phase (s : State) (e : Event) :
  entries (step s e) <> entries s ->
  let s' := step s e in
  entries s' = S (entries s)
  /\ In (Notify (now s') (if is_working (timerState s') then WorkEnd else RestEnd) Entry)
        (log s')
  /\ showDialog s' = true /\ dialogType s' = kind_of (timerState s')
  /\ reminderCount s' = 0 /\ isRunning s' = false
  /\ timeLeft s' = 0 /\ timerState s' <> idle.
Proof.
  cbv zeta. unfold step.
  rewrite commit_entries, handle_entries.
  destruct (enters s (handle e s)) eqn:E; [intros _|cbn; congruence].
  rewrite commit_now, commit_timerState, commit_showDialog, commit_dialogType,
    commit_reminderCount, commit_isRunning, commit_timeLeft, E.
  destruct (expired_timeLeft _ (enters_expired _ _ E)) as [L NI].
  repeat split; auto.
  unfold commit. apply run_effects_log_incl. now apply run_effects_log_entry.
Qed.

Lemma entry_plays_cue_witness :
  In (Notify 1000 WorkEnd Entry) (log workExpired).
Proof.
  pose proof (entry_plays_cue_of_phase (step (mount (Some shortPhases)) Start)
                (Expire 1) ltac:(vm_compute; discriminate)) as H.
  cbv zeta in H. destruct H as (_ & H & _).
  exact H.
Defined.

(** X17.  Rendering settles: after the two rounds of effects of a commit, a
    further render finds no dependency changed and runs no effect. *)
Theorem rendering_settles (p c : State) :
  run_effects (run_effects p c) (commit p c) = commit p c.
Proof.
  destruct (commit_settled p c) as (A & B & C).
  now apply run_effects_id.
Qed.

Lemma expiry_body_recheck r s t env :
  In t (timers (expiry_body r s)) -> task t = CallNext env ->
  In t (timers s)
  \/ (expired r = true /\ 1 < limitOf r
      /\ env = mkEnv (showDialog r) (timerState r) (limitOf r) 0
      /\ due t = now s + 15000).
Proof.
  unfold expiry_body, expired, limitOf.
  destruct ((timeLeft r =? 0) && negb (is_idle (timerState r))); [|auto].
  unfold setTimer, playReminder.
  destruct (1 <? (if is_working (timerState r) then workReminders (settings r)
                  else restReminders (settings r))) eqn:L.
  - destruct s; cbn. intros [<-|H] T; auto. right. cbn in T.
    apply Z.ltb_lt in L. repeat split; auto. congruence.
  - destruct s; cbn. auto.
Qed.

(** The effects of a step arm a re-check only on entering the reminder
    with a limit above 1. *)
Lemma effects_arm_recheck (s : State) (e : Event) (t : Timer)
    (env : ReminderEnv) :
  In t (timers (step s e)) -> task t = CallNext env ->
  In t (timers (handle e s))
  \/ (enters s (handle e s) = true /\ 1 < limitOf (handle e s)
      /\ env = mkEnv (showDialog (handle e s)) (timerState (handle e s))
                 (limitOf (handle e s)) 0
      /\ due t = now (handle e s) + 15000).
Proof.
  intros H T. unfold step in H. set (c := handle e s) in *.
  assert (forall p c0, In t (timers (run_effects p c0)) ->
            In t (timers c0)
            \/ (enters p c0 = true /\ 1 < limitOf c0
                /\ env = mkEnv (showDialog c0) (timerState c0) (limitOf c0) 0
                /\ due t = now c0 + 15000)) as G.
  { intros p c0 H0. unfold run_effects in H0. cbv zeta in H0.
    set (x := if dep_timer p c0 then timer_body c0 _ else _) in H0.
    assert (now x = now c0) as Nx
      by (unfold x; destruct (dep_timer p c0); now autorewrite with frame).
    assert (In t (timers x) -> In t (timers c0)) as Old.
    { unfold x. destruct (dep_timer p c0); auto. intros I0.
      apply timer_body_timers in I0. destruct I0 as [[I0 _]|[-> _]].
      - apply timer_cleanup_timers in I0. tauto.
      - discriminate T. }
    assert (In t (timers (if dep_expiry p c0 then expiry_body c0 x else x))) as H1.
    { destruct (dep_dialog p c0); auto. now apply dialog_body_timers in H0. }
    unfold enters. destruct (dep_expiry p c0); auto.
    apply expiry_body_recheck with (env := env) in H1; auto.
    destruct H1 as [H1|(X & L & E & D)]; auto.
    right. rewrite <- Nx. auto. }
  unfold commit in H. apply G in H.
  destruct H as [H|(E & _)]; [|now rewrite enters_run_effects in E].
  now apply G in H.
Qed.

Lemma handle_reminderCount e s :
  Quiet s -> reminderCount s = 0 -> reminderCount (handle e s) = 0.
Proof.
  intros (Q & Q2 & _) Z0.
  destruct e as [| | | | | |ed|id| |ms]; cbn [handle].
  1-7,10: revert Z0; unfold_handlers; destruct s; cbn;
    repeat match goal with x : TimerState |- _ => destruct x end;
    repeat match goal with x : DialogType |- _ => destruct x end;
    repeat match goal with x : option Z |- _ => destruct x end; cbn; auto.
  - unfold expire. destruct (find_timer id (timers s)) as [t0|] eqn:F; auto.
    apply find_timer_In in F. destruct F as [F _]. specialize (Q t0 F).
    destruct (task t0) as [|env|env]; cbn in Q; [| |contradiction].
    + unfold tickCallback. revert Z0. destruct s; cbn. auto.
    + unfold playNextReminder. rewrite Q, andb_false_r. revert Z0. destruct s; cbn. auto.
  - unfold settle. rewrite Q2. auto.
Qed.

(** X19.  Under the modal dialog the reminder count is 0 in every state:
    no re-check ever passes its test, so the dialog never shows the line
    with the number of reminders (line 637). *)
Theorem reminder_count_stays_zero (s : State) :
  ui_reachable s -> reminderCount s = 0.
Proof.
  induction 1 as [loaded|s e R IH U].
  - destruct loaded; reflexivity.
  - unfold step. rewrite commit_reminderCount.
    destruct (enters s (handle e s)); auto.
    apply handle_reminderCount; auto. now apply ui_reachable_Quiet.
Qed.

Lemma reminder_count_witness :
  reminderCount (run (mount (Some shortPhases))
                   [Start; Expire 1; Expire 2; Wait 60000]) = 0.
Proof.
  apply reminder_count_stays_zero.
  apply (ui_reachable_run _ (mount (Some shortPhases)) (ui_mount _)).
  vm_compute. reflexivity.
Defined.

(** X20.  A negative work duration, which the duration input accepts,
    starts a phase that neither counts down nor expires: the remaining time
    is negative, the running flag is set, no interval is pending and the
    dialog stays closed. *)
Theorem negative_duration_never_expires (s : State) :
  reachable s -> timerState s = idle -> workDuration (settings s) < 0 ->
  let s' := step s Start in
  timeLeft s' = workSeconds (settings s) /\ timeLeft s' < 0
  /\ timerState s' = working /\ isRunning s' = true /\ showDialog s' = false
  /\ entries s' = entries s
  /\ forall t, In t (timers s') -> task t <> TickInterval.
Proof.
  intros R I0 Neg. cbv zeta.
  destruct (reachable_Inv s R) as (I1 & _ & _). destruct (I1 I0) as [D Rn].
  assert (workSeconds (settings s) < 0) as W.
  { unfold workSeconds, convertToSeconds. destruct (workUnit (settings s)); lia. }
  set (c := startTimer s).
  assert (timerState c = working /\ isRunning c = true
          /\ timeLeft c = workSeconds (settings s)
          /\ showDialog c = false) as (C1 & C2 & C3 & C4).
  { unfold c, startTimer. destruct s; cbn in *. subst. auto. }
  assert (enters s c = false) as N.
  { unfold enters, expired. rewrite C3.
    replace (workSeconds (settings s) =? 0) with false
      by (symmetry; apply Z.eqb_neq; lia).
    cbn. apply andb_false_r. }
  assert (timeLeft (step s Start) = workSeconds (settings s)) as TL.
  { unfold step. cbn [handle]. fold c. now rewrite commit_timeLeft. }
  split; [exact TL|]. split; [lia|].
  unfold step at 1 2 3 4. cbn [handle]. fold c.
  rewrite commit_timerState, commit_isRunning, commit_showDialog, commit_entries, N.
  repeat split; auto.
  - apply handle_entries with (e := Start).
  - apply no_interval_unless_running; [now apply reach_step|]. right. lia.
Qed.

Lemma negative_duration_witness :
  let s := step (mount None) (Edit (WorkDurationInput "-5")) in
  timeLeft (step s Start) = -300 /\ showDialog (step s Start) = false.
Proof.
  cbv zeta.
  pose proof (negative_duration_never_expires
                (step (mount None) (Edit (WorkDurationInput "-5")))
                (reach_step _ _ (reach_mount _))
                ltac:(vm_compute; reflexivity) ltac:(vm_compute; reflexivity)) as H.
  cbv zeta in H. destruct H as (A & _ & _ & _ & B & _).
  rewrite A, B. vm_compute. auto.
Defined.

(** ** At most one interval *)

Lemma is_tick_true t : is_tick t = true <-> task t = TickInterval.
Proof. unfold is_tick. destruct (task t); split; congruence. Qed.

Lemma ticks_none l :
  (forall t, In t l -> task t <> TickInterval) ->
  List.length (filter is_tick l) = 0%nat.
Proof.
  induction l as [|a l IH]; cbn; intros H; auto.
  destruct (is_tick a) eqn:E.
  - apply is_tick_true in E. now destruct (H a (or_introl eq_refl)).
  - apply IH. auto.
Qed.

Lemma intervals_0 s :
  intervals s = 0%nat <-> forall t, In t (timers s) -> task t <> TickInterval.
Proof.
  unfold intervals. split.
  - intros H t I T.
    assert (In t (filter is_tick (timers s))) as F
      by (apply filter_In; split; auto; now apply is_tick_true).
    destruct (filter is_tick (timers s)); [destruct F|discriminate H].
  - apply ticks_none.
Qed.

(** The effects of one render leave at most one interval, when the
    intervals pending before are registered in [intervalRef]. *)
Lemma run_effects_intervals p c :
  (forall t, In t (timers c) -> task t = TickInterval ->
             intervalRef c = Some (tid t)) ->
  (intervals c <= 1)%nat -> (intervals (run_effects p c) <= 1)%nat.
Proof.
  intros Href Hc.
  assert (forall r s, (intervals s <= 1)%nat ->
            (intervals (if dep_expiry p c then expiry_body r s else s) <= 1)%nat) as E.
  { intros r s H. destruct (dep_expiry p c); auto.
    unfold expiry_body. destruct ((timeLeft r =? 0) && negb (is_idle (timerState r))); auto.
    unfold setTimer, playReminder.
    destruct (1 <? _); destruct s; cbn in *; auto. }
  assert (forall r s, (intervals s <= 1)%nat ->
            (intervals (if dep_dialog p c then dialog_body r s else s) <= 1)%nat) as D.
  { intros r s H. destruct (dep_dialog p c); auto.
    unfold dialog_body. destruct (negb (showDialog r)); auto.
    unfold cancelReminder, stopAllAudio, clearInterval.
    destruct (reminderIntervalRef s); destruct s; cbn in *; auto.
    unfold intervals in *. cbn in *. unfold remove_timer.
    etransitivity; [|exact H].
    clear. induction timers0 as [|a l IH]; cbn; auto.
    destruct (negb (tid a =? z)); cbn; destruct (is_tick a); cbn; lia. }
  unfold run_effects. cbv zeta. apply D, E.
  destruct (dep_timer p c); auto.
  assert (intervals (timer_cleanup c) = 0%nat) as Z0.
  { apply intervals_0. intros t I T. apply timer_cleanup_timers in I.
    destruct I as [I N]. apply N. auto. }
  unfold timer_body. destruct (isRunning c && (0 <? timeLeft c)).
  - unfold setTimer. unfold intervals in *.
    destruct (timer_cleanup c); cbn in *. rewrite Z0. auto.
  - assert (intervals (clearInterval (intervalRef (timer_cleanup c)) (timer_cleanup c))
            = 0%nat) as Z1.
    { apply intervals_0. intros t I T. apply clearInterval_timers in I.
      destruct I as [I _]. now apply (proj1 (intervals_0 _) Z0 t). }
    rewrite Z1. auto.
Qed.

Lemma run_effects_registered p c :
  (forall t, In t (timers c) -> task t = TickInterval ->
             intervalRef c = Some (tid t)) ->
  forall t, In t (timers (run_effects p c)) -> task t = TickInterval ->
            intervalRef (run_effects p c) = Some (tid t).
Proof.
  intros Href t I T. rewrite run_effects_intervalRef.
  apply run_effects_timers in I.
  destruct I as [[I N]|[(_ & Hid & Hdep & Hc)|(_ & m & Hm)]].
  - destruct (dep_timer p c); [now destruct (N eq_refl (Href t I T))|].
    cbn. auto.
  - rewrite Hdep, Hc. cbn. now rewrite Hid.
  - congruence.
Qed.

Lemma remove_timer_intervals id l :
  (List.length (filter is_tick (remove_timer id l)) <= List.length (filter is_tick l))%nat.
Proof.
  unfold remove_timer. induction l as [|a l IH]; cbn; auto.
  destruct (negb (tid a =? id)); cbn; destruct (is_tick a); cbn; lia.
Qed.

Lemma handle_intervals e s :
  Inv s -> (intervals s <= 1)%nat -> (intervals (handle e s) <= 1)%nat.
Proof.
  intros (_ & _ & I3) H.
  assert (forall h s0, (intervals (clearInterval h s0) <= intervals s0)%nat) as C.
  { intros h s0. unfold clearInterval, intervals.
    destruct h; destruct s0; cbn; auto using remove_timer_intervals. }
  destruct e as [| | | | | |ed|id| |ms]; cbn [handle].
  1,2,6,7,10: revert H; unfold_handlers; unfold intervals; destruct s; cbn;
    repeat match goal with x : TimerState |- _ => destruct x end; cbn; auto.
  - (* Reset *)
    unfold resetTimer, stopAllAudio.
    match goal with |- (intervals (set_log _ ?x) <= 1)%nat =>
      assert (intervals x <= 1)%nat as H'; [|revert H'; unfold intervals; destruct x; cbn; auto]
    end.
    etransitivity; [apply C|]. etransitivity; [apply C|].
    revert H. unfold intervals. destruct s; cbn. auto.
  - (* Acknowledge *)
    assert (intervals (cancelReminder (set_reminderCount 0 (set_showDialog false s))) <= 1)%nat as H'.
    { unfold cancelReminder, stopAllAudio.
      destruct (reminderIntervalRef _) eqn:R.
      - match goal with |- (intervals (set_log _ (set_reminderIntervalRef _ ?x)) <= 1)%nat =>
          assert (intervals x <= 1)%nat as H'; [|revert H'; unfold intervals; destruct x; cbn; auto]
        end.
        etransitivity; [apply C|]. revert H. unfold intervals. destruct s; cbn. auto.
      - revert H. unfold intervals. destruct s; cbn. auto. }
    unfold handleDialogAction. cbv zeta.
    revert H'. generalize (cancelReminder (set_reminderCount 0 (set_showDialog false s))).
    intros x. unfold intervals. destruct x; cbn. destruct dialogType0; cbn; auto.
  - (* Dismiss *)
    unfold handleDialogClose. cbv zeta. unfold cancelReminder, stopAllAudio.
    destruct (reminderIntervalRef _) eqn:R.
    + match goal with |- (intervals (set_log _ (set_reminderIntervalRef _ ?x)) <= 1)%nat =>
        assert (intervals x <= 1)%nat as H'; [|revert H'; unfold intervals; destruct x; cbn; auto]
      end.
      etransitivity; [apply C|]. revert H. unfold intervals. destruct s; cbn. auto.
    + revert H. unfold intervals. destruct s; cbn. auto.
  - (* Expire *)
    unfold expire. destruct (find_timer id (timers s)) as [t0|] eqn:F; auto.
    apply find_timer_In in F. destruct F as [F Fid].
    pose proof (remove_timer_intervals id (timers s)) as Rm.
    destruct (task t0) as [|env|env] eqn:T.
    + assert (List.length (filter is_tick (remove_timer id (timers s))) = 0%nat) as Z0.
      { apply ticks_none. intros t I Tt. apply In_remove_timer in I.
        destruct I as [I N]. apply N.
        destruct (I3 t I Tt) as [R1 _]. destruct (I3 t0 F T) as [R2 _].
        congruence. }
      unfold tickCallback, intervals. destruct s; cbn in *. rewrite Z0. auto.
    + unfold playNextReminder, setTimer.
      destruct (_ && _); unfold intervals in *; destruct s; cbn in *; lia.
    + unfold resumeNextReminder, playReminder.
      destruct (cap_showDialog env); unfold intervals in *; destruct s; cbn in *; lia.
  - (* Settle *)
    unfold settle. destruct (promises s) as [|env r] eqn:P; auto.
    unfold afterPlay, setTimer.
    destruct (_ <? _); revert H; unfold intervals; destruct s; cbn; auto.
Qed.

Lemma reachable_intervals s : reachable s -> (intervals s <= 1)%nat.
Proof.
  induction 1 as [loaded|s e R IH].
  - destruct loaded; vm_compute; auto.
  - pose proof (reachable_Inv s R) as I.
    assert (forall t, In t (timers (handle e s)) -> task t = TickInterval ->
              intervalRef (handle e s) = Some (tid t)) as Href.
    { intros t It Tt. rewrite handle_intervalRef.
      destruct (handle_ticks e s t It Tt) as (t' & I' & T' & <-).
      destruct I as (_ & _ & I3). now destruct (I3 t' I' T'). }
    unfold step, commit.
    apply run_effects_intervals.
    + now apply run_effects_registered.
    + apply run_effects_intervals; auto. now apply handle_intervals.
Qed.

(** X21.  At most one interval is pending in any reachable state, whatever
    the order of commands, edits and timers: the clock never counts at
    double speed.  An interval that is pending is the only one. *)
Theorem at_most_one_interval (s : State) :
  reachable s ->
  (intervals s <= 1)%nat
  /\ forall t t', In t (timers s) -> In t' (timers s) ->
       task t = TickInterval -> task t' = TickInterval -> tid t = tid t'.
Proof.
  intros R. split; [now apply reachable_intervals|].
  destruct (reachable_Inv s R) as (_ & _ & I3).
  intros t t' It It' T T'.
  destruct (I3 t It T) as [A _]. destruct (I3 t' It' T') as [B _]. congruence.
Qed.

Lemma at_most_one_interval_witness :
  intervals (step (mount None) Start) = 1%nat.
Proof.
  pose proof (at_most_one_interval (step (mount None) Start)
                (reach_step _ _ (reach_mount _))) as [H _].
  assert (intervals (step (mount None) Start) <> 0%nat) as N
    by (vm_compute; discriminate).
  lia.
Defined.

(** ** The pool of timer handles *)

Lemma NoDup_remove_timer id l :
  NoDup (map tid l) -> NoDup (map tid (remove_timer id l)).
Proof.
  unfold remove_timer. induction l as [|a l IH]; cbn; intros H; auto.
  inversion H as [|x y N D]; subst.
  destruct (negb (tid a =? id)); cbn; auto.
  constructor; auto. intros I. apply N.
  apply in_map_iff in I. destruct I as (t & E & I). apply filter_In in I.
  apply in_map_iff. exists t. tauto.
Qed.

Lemma Pool_remove id l n r : Pool l n r -> Pool (remove_timer id l) n r.
Proof.
  intros (A & B & C & D). repeat split; auto using NoDup_remove_timer.
  - intros t I. apply In_remove_timer in I. apply A. tauto.
  - intros t I. apply In_remove_timer in I. apply D. tauto.
Qed.

Lemma Pool_forget l n r : Pool l n r -> Pool l n None.
Proof.
  intros (A & B & C & D). repeat split; auto; [discriminate|].
  intros t _ _. discriminate.
Qed.

Lemma Pool_fresh_NoDup l n (t : Timer) :
  (forall t', In t' l -> tid t' < n) -> NoDup (map tid l) -> tid t = n ->
  NoDup (map tid (t :: l)).
Proof.
  intros A C E. cbn. constructor; auto. intros I.
  apply in_map_iff in I. destruct I as (t' & E' & I). apply A in I. lia.
Qed.

Lemma Pool_add l n r d tk :
  Pool l n r -> Pool (mkTimer n d tk :: l) (n + 1) r.
Proof.
  intros (A & B & C & D). repeat split.
  - intros t [<-|I]; cbn; [lia|]. apply A in I. lia.
  - intros id E. apply B in E. lia.
  - apply Pool_fresh_NoDup with (n := n); auto.
  - intros t [<-|I] T; cbn; auto.
    intros E. apply B in E. lia.
Qed.

Lemma Pool_add_ref l n r d tk :
  Pool l n r -> tk <> TickInterval -> Pool (mkTimer n d tk :: l) (n + 1) (Some n).
Proof.
  intros (A & B & C & D) N. repeat split.
  - intros t [<-|I]; cbn; [lia|]. apply A in I. lia.
  - intros id [= <-]. lia.
  - apply Pool_fresh_NoDup with (n := n); auto.
  - intros t [<-|I] T; cbn in *; [congruence|].
    intros [= E]. apply A in I. lia.
Qed.

Lemma Pool_retick l n r t0 d :
  Pool l n r -> In t0 l -> task t0 = TickInterval ->
  Pool (mkTimer (tid t0) d TickInterval :: remove_timer (tid t0) l) n r.
Proof.
  intros P I0 T0. pose proof (Pool_remove (tid t0) _ _ _ P) as (A & B & C & D).
  destruct P as (A0 & _ & _ & D0).
  repeat split; auto.
  - intros t [<-|I]; cbn; auto.
  - cbn. constructor; auto. intros I.
    apply in_map_iff in I. destruct I as (t & E & I).
    apply In_remove_timer in I. tauto.
  - intros t [<-|I] T; cbn; auto.
Qed.

Create HintDb pool.
#[local] Hint Resolve Pool_remove Pool_forget Pool_add Pool_add_ref Pool_retick : pool.

Lemma handles_fresh_handle e s : handles_fresh s -> handles_fresh (handle e s).
Proof.
  unfold handles_fresh. intros P.
  destruct e as [| | | | | |ed|id| |ms]; cbn [handle].
  1-7,10: revert P; unfold_handlers; destruct s; cbn;
    repeat match goal with x : TimerState |- _ => destruct x end;
    repeat match goal with x : DialogType |- _ => destruct x end;
    repeat match goal with x : option Z |- _ => destruct x end; cbn;
    eauto 6 with pool.
  - unfold expire. destruct (find_timer id (timers s)) as [t0|] eqn:F; auto.
    apply find_timer_In in F. destruct F as [F <-].
    destruct (task t0) as [|env|env] eqn:T.
    + pose proof (Pool_retick _ _ _ t0 (Z.max (now s) (due t0) + 1000) P F T) as Q.
      revert Q. unfold tickCallback. destruct s; cbn. auto.
    + pose proof (Pool_remove (tid t0) _ _ _ P) as Q.
      revert Q. unfold playNextReminder, setTimer.
      destruct (_ && _); destruct s; cbn; eauto with pool.
    + pose proof (Pool_remove (tid t0) _ _ _ P) as Q.
      revert Q. unfold resumeNextReminder, playReminder.
      destruct (cap_showDialog env); destruct s; cbn; auto.
  - unfold settle. destruct (promises s) as [|env r] eqn:E; auto.
    unfold afterPlay, setTimer. revert P.
    destruct (_ <? _); destruct s; cbn; intros P; auto.
    eapply Pool_add_ref; eauto. discriminate.
Qed.

Lemma handles_fresh_run_effects p c :
  handles_fresh c -> handles_fresh (run_effects p c).
Proof.
  unfold handles_fresh. intros P.
  assert (forall r s, Pool (timers s) (nextId s) (reminderIntervalRef s) ->
            Pool (timers (timer_body r (timer_cleanup s)))
                 (nextId (timer_body r (timer_cleanup s)))
                 (reminderIntervalRef (timer_body r (timer_cleanup s)))) as T.
  { intros r s. unfold timer_body, timer_cleanup, clearInterval, setTimer.
    destruct (_ && _); destruct s; cbn;
      repeat match goal with x : option Z |- _ => destruct x end; cbn;
      eauto 6 with pool. }
  assert (forall r s, Pool (timers s) (nextId s) (reminderIntervalRef s) ->
            Pool (timers (expiry_body r s)) (nextId (expiry_body r s))
                 (reminderIntervalRef (expiry_body r s))) as E.
  { intros r s. unfold expiry_body, setTimer, playReminder.
    destruct (_ && _); auto.
    destruct (1 <? _); destruct s; cbn; auto.
    intros Q. eapply Pool_add_ref; eauto. discriminate. }
  assert (forall r s, Pool (timers s) (nextId s) (reminderIntervalRef s) ->
            Pool (timers (dialog_body r s)) (nextId (dialog_body r s))
                 (reminderIntervalRef (dialog_body r s))) as D.
  { intros r s. unfold dialog_body, cancelReminder, clearInterval, stopAllAudio.
    destruct (negb (showDialog r)); auto.
    destruct s; cbn;
      repeat match goal with x : option Z |- _ => destruct x end; cbn;
      eauto 6 with pool. }
  unfold run_effects. cbv zeta.
  destruct (dep_timer p c), (dep_expiry p c), (dep_dialog p c); auto.
Qed.

Lemma handles_fresh_reachable s : reachable s -> handles_fresh s.
Proof.
  induction 1 as [loaded|s e R IH].
  - assert (handles_fresh (dialog_body first_render
              (expiry_body first_render (timer_body first_render first_render)))) as M.
    { vm_compute. repeat split; try constructor; try discriminate; intros t []. }
    unfold mount. cbv zeta. destruct loaded as [st|]; auto.
  - unfold step, commit.
    now apply handles_fresh_run_effects, handles_fresh_run_effects, handles_fresh_handle.
Qed.

Lemma NoDup_tid_inj l (a b : Timer) :
  NoDup (map tid l) -> In a l -> In b l -> tid a = tid b -> a = b.
Proof.
  induction l as [|x l IH]; cbn; [tauto|].
  intros N. inversion N as [|y z Nx Nl]; subst.
  intros [<-|Ia] [<-|Ib] E; auto.
  - exfalso. apply Nx. rewrite E. now apply in_map.
  - exfalso. apply Nx. rewrite <- E. now apply in_map.
Qed.

(** A handler that leaves the clock running keeps a pending interval. *)
Lemma handle_keeps_interval e s t :
  handles_fresh s -> In t (timers s) -> task t = TickInterval ->
  isRunning (handle e s) = true ->
  exists t', In t' (timers (handle e s)) /\ task t' = TickInterval.
Proof.
  intros (F1 & F2 & F3 & F4) I T.
  destruct e as [| | | | | |ed|id| |ms]; cbn [handle].
  1,6,7,10: intros _; exists t; split; auto; revert I; unfold_handlers;
    destruct s; cbn;
    repeat match goal with x : TimerState |- _ => destruct x end; cbn; auto.
  - unfold pauseTimer. destruct s; cbn. discriminate.
  - unfold resetTimer, stopAllAudio, clearInterval. destruct s; cbn.
    repeat match goal with x : option Z |- _ => destruct x end; cbn; discriminate.
  - intros _. exists t. split; auto.
    specialize (F4 t I T). revert I F4.
    unfold handleDialogAction, cancelReminder, stopAllAudio, clearInterval.
    destruct s; cbn.
    repeat match goal with x : DialogType |- _ => destruct x end;
    repeat match goal with x : option Z |- _ => destruct x end; cbn; auto;
      intros I F4; apply In_remove_timer; split; auto; congruence.
  - unfold handleDialogClose, cancelReminder, stopAllAudio, clearInterval.
    destruct s; cbn.
    repeat match goal with x : option Z |- _ => destruct x end; cbn; discriminate.
  - intros _. unfold expire.
    destruct (find_timer id (timers s)) as [t0|] eqn:F; [|eauto].
    apply find_timer_In in F. destruct F as [F <-].
    assert (task t0 <> TickInterval -> In t (remove_timer (tid t0) (timers s))) as K.
    { intros N. apply In_remove_timer. split; auto. intros E.
      apply (NoDup_tid_inj _ _ _ F3 I F) in E. congruence. }
    destruct (task t0) as [|env|env] eqn:T0.
    + exists (mkTimer (tid t0) (Z.max (now s) (due t0) + 1000) TickInterval).
      split; [|reflexivity].
      unfold tickCallback. destruct s; cbn. left. reflexivity.
    + exists t. split; auto. specialize (K ltac:(discriminate)). revert K.
      unfold playNextReminder, setTimer.
      destruct (_ && _); destruct s; cbn; auto.
    + exists t. split; auto. specialize (K ltac:(discriminate)). revert K.
      unfold resumeNextReminder, playReminder.
      destruct (cap_showDialog env); destruct s; cbn; auto.
  - intros _. exists t. split; auto. revert I.
    unfold settle. destruct (promises s) as [|env r]; auto.
    unfold afterPlay, setTimer. destruct (_ <? _); destruct s; cbn; auto.
Qed.

(** X22.  The clock never stalls: in every reachable state in which the
    clock runs with time left, exactly one interval is pending, under the
    handle in [intervalRef]; no command, edit, re-check or settled audio
    promise removes it. *)
Theorem clock_never_stalls (s : State) :
  reachable s -> isRunning s = true -> 0 < timeLeft s ->
  intervals s = 1%nat
  /\ exists t, In t (timers s) /\ task t = TickInterval
               /\ intervalRef s = Some (tid t).
Proof.
  intros R.
  assert (isRunning s = true -> 0 < timeLeft s ->
          exists t, In t (timers s) /\ task t = TickInterval) as Live.
  { induction R as [loaded|s e R IH].
    - destruct (mount_fields loaded) as (_ & _ & _ & M). intros E.
      exfalso. revert E. destruct loaded; vm_compute; discriminate.
    - unfold step. set (c := handle e s).
      rewrite commit_timeLeft, commit_isRunning.
      intros Rn L.
      assert (expired c = false) as X.
      { unfold expired. replace (timeLeft c =? 0) with false; auto.
        symmetry. apply Z.eqb_neq. lia. }
      assert (enters s c = false) as E by (unfold enters; rewrite X; apply andb_false_r).
      rewrite E in Rn. rewrite commit_no_entry by exact E.
      pose proof (handles_fresh_handle e s (handles_fresh_reachable s R)) as G.
      fold c in G.
      assert (forall x,
                (exists t, In t (timers x) /\ task t = TickInterval
                           /\ reminderIntervalRef x <> Some (tid t)) ->
                exists t,
                  In t (timers
                    (let y := if dep_expiry s c then expiry_body c x else x in
                     if dep_dialog s c then dialog_body c y else y))
                  /\ task t = TickInterval) as Fin.
      { intros x (t & It & Tt & Nt). cbv zeta.
        assert ((if dep_expiry s c then expiry_body c x else x) = x) as ->
          by (destruct (dep_expiry s c); auto using expiry_body_skip).
        exists t. split; auto.
        destruct (dep_dialog s c); auto.
        unfold dialog_body. destruct (negb (showDialog c)); auto.
        revert It Nt. unfold cancelReminder, stopAllAudio, clearInterval.
        destruct x; cbn. destruct reminderIntervalRef0; cbn; auto.
        intros It Nt. apply In_remove_timer. split; auto. congruence. }
      unfold run_effects. cbv zeta in *.
      destruct (dep_timer s c) eqn:D; apply Fin.
      + destruct G as (_ & G2 & _).
        exists (mkTimer (nextId c) (now c + 1000) TickInterval).
        assert (reminderIntervalRef (timer_body c (timer_cleanup c)) =
                reminderIntervalRef c) as -> by now autorewrite with frame.
        unfold timer_body. rewrite Rn. apply Z.ltb_lt in L. rewrite L. cbn.
        split; [|split; [reflexivity|]].
        * unfold timer_cleanup, clearInterval, setTimer.
          destruct c; cbn. destruct intervalRef0; cbn; auto.
        * cbn. intros H. apply G2 in H. lia.
      + apply dep_timer_false in D. destruct D as [D1 D2].
        destruct IH as (t & It & Tt); [congruence|lia|].
        destruct (handle_keeps_interval e s t (handles_fresh_reachable s R) It Tt)
          as (t' & It' & Tt'); [exact Rn|].
        exists t'. repeat split; auto.
        destruct G as (_ & _ & _ & G4). now apply G4. }
  intros Rn L. destruct (Live Rn L) as (t & It & Tt).
  destruct (reachable_Inv s R) as (_ & _ & I3).
  split.
  - pose proof (reachable_intervals s R) as Le.
    destruct (intervals s) as [|[|n]] eqn:N; auto; [|lia].
    exfalso. now apply (proj1 (intervals_0 _) N t).
  - exists t. repeat split; auto. now destruct (I3 t It Tt).
Qed.

Lemma clock_never_stalls_witness :
  intervals (run (mount None) [Start; Wait 700; Edit (WorkDurationInput "30")]) = 1%nat.
Proof.
  apply clock_never_stalls.
  - unfold run. cbn [fold_left]. repeat apply reach_step. apply reach_mount.
  - vm_compute. reflexivity.
  - vm_compute. reflexivity.
Defined.

(** * Claims and properties that rest on the lemmas above *)

(** ** Acknowledging the end of work *)



(** ** Triggers in the idle state *)



(** [handleDialogAction] has no guard of its own: run on the idle state,
    where no control calls it, it would arm a rest phase. *)
Lemma acknowledge_while_idle_arms_rest :
  timerState (mount None) = idle
  /\ rendered (mount None) Acknowledge = false
  /\ session (step (mount None) Acknowledge) = (resting, 300, true, None).
Proof. repeat split; vm_compute; reflexivity. Qed.

(** ** Reminder limits through the settings panel *)

Lemma parseInt_toString z : parseInt (toString z) = Some z.
Proof.
  assert (forall d, d <> Decimal.Nil ->
            parseInt (DecimalString.NilEmpty.string_of_uint d) = Some (uintValue d 0)) as U.
  { intros d N. rewrite <- (append_empty (DecimalString.NilEmpty.string_of_uint d)).
    now apply parseInt_uint. }
  destruct (Z.neg_nonneg_cases z) as [Neg|NN].
  - destruct z as [|p|p]; try lia.
    destruct (toString_nonneg (Z.pos p) ltac:(lia)) as (d & D1 & D2 & D3).
    assert (toString (Z.neg p) = String "-" (toString (Z.pos p))) as E.
    { unfold toString. cbn.
      unfold DecimalString.NilZero.string_of_uint.
      pose proof (DecimalPos.Unsigned.to_uint_nonnil p) as N.
      destruct (Pos.to_uint p); congruence. }
    rewrite E, D2.
    change (parseInt (String "-" ?s)) with (option_map Z.opp (parse_unsigned s)).
    assert (parseInt (DecimalString.NilEmpty.string_of_uint d) =
            parse_unsigned (DecimalString.NilEmpty.string_of_uint d)) as P.
    { destruct d as [|d|d|d|d|d|d|d|d|d|d]; try congruence; reflexivity. }
    rewrite <- P, (U d D1), D3. reflexivity.
  - destruct (toString_nonneg z NN) as (d & D1 & D2 & D3).
    rewrite D2, <- D3. now apply U.
Qed.

(** C10.  Whatever text is typed into a reminder input, the limit stored is
    an integer between 1 and 100.  It is the value typed when that is an
    integer in range, 100 for one above, 1 for one below (0 and the
    negative ones included) and 1 for a text that is no number; the other
    limit is left as it is.  The handler of a slider stores the value the
    slider delivers as it is: the range of a slider value is the one the
    [Slider] is declared with, [min={1}] and [max={100}]
    (lines 556-562, 584-590). *)
Theorem reminder_limits_clamped (text : string) (z : Z) (p : TimerSettings) :
  isSafeInteger z ->
  (1 <= workReminders (applyEdit (WorkRemindersInput text) p) <= 100
   /\ 1 <= restReminders (applyEdit (RestRemindersInput text) p) <= 100)
  /\ (workReminders (applyEdit (WorkRemindersInput (toString z)) p)
        = Z.max 1 (Z.min 100 z)
      /\ restReminders (applyEdit (RestRemindersInput (toString z)) p)
           = Z.max 1 (Z.min 100 z))
  /\ (parseInt text = None ->
      workReminders (applyEdit (WorkRemindersInput text) p) = 1
      /\ restReminders (applyEdit (RestRemindersInput text) p) = 1)
  /\ (restReminders (applyEdit (WorkRemindersInput text) p) = restReminders p
      /\ workReminders (applyEdit (RestRemindersInput text) p) = workReminders p)
  /\ (forall v,
       workReminders (applyEdit (WorkRemindersSlider v) p) = v
       /\ restReminders (applyEdit (RestRemindersSlider v) p) = v).
Proof.
  intros _. cbn [applyEdit workReminders restReminders].
  assert (clampReminders (toString z) = Z.max 1 (Z.min 100 z)) as C.
  { unfold clampReminders. rewrite parseInt_toString. cbn [or_default].
    destruct (z =? 0) eqn:E; [apply Z.eqb_eq in E; subst; reflexivity|reflexivity]. }
  assert (parseInt text = None -> clampReminders text = 1) as N
    by (intros N; unfold clampReminders; rewrite N; reflexivity).
  split; [split; apply clampReminders_range|].
  split; [split; exact C|].
  split; [intros E; split; apply N, E|].
  split; [split; reflexivity|].
  intros v. split; reflexivity.
Qed.

Lemma reminder_limits_witness :
  workReminders (applyEdit (WorkRemindersInput "250") defaultSettings) = 100
  /\ workReminders (applyEdit (WorkRemindersInput "-4") defaultSettings) = 1
  /\ workReminders (applyEdit (WorkRemindersInput "often") defaultSettings) = 1.
Proof.
  assert (isSafeInteger 250 /\ isSafeInteger (-4)) as [S1 S2]
    by (unfold isSafeInteger, MAX_SAFE_INTEGER; lia).
  destruct (reminder_limits_clamped "often" 250 defaultSettings S1)
    as (_ & (A & _) & B & _).
  destruct (reminder_limits_clamped "often" (-4) defaultSettings S2)
    as (_ & (A' & _) & _).
  split; [exact A|]. split; [exact A'|].
  apply B. reflexivity.
Defined.

(** ** What a timer does to the remaining time *)

(** X11.  A timer that fires changes the remaining time in one way only:
    either it leaves it as it is, or it is the interval in [intervalRef] of
    a running phase with time left, and takes exactly one second off.  It
    changes neither the phase nor the settings. *)
Theorem timer_takes_one_second_at_most (s : State) (id : Z) :
  reachable s ->
  let s' := step s (Expire id) in
  (timeLeft s' = timeLeft s
   \/ (timeLeft s' = timeLeft s - 1 /\ 0 < timeLeft s /\ isRunning s = true
       /\ timerState s <> idle /\ intervalRef s = Some id))
  /\ timerState s' = timerState s /\ settings s' = settings s.
Proof.
  intros R. cbv zeta. destruct (reachable_Inv s R) as (I1 & _ & K).
  unfold step. rewrite commit_timeLeft, commit_timerState, commit_settings.
  cbn [handle].
  destruct (expire_hooks id s)
    as (A & _ & _ & _ & B & _ & _ & [E|[E (t & T1 & T2 & T3)]]).
  - rewrite E. auto.
  - destruct (K t T1 T3) as (C & D & L). rewrite E. split; [|auto].
    right. repeat split; auto; [|congruence].
    intros I0. destruct (I1 I0). congruence.
Qed.

Lemma timer_takes_one_second_witness :
  timerState (step (step (mount (Some shortPhases)) Start) (Expire 1)) = working.
Proof.
  pose proof (timer_takes_one_second_at_most (step (mount (Some shortPhases)) Start) 1
                (reach_step _ _ (reach_mount _))) as H.
  cbv zeta in H. destruct H as (_ & H & _). rewrite H. vm_compute. reflexivity.
Defined.

(** ** Where a re-check comes from *)

Lemma handle_arms_recheck e s t env :
  In t (timers (handle e s)) -> task t = CallNext env ->
  In t (timers s)
  \/ (e = Settle /\ (exists r, promises s = env :: r)
      /\ currentCount env < maxReminders env - 1 /\ due t = now s).
Proof.
  assert (forall h s0, In t (timers (clearInterval h s0)) -> In t (timers s0)) as Hc.
  { intros h s0 H. apply clearInterval_timers in H. tauto. }
  destruct e as [| | | | | |ed|id| |ms]; cbn [handle]; intros H T.
  1,2,6,7,10: left; revert H; unfold_handlers; destruct s; cbn; case_body; auto.
  - left. unfold resetTimer in H. revert H. unfold stopAllAudio.
    match goal with |- In t (timers (set_log _ ?x)) -> _ =>
      intros H; assert (In t (timers x)) as H' by (revert H; destruct x; cbn; auto) end.
    apply Hc, Hc in H'. revert H'. destruct s; cbn; auto.
  - left. unfold handleDialogAction in H.
    assert (In t (timers (cancelReminder (set_reminderCount 0 (set_showDialog false s))))) as H'.
    { revert H. generalize (cancelReminder (set_reminderCount 0 (set_showDialog false s))).
      intros x. destruct x; cbn. case_body; auto. }
    apply cancelReminder_timers in H'. revert H'. destruct s; cbn; auto.
  - left. unfold handleDialogClose in H.
    apply cancelReminder_timers in H. revert H. destruct s; cbn; auto.
  - left. revert H. unfold expire.
    destruct (find_timer id (timers s)) as [t0|] eqn:F; [|auto].
    destruct (task t0) eqn:T0; unfold_handlers.
    + destruct s; cbn in *. intros [<-|H]; [discriminate T|].
      apply In_remove_timer in H. tauto.
    + destruct s; cbn in *. case_body; cbn.
      * intros [<-|H]; [discriminate T|]. apply In_remove_timer in H. tauto.
      * intros H. apply In_remove_timer in H. tauto.
    + destruct s; cbn in *. case_body; cbn;
        intros H; apply In_remove_timer in H; tauto.
  - revert H. unfold settle. destruct (promises s) as [|env0 r] eqn:P; [auto|].
    unfold afterPlay, setTimer.
    destruct (currentCount env0 <? maxReminders env0 - 1) eqn:L.
    + apply Z.ltb_lt in L. destruct s; cbn in *. intros [<-|H]; [|auto].
      right. cbn in T. injection T as <-.
      repeat split; eauto. cbn. lia.
    + destruct s; cbn. auto.
Qed.

(** X18.  A re-check that is pending after a step was pending before it,
    or was armed in that step, in one of two ways.  The expiry effect arms
    one on entering the reminder with a limit above 1 (line 377): it is due
    15 seconds later and carries the limit of the phase, a count of 0 and
    the [showDialog] of the render in which the effect ran.  An audio
    promise that settles with its count below the limit minus 1 arms one
    (line 366): it is due at once and carries the closure of the promise. *)
Theorem recheck_armed_by_entry_or_settle (s : State) (e : Event) (t : Timer)
    (env : ReminderEnv) :
  In t (timers (step s e)) -> task t = CallNext env ->
  In t (timers s)
  \/ (enters s (handle e s) = true /\ 1 < limitOf (handle e s)
      /\ env = mkEnv (showDialog (handle e s)) (timerState (handle e s))
                 (limitOf (handle e s)) 0
      /\ due t = now (handle e s) + 15000)
  \/ (e = Settle /\ (exists r, promises s = env :: r)
      /\ currentCount env < maxReminders env - 1 /\ due t = now s).
Proof.
  intros H T.
  destruct (effects_arm_recheck s e t env H T) as [H'|H']; [|auto].
  destruct (handle_arms_recheck e s t env H' T); auto.
Qed.

Lemma recheck_armed_witness :
  1 < limitOf (handle (Expire 1) (step (mount (Some shortPhases)) Start)).
Proof.
  destruct (recheck_armed_by_entry_or_settle (step (mount (Some shortPhases)) Start)
              (Expire 1) (mkTimer 2 16000 (CallNext (mkEnv false working 3 0)))
              (mkEnv false working 3 0)) as [H|[(_ & H & _)|(H & _)]].
  - vm_compute. auto.
  - reflexivity.
  - exfalso. vm_compute in H. destruct H as [H|H]; [discriminate H|exact H].
  - exact H.
  - discriminate H.
Defined.

(** ** Cancelling a reminder whose re-check is waiting *)

Lemma find_timer_NoDup l t :
  NoDup (map tid l) -> In t l -> find_timer (tid t) l = Some t.
Proof.
  induction l as [|a l IH]; cbn; [tauto|].
  intros N. inversion N as [|x y Na Nl]; subst.
  intros [<-|I]; [now rewrite Z.eqb_refl|].
  destruct (tid a =? tid t) eqn:E; [|auto].
  apply Z.eqb_eq in E. exfalso. apply Na. rewrite E. now apply in_map.
Qed.

Ltac keep_timer :=
  repeat match goal with
         | |- _ /\ _ => split
         | |- In _ (remove_timer _ _) => apply In_remove_timer; split
         | |- In _ (_ :: _) => right
         | |- _ = _ \/ _ => right
         end;
  auto; try congruence; try lia; try (intros [= ?]; lia).

Lemma unheld_cancel c s t :
  is_cancel c = true -> unheld t s -> unheld t (handle c s).
Proof.
  unfold unheld. destruct c; try discriminate; intros _ (I & F & A & B);
    cbn [handle]; revert I F A B; unfold_handlers; destruct s; cbn;
    repeat match goal with x : DialogType |- _ => destruct x end;
    repeat match goal with x : option Z |- _ => destruct x end; cbn;
    intros; keep_timer.
Qed.

Lemma unheld_run_effects p c t : unheld t c -> unheld t (run_effects p c).
Proof.
  unfold unheld.
  assert (forall r x,
            In t (timers x) /\ tid t < nextId x
            /\ intervalRef x <> Some (tid t) /\ reminderIntervalRef x <> Some (tid t) ->
            let y := timer_body r (timer_cleanup x) in
            In t (timers y) /\ tid t < nextId y
            /\ intervalRef y <> Some (tid t) /\ reminderIntervalRef y <> Some (tid t)) as T.
  { intros r x (I & F & A & B). cbv zeta. revert I F A B.
    unfold timer_body, timer_cleanup, clearInterval, setTimer.
    destruct (_ && _); destruct x; cbn;
      repeat match goal with x : option Z |- _ => destruct x end; cbn;
      intros; keep_timer. }
  assert (forall r x,
            In t (timers x) /\ tid t < nextId x
            /\ intervalRef x <> Some (tid t) /\ reminderIntervalRef x <> Some (tid t) ->
            let y := expiry_body r x in
            In t (timers y) /\ tid t < nextId y
            /\ intervalRef y <> Some (tid t) /\ reminderIntervalRef y <> Some (tid t)) as E.
  { intros r x (I & F & A & B). cbv zeta. revert I F A B.
    unfold expiry_body, setTimer, playReminder.
    destruct (_ && _); [|auto].
    destruct (1 <? _); destruct x; cbn; intros; keep_timer. }
  assert (forall r x,
            In t (timers x) /\ tid t < nextId x
            /\ intervalRef x <> Some (tid t) /\ reminderIntervalRef x <> Some (tid t) ->
            let y := dialog_body r x in
            In t (timers y) /\ tid t < nextId y
            /\ intervalRef y <> Some (tid t) /\ reminderIntervalRef y <> Some (tid t)) as D.
  { intros r x (I & F & A & B). cbv zeta. revert I F A B.
    unfold dialog_body, cancelReminder, clearInterval, stopAllAudio.
    destruct (negb (showDialog r)); [|auto].
    destruct x; cbn;
      repeat match goal with x : option Z |- _ => destruct x end; cbn;
      intros; keep_timer. }
  intros U. unfold run_effects. cbv zeta.
  destruct (dep_timer p c), (dep_expiry p c), (dep_dialog p c);
    repeat first [apply D | apply E | apply T]; exact U.
Qed.

(** C2, on the code.  The cancel handlers discard the re-check that
    [reminderIntervalRef] holds, but a re-check that has started its
    15 seconds' wait is held by no ref, and the test after the wait
    (line 361) reads the [showDialog] of the render that armed it.  So when
    the reminder is cancelled, by acknowledgement, dismissal or reset, while
    a re-check armed under the open dialog is waiting: the handler closes
    the dialog, and after a dismissal or a reset it stays closed; the wait is
    still pending; and when it ends, a repeat notification is played. *)
Theorem live_recheck_sounds_after_cancel (s : State) (c : Event) (t : Timer)
    (env : ReminderEnv) :
  reachable s -> is_cancel c = true ->
  In t (timers s) -> task t = ResumeNext env -> cap_showDialog env = true ->
  intervalRef s <> Some (tid t) -> reminderIntervalRef s <> Some (tid t) ->
  let s1 := step s c in
  let s2 := step s1 (Expire (tid t)) in
  (forall t', In t' (timers (handle c s)) -> reminderIntervalRef s <> Some (tid t'))
  /\ showDialog (handle c s) = false
  /\ (c <> Acknowledge -> showDialog s1 = false)
  /\ In t (timers s1)
  /\ repeats s2 = S (repeats s1)
  /\ In (Notify (Z.max (now s1) (due t))
           (if is_working (cap_timerState env) then WorkEnd else RestEnd) Repeat)
        (log s2).
Proof.
  intros R C I T L A B. cbv zeta.
  destruct (handles_fresh_reachable s R) as (F1 & _).
  assert (unheld t (step s c)) as (I1 & _).
  { unfold step, commit.
    apply unheld_run_effects, unheld_run_effects, unheld_cancel; auto.
    unfold unheld. auto. }
  assert (showDialog (handle c s) = false) as D.
  { destruct c; try discriminate; cbn [handle]; unfold_handlers; destruct s; cbn;
      repeat match goal with x : DialogType |- _ => destruct x end;
      repeat match goal with x : option Z |- _ => destruct x end; reflexivity. }
  split; [intros t'; now apply cancel_discards_recheck|].
  split; [exact D|]. split.
  { intros NA. unfold step. rewrite commit_showDialog, D.
    replace (enters s (handle c s)) with false; auto. symmetry.
    destruct c; try discriminate; try congruence; cbn [handle].
    - unfold enters, expired.
      replace (timerState (resetTimer s)) with idle
        by (unfold_handlers; destruct s; cbn;
            repeat match goal with x : option Z |- _ => destruct x end; reflexivity).
      cbn. now rewrite !andb_false_r.
    - apply same_deps_no_entry; unfold_handlers; destruct s; cbn;
        repeat match goal with x : option Z |- _ => destruct x end; reflexivity. }
  split; [exact I1|].
  set (s1 := step s c) in *.
  assert (reachable s1) as R1 by (apply reach_step; exact R).
  destruct (handles_fresh_reachable s1 R1) as (_ & _ & N & _).
  pose proof (find_timer_NoDup _ _ N I1) as F.
  assert (log (handle (Expire (tid t)) s1) =
          Notify (Z.max (now s1) (due t))
            (if is_working (cap_timerState env) then WorkEnd else RestEnd) Repeat
          :: log s1) as Lg.
  { cbn [handle]. unfold expire. rewrite F, T.
    unfold resumeNextReminder. rewrite L. unfold playReminder.
    destruct s1; reflexivity. }
  split.
  - unfold step at 1. rewrite commit_repeats. unfold repeats. now rewrite Lg.
  - unfold step. unfold commit.
    apply run_effects_log_incl, run_effects_log_incl. rewrite Lg. now left.
Qed.

Lemma live_recheck_witness :
  rendered_valid (mount (Some shortPhases)) (liveRecheckRun ++ [Dismiss]) = true
  /\ showDialog (step liveRecheck Dismiss) = false
  /\ repeats (step (step liveRecheck Dismiss) (Expire 4))
     = S (repeats (step liveRecheck Dismiss)).
Proof.
  split; [vm_compute; reflexivity|].
  assert (reachable liveRecheck) as R.
  { unfold liveRecheck, liveRecheckRun, run. cbn [fold_left].
    repeat apply reach_step. apply reach_mount. }
  pose proof (live_recheck_sounds_after_cancel liveRecheck Dismiss
                (mkTimer 4 31000 (ResumeNext (mkEnv true working 5 1)))
                (mkEnv true working 5 1) R eq_refl
                ltac:(vm_compute; auto) eq_refl eq_refl
                ltac:(vm_compute; discriminate) ltac:(vm_compute; discriminate)) as H.
  cbv zeta in H. destruct H as (_ & _ & H1 & _ & H2 & _).
  split; [apply H1; discriminate|exact H2].
Defined.

(** The failing run of C2, evaluated: the reminder of the expired work
    phase is dismissed at 16 seconds, and the work-end cue is played again
    at 31 seconds, with the dialog closed. *)
Lemma dismissed_reminder_sounds_again :
  let s := run liveRecheck [Dismiss; Expire 4] in
  rendered_valid (mount (Some shortPhases)) (liveRecheckRun ++ [Dismiss; Expire 4]) = true
  /\ session s = (working, 0, false, None)
  /\ log s = [Notify 31000 WorkEnd Repeat; StopAll 16000; StopAll 16000;
              Notify 1000 WorkEnd Entry; Notify 1000 WorkEnd Entry; StopAll 0].
Proof. vm_compute. repeat split. Qed.
